(** * MNIST tutorials: the PyTorch and TensorFlow notebooks

    A shallow embedding of the two notebooks of the repository:

    - the PyTorch notebook: [loaders], the class [CNN], [train] and [test];
    - the TensorFlow notebook: [train_ds]/[test_ds], the class [MyModel],
      [train_step], [test_step] and the epoch loop.

    The notebooks are glue code around two numerical libraries.  What the
    notebooks themselves decide is embedded as it is written: the layer
    stacks and their hyper-parameters, the order of the calls in the loops,
    the local variables, the printed text.  The library calls are modelled
    by their documented behaviour where it is discrete (tensor shapes,
    batching, index of the maximum, broadcasting of [==]) and are left as
    operations of an interface where it is numerical (the values of the
    convolutions, the loss, the gradients, the Adam update, the conversion
    of a float to text). *)

From Stdlib Require Import List ZArith QArith Lia Permutation Bool Arith.
From Stdlib Require Import String Ascii DecimalString.
Import ListNotations.

Local Open Scope Z_scope.

(** ** Python: exceptions, [range], [str] of an integer *)

Module Py.

Inductive exn : Type :=
| IndexError
| UnboundLocalError (name : string)
| ZeroDivisionError
| ValueError (msg : string)
| RuntimeError (msg : string).

(** How a statement ends: normally, or by an exception that nobody
    catches (the notebooks have no [try]). *)
Inductive outcome : Type :=
| Done
| Raised (e : exn).

(** [range(n)]: empty when [n <= 0]. *)
Definition range (n : Z) : list Z := map Z.of_nat (seq 0 (Z.to_nat n)).

(** [str(n)], which is also what [{}] in [str.format] gives for an int. *)
Definition str (n : Z) : string := NilZero.string_of_int (Z.to_int n).

End Py.

(** ** torch: shapes of the layers, [view] *)

Module Torch.

(** [torch.Size]: the list of the dimensions. *)
Definition Size := list Z.

Definition numel (s : Size) : Z := fold_right Z.mul 1 s.

Record Conv2dCfg : Type := Conv2d
  { in_channels : Z; out_channels : Z; kernel_size : Z;
    stride : Z; padding : Z }.

Inductive Module_ : Type :=
| Conv2dLayer (c : Conv2dCfg)
| ReLU
| MaxPool2d (kernel : Z)
| Linear (in_features out_features : Z).

(** Output length of a convolution along one axis (dilation 1), as in the
    documentation of [nn.Conv2d]; [/] is the floor division. *)
Definition conv_out (h k s p : Z) : Z := (h + 2 * p - (k - 1) - 1) / s + 1.

(** Output length of a max-pooling along one axis: the stride defaults to
    the kernel size, no padding. *)
Definition pool_out (h k : Z) : Z := (h - k) / k + 1.

Definition conv2d_hw (c : Conv2dCfg) (h w : Z) : option (Z * Z) :=
  if (kernel_size c <=? h + 2 * padding c) && (kernel_size c <=? w + 2 * padding c)
  then Some (conv_out h (kernel_size c) (stride c) (padding c),
             conv_out w (kernel_size c) (stride c) (padding c))
  else None.

(** The shape a layer returns, [None] where the library raises (wrong
    rank, wrong number of channels or features, kernel larger than the
    input).  Convolution and pooling take a batched 4-D input or an
    unbatched 3-D one. *)
Definition apply (m : Module_) (x : Size) : option Size :=
  match m with
  | Conv2dLayer c =>
      match x with
      | [n; ch; h; w] =>
          if ch =? in_channels c then
            match conv2d_hw c h w with
            | Some (h', w') => Some [n; out_channels c; h'; w']
            | None => None
            end
          else None
      | [ch; h; w] =>
          if ch =? in_channels c then
            match conv2d_hw c h w with
            | Some (h', w') => Some [out_channels c; h'; w']
            | None => None
            end
          else None
      | _ => None
      end
  | ReLU => Some x
  | MaxPool2d k =>
      match x with
      | [n; ch; h; w] =>
          if (k <=? h) && (k <=? w)
          then Some [n; ch; pool_out h k; pool_out w k] else None
      | [ch; h; w] =>
          if (k <=? h) && (k <=? w)
          then Some [ch; pool_out h k; pool_out w k] else None
      | _ => None
      end
  | Linear fin fout =>
      match rev x with
      | d :: batch_dims => if d =? fin then Some (rev (fout :: batch_dims)) else None
      | [] => None
      end
  end.

(** [nn.Sequential]: the layers, applied in order. *)
Fixpoint Sequential (layers : list Module_) (x : Size) : option Size :=
  match layers with
  | [] => Some x
  | m :: rest =>
      match apply m x with
      | Some y => Sequential rest y
      | None => None
      end
  end.

(** [x.view( *args )] with at most one [-1], which is inferred from the
    number of elements.  The library raises when the sizes do not
    multiply to the number of elements and when the [-1] is ambiguous
    (the known sizes multiply to 0). *)
Definition view (x : Size) (args : list Z) : option Size :=
  let is_hole := fun d => d =? -1 in
  let known := fold_right Z.mul 1 (filter (fun d => negb (is_hole d)) args) in
  if existsb (fun d => d <? -1) args then None
  else
    match List.length (filter is_hole args) with
    | O => if known =? numel x then Some args else None
    | S O =>
        if known =? 0 then None
        else if numel x mod known =? 0
             then Some (map (fun d => if is_hole d then numel x / known else d) args)
             else None
    | _ => None
    end.

(** [x.size(i)]; an index out of range raises. *)
Definition size (x : Size) (i : nat) : option Z := nth_error x i.

End Torch.

(** ** The PyTorch notebook: the class [CNN] on shapes *)

Module CNN.

Import Torch.

Record t : Type := Build
  { conv1 : list Module_; conv2 : list Module_; out : Module_ }.

(** [CNN.__init__] *)
Definition init : t :=
  {| conv1 := [ Conv2dLayer (Conv2d 1 16 5 1 2); ReLU; MaxPool2d 2 ];
     conv2 := [ Conv2dLayer (Conv2d 16 32 5 1 2); ReLU; MaxPool2d 2 ];
     out := Linear (32 * 7 * 7) 10 |}.

(** [CNN.forward]: returns the pair [(output, x)]. *)
Definition forward (self : t) (x : Size) : option (Size * Size) :=
  match Sequential (conv1 self) x with
  | None => None
  | Some x =>
      match Sequential (conv2 self) x with
      | None => None
      | Some x =>
          match size x 0 with
          | None => None
          | Some n =>
              match view x [n; -1] with
              | None => None
              | Some x =>
                  match apply (out self) x with
                  | None => None
                  | Some output => Some (output, x)
                  end
              end
          end
      end
  end.

End CNN.

(** ** Keras: shapes of the layers *)

Module Keras.

Definition Shape := list Z.

Inductive Layer : Type :=
| Conv2D (filters kernel_size : Z)   (* padding 'valid', strides 1 *)
| Flatten
| Dense (units : Z).

(** The shape a layer returns on its first call (the weights are built
    from the input shape then), [None] where the library raises. *)
Definition apply (l : Layer) (x : Shape) : option Shape :=
  match l with
  | Conv2D filters k =>
      match x with
      | [n; h; w; _] =>
          if (k <=? h) && (k <=? w)
          then Some [n; h - k + 1; w - k + 1; filters] else None
      | _ => None
      end
  | Flatten =>
      match x with
      | [] => None
      | [n] => Some [n; 1]
      | n :: rest => Some [n; fold_right Z.mul 1 rest]
      end
  | Dense units =>
      match rev x with
      | _ :: (_ :: _) as batch_dims => Some (rev (units :: batch_dims))
      | _ => None
      end
  end.

End Keras.

(** ** The TensorFlow notebook: the class [MyModel] on shapes *)

Module MyModel.

Import Keras.

Record t : Type := Build
  { conv1 : Layer; flatten : Layer; d1 : Layer; d2 : Layer }.

(** [MyModel.__init__] *)
Definition init : t :=
  {| conv1 := Conv2D 32 3; flatten := Flatten; d1 := Dense 128; d2 := Dense 10 |}.

(** [MyModel.call] *)
Definition call (self : t) (x : Shape) : option Shape :=
  match apply (conv1 self) x with
  | None => None
  | Some x =>
      match apply (flatten self) x with
      | None => None
      | Some x =>
          match apply (d1 self) x with
          | None => None
          | Some x => apply (d2 self) x
          end
      end
  end.

End MyModel.

(** ** Batching *)

Module Batching.

(** The loop of [torch.utils.data.BatchSampler.__iter__] with
    [drop_last=False], which is also what [tf.data.Dataset.batch] does
    with [drop_remainder=False]: items are appended to the current batch,
    a full batch is yielded, and what is left at the end is yielded when
    it is not empty. *)
Fixpoint chunks {A : Type} (batch_size : nat) (batch : list A) (items : list A)
  : list (list A) :=
  match items with
  | [] => match batch with [] => [] | _ :: _ => [batch] end
  | x :: rest =>
      let batch := (batch ++ [x])%list in
      if (List.length batch =? batch_size)%nat
      then batch :: chunks batch_size [] rest
      else chunks batch_size batch rest
  end.

(** The least number of batches of [b] items that hold [n] items. *)
Definition ceil_div (n b : nat) : nat := ((n + b - 1) / b)%nat.

(** What iterating a Python iterable shows: the items it yields and how
    it ends ([Done] for [StopIteration]). *)
Definition generator (A : Type) : Type := (list A * Py.outcome)%type.

(** A [for] loop whose body may raise. *)
Fixpoint for_each {S A : Type} (body : S -> A -> S * Py.outcome)
  (s : S) (items : list A) : S * Py.outcome :=
  match items with
  | [] => (s, Py.Done)
  | a :: rest =>
      match body s a with
      | (s', Py.Done) => for_each body s' rest
      | (s', Py.Raised e) => (s', Py.Raised e)
      end
  end.

(** [for a in gen: body]: the exception that ends the generator, if any,
    is raised after the body has run on the items yielded before. *)
Definition for_gen {S A : Type} (body : S -> A -> S * Py.outcome)
  (s : S) (gen : generator A) : S * Py.outcome :=
  match for_each body s (fst gen) with
  | (s', Py.Done) => (s', snd gen)
  | r => r
  end.

(** [enumerate(l)] *)
Definition enumerate {A : Type} (l : list A) : list (nat * A) :=
  combine (seq 0 (List.length l)) l.

End Batching.

(** ** torch: [DataLoader], [torch.max] along dimension 1, [==] and [sum] *)

Module DataLoader.

Import Batching.

(** A map-style dataset is the list of its samples; a sample is an image
    and its label. *)
Record t (Img : Type) : Type := Build
  { dataset : list (Img * nat); batch_size : nat; shuffle : bool }.
Arguments Build {Img}.
Arguments dataset {Img}.
Arguments batch_size {Img}.
Arguments shuffle {Img}.

(** [DataLoader(dataset, batch_size=..., shuffle=...)]; [None] is the
    [ValueError] of the constructor: the batch size must be positive, and
    the random sampler of a shuffled loader refuses an empty dataset
    ("num_samples should be a positive integer value"). *)
Definition init {Img} (ds : list (Img * nat)) (batch_size : nat) (shuffle : bool)
  : option (t Img) :=
  if (batch_size =? 0)%nat then None
  else if shuffle && (List.length ds =? 0)%nat then None
  else Some (Build ds batch_size shuffle).

(** A batch after the default collate function: the images stacked and
    the labels stacked. *)
Definition Batch (Img : Type) : Type := (list Img * list nat)%type.

(** [len(loader)] with [drop_last=False]. *)
Definition len {Img} (dl : t Img) : nat :=
  ((List.length (dataset dl) + batch_size dl - 1) / batch_size dl)%nat.

(** The samples of a batch, image by image. *)
Definition samples {Img} (b : list Img * list nat) : list (Img * nat) :=
  combine (fst b) (snd b).

(** [[dataset[i] for i in indices]]; [None] is the [IndexError] of an
    index out of range. *)
Fixpoint fetch {Img} (ds : list (Img * nat)) (indices : list nat)
  : option (list (Img * nat)) :=
  match indices with
  | [] => Some []
  | i :: rest =>
      match nth_error ds i, fetch ds rest with
      | Some s, Some ss => Some (s :: ss)
      | _, _ => None
      end
  end.

(** The samples at the indices that are in range: what [fetch] returns
    when it returns. *)
Definition fetched {Img} (ds : list (Img * nat)) (indices : list nat)
  : list (Img * nat) :=
  flat_map (fun i => match nth_error ds i with Some s => [s] | None => [] end) indices.

Definition collate {Img} (samples : list (Img * nat)) : Batch Img :=
  (map fst samples, map snd samples).

(** The batches are fetched one at a time, as the loop asks for them. *)
Fixpoint fetch_batches {Img} (ds : list (Img * nat)) (index_batches : list (list nat))
  : generator (Batch Img) :=
  match index_batches with
  | [] => ([], Py.Done)
  | ib :: rest =>
      match fetch ds ib with
      | None => ([], Py.Raised Py.IndexError)
      | Some samples =>
          let (bs, fin) := fetch_batches ds rest in (collate samples :: bs, fin)
      end
  end.

(** The order of the sampler: [RandomSampler] draws a permutation of the
    indices (here [perm], what the generator returned for this
    traversal), [SequentialSampler] is [range(len(dataset))]. *)
Definition sampler {Img} (dl : t Img) (perm : list nat) : list nat :=
  if shuffle dl then perm else seq 0 (List.length (dataset dl)).

(** One traversal, [iter(loader)]. *)
Definition iter {Img} (dl : t Img) (perm : list nat) : generator (Batch Img) :=
  fetch_batches (dataset dl) (chunks (batch_size dl) [] (sampler dl perm)).

End DataLoader.

Module TorchOps.

(** Scan of a row for the index of its maximum: the current best is
    replaced only by a strictly larger score. *)
Fixpoint max_from (best : Q) (best_i : nat) (i : nat) (row : list Q) : nat :=
  match row with
  | [] => best_i
  | s :: rest =>
      if Qle_bool s best
      then max_from best best_i (S i) rest
      else max_from s i (S i) rest
  end.

(** [torch.max(t, 1)[1]] on one row; the library raises on a row of
    length 0.  Scores are finite floats, taken as the rationals they
    denote. *)
Definition max_index (row : list Q) : option nat :=
  match row with
  | [] => None
  | s :: rest => Some (max_from s 0 1 rest)
  end.

Fixpoint max_indices (rows : list (list Q)) : option (list nat) :=
  match rows with
  | [] => Some []
  | r :: rest =>
      match max_index r, max_indices rest with
      | Some i, Some is_ => Some (i :: is_)
      | _, _ => None
      end
  end.

Definition count_eq (p : nat) (labels : list nat) : Z :=
  Z.of_nat (List.length (filter (Nat.eqb p) labels)).

Definition count_pairs (pred labels : list nat) : Z :=
  Z.of_nat (List.length (filter (fun pl => Nat.eqb (fst pl) (snd pl)) (combine pred labels))).

(** [(pred_y == labels).sum().item()] where [pred_y] has been squeezed:
    a single prediction is a 0-dimensional tensor and is compared with
    every label; otherwise the two 1-dimensional tensors are compared
    element by element, a single label being broadcast; other lengths do
    not broadcast and the library raises ([None]). *)
Definition eq_sum (pred labels : list nat) : option Z :=
  match pred with
  | [p] => Some (count_eq p labels)
  | _ =>
      if (List.length pred =? List.length labels)%nat then Some (count_pairs pred labels)
      else match labels with
           | [l] => Some (count_eq l pred)
           | _ => None
           end
  end.

End TorchOps.

(** ** The PyTorch notebook: [loaders], [train], [test] *)

(** The numerical side of the notebook.  Floats are taken as the rationals
    they denote.  The operations return on every input: a shape error
    raised inside the numerical library is outside this model. *)
Class TorchTypes : Type :=
  { Img : Type;          (* one image of the dataset *)
    Params : Type;       (* the weights of [cnn] *)
    Grad : Type;         (* the [.grad] buffers of the weights *)
    OptState : Type;     (* the moment estimates and step count of Adam *)
    Feat : Type          (* the second component of [cnn(x)] *) }.

Class TorchNumerics {T : TorchTypes} : Type :=
  { (** [cnn(x)] under the weights and the training flag of the module *)
    cnn : Params -> bool -> list Img -> list (list Q) * Feat;
    (** [nn.CrossEntropyLoss()] *)
    loss_func : list (list Q) -> list nat -> Q;
    (** the gradient with respect to the weights of
        [loss_func(cnn(b_x)[0], b_y)], which [loss.backward()] computes *)
    autograd : Params -> bool -> list Img -> list nat -> Grad;
    grad_add : Grad -> Grad -> Grad;
    (** one update of [optim.Adam(cnn.parameters(), lr = 0.01)] *)
    adam : OptState -> Params -> Grad -> Params * OptState;
    (** the [k]-th draw of [torch.randperm(n)] by the random sampler *)
    randperm : nat -> nat -> list nat;
    (** a float in fixed notation with [d] decimals: ['%.3f' % x] and
        ['{:.4f}'.format(x)] *)
    format_f : nat -> Q -> string }.

Module Pytorch.

Import Batching.

Section Notebook.

Context {T : TorchTypes}.

(** The dictionary [loaders]; its keys are ['train'] and ['test']. *)
Record Loaders : Type := MkLoaders
  { loader_train : DataLoader.t Img; loader_test : DataLoader.t Img }.

(** The cell that builds [loaders]; [None] when a constructor raises. *)
Definition loaders (train_data test_data : list (Img * nat)) : option Loaders :=
  match DataLoader.init train_data 100 true, DataLoader.init test_data 100 true with
  | Some tr, Some te => Some {| loader_train := tr; loader_test := te |}
  | _, _ => None
  end.

(** The calls with an effect, in the order they are made. *)
Inductive Event : Type :=
| Forward (training : bool) (images : list Img)   (* cnn(...) *)
| Loss (labels : list nat) (value : Q)            (* loss_func(output, b_y) *)
| ZeroGrad                                        (* optimizer.zero_grad() *)
| Backward                                        (* loss.backward() *)
| Step                                            (* optimizer.step() *)
| Print (line : string).

(** The globals of the notebook and the state of the library. *)
Record World : Type := MkWorld
  { the_loaders : Loaders;
    cnn_params : Params;
    cnn_training : bool;
    cnn_grad : option Grad;
    optimizer : OptState;
    grad_enabled : bool;
    rng : nat;
    calls : list Event }.

(** The datasets the loaders were built from. *)
Definition train_data (w : World) : list (Img * nat) :=
  DataLoader.dataset (loader_train (the_loaders w)).

Definition test_data (w : World) : list (Img * nat) :=
  DataLoader.dataset (loader_test (the_loaders w)).

Definition emit (w : World) (e : Event) : World :=
  MkWorld (the_loaders w) (cnn_params w) (cnn_training w) (cnn_grad w)
          (optimizer w) (grad_enabled w) (rng w) (calls w ++ [e]).

Definition set_training (w : World) (b : bool) : World :=
  MkWorld (the_loaders w) (cnn_params w) b (cnn_grad w)
          (optimizer w) (grad_enabled w) (rng w) (calls w).

Definition set_grad_enabled (w : World) (b : bool) : World :=
  MkWorld (the_loaders w) (cnn_params w) (cnn_training w) (cnn_grad w)
          (optimizer w) b (rng w) (calls w).

Definition set_grad (w : World) (g : option Grad) : World :=
  MkWorld (the_loaders w) (cnn_params w) (cnn_training w) g
          (optimizer w) (grad_enabled w) (rng w) (calls w).

Definition set_rng (w : World) (k : nat) : World :=
  MkWorld (the_loaders w) (cnn_params w) (cnn_training w) (cnn_grad w)
          (optimizer w) (grad_enabled w) k (calls w).

Definition set_weights (w : World) (p : Params) (o : OptState) : World :=
  MkWorld (the_loaders w) p (cnn_training w) (cnn_grad w)
          o (grad_enabled w) (rng w) (calls w).

(** The weights, their gradient buffers and the state of the optimizer
    are the same in both worlds. *)
Definition frame (w w' : World) : Prop :=
  cnn_params w' = cnn_params w
  /\ optimizer w' = optimizer w
  /\ cnn_grad w' = cnn_grad w.

(** The loaders, the two modes and the count of draws are the same in
    both worlds. *)
Definition same (w w' : World) : Prop :=
  grad_enabled w' = grad_enabled w
  /\ cnn_training w' = cnn_training w
  /\ the_loaders w' = the_loaders w
  /\ rng w' = rng w.

(** What has been printed. *)
Definition stdout (w : World) : list string :=
  flat_map (fun e => match e with Print l => [l] | _ => [] end) (calls w).

Context {num : TorchNumerics}.

(** [optimizer.zero_grad()] *)
Definition zero_grad (w : World) : World := emit (set_grad w None) ZeroGrad.

(** [loss.backward()]: adds the gradient of the loss to the [.grad]
    buffers.  A loss computed with gradients disabled has no graph, and
    the library raises. *)
Definition backward (w : World) (b_x : list Img) (b_y : list nat) : World * Py.outcome :=
  if grad_enabled w then
    let g := autograd (cnn_params w) (cnn_training w) b_x b_y in
    let g := match cnn_grad w with None => g | Some g0 => grad_add g0 g end in
    (emit (set_grad w (Some g)) Backward, Py.Done)
  else (w, Py.Raised (Py.RuntimeError "element 0 of tensors does not require grad")).

(** [optimizer.step()]: weights without a gradient are skipped. *)
Definition step (w : World) : World :=
  match cnn_grad w with
  | None => emit w Step
  | Some g =>
      let (p, o) := adam (optimizer w) (cnn_params w) g in
      emit (set_weights w p o) Step
  end.

(** One traversal of a loader: a shuffled one draws a new permutation.
    The random sampler divides the number of samples by the size of the
    dataset before it draws ([num_samples // n]): over an empty dataset
    its iteration raises [ZeroDivisionError], and no batch is yielded. *)
Definition traverse (w : World) (dl : DataLoader.t Img)
  : World * generator (DataLoader.Batch Img) :=
  if DataLoader.shuffle dl
  then match DataLoader.dataset dl with
       | [] => (w, ([], Py.Raised Py.ZeroDivisionError))
       | _ :: _ =>
           (set_rng w (S (rng w)),
            DataLoader.iter dl (randperm (rng w) (List.length (DataLoader.dataset dl))))
       end
  else (w, DataLoader.iter dl []).

(** The batches of the traversal that uses the [k]-th draw. *)
Definition batches_of_draw (dl : DataLoader.t Img) (k : nat)
  : list (DataLoader.Batch Img) :=
  fst (DataLoader.iter dl (randperm k (List.length (DataLoader.dataset dl)))).

Definition progress_line (epoch num_epochs i total_step : Z) (loss : Q) : string :=
  ("Epoch [" ++ Py.str epoch ++ "/" ++ Py.str num_epochs ++ "], Step ["
     ++ Py.str i ++ "/" ++ Py.str total_step ++ "], Loss: " ++ format_f 4 loss)%string.

(** The body of the inner loop of [train]. *)
Definition train_body (num_epochs : Z) (total_step : nat) (epoch : Z)
  (w : World) (ib : nat * DataLoader.Batch Img) : World * Py.outcome :=
  let '(i, (images, labels)) := ib in
  let b_x := images in
  let b_y := labels in
  let output := fst (cnn (cnn_params w) (cnn_training w) b_x) in
  let w := emit w (Forward (cnn_training w) b_x) in
  let loss := loss_func output b_y in
  let w := emit w (Loss b_y loss) in
  let w := zero_grad w in
  match backward w b_x b_y with
  | (w, Py.Raised e) => (w, Py.Raised e)
  | (w, Py.Done) =>
      let w := step w in
      if (Z.of_nat i + 1) mod 100 =? 0
      then (emit w (Print (progress_line (epoch + 1) num_epochs (Z.of_nat i + 1)
                                         (Z.of_nat total_step) loss)), Py.Done)
      else (w, Py.Done)
  end.

Definition train_epoch (num_epochs : Z) (total_step : nat)
  (w : World) (epoch : Z) : World * Py.outcome :=
  let (w, gen) := traverse w (loader_train (the_loaders w)) in
  for_gen (train_body num_epochs total_step epoch) w (enumerate (fst gen), snd gen).

(** [train(num_epochs, cnn, loaders)] *)
Definition train (num_epochs : Z) (w : World) : World * Py.outcome :=
  let w := set_training w true in
  let total_step := DataLoader.len (loader_train (the_loaders w)) in
  for_each (train_epoch num_epochs total_step) w (Py.range num_epochs).

(** The local variables of [test] that outlive an iteration. *)
Record Locals : Type := MkLocals
  { correct : Z; total : Z; accuracy : option Q }.

(** The body of the loop of [test]. *)
Definition test_body (st : World * Locals) (b : DataLoader.Batch Img)
  : (World * Locals) * Py.outcome :=
  let '(w, l) := st in
  let '(images, labels) := b in
  let '(test_output, last_layer) := cnn (cnn_params w) (cnn_training w) images in
  let w := emit w (Forward (cnn_training w) images) in
  match TorchOps.max_indices test_output with
  | None => ((w, l), Py.Raised Py.IndexError)   (* [max] over a dimension of size 0 *)
  | Some pred_y =>
      match TorchOps.eq_sum pred_y labels with
      | None => ((w, l), Py.Raised (Py.RuntimeError "the sizes of the tensors must match"))
      | Some n =>
          if (List.length labels =? 0)%nat
          then ((w, l), Py.Raised Py.ZeroDivisionError)
          else
            let acc := (inject_Z n / inject_Z (Z.of_nat (List.length labels)))%Q in
            ((w, MkLocals (correct l) (total l) (Some acc)), Py.Done)
      end
  end.

(** The loop of [test], from [correct = 0] to the end of the [for]. *)
Definition test_loop (w : World) : (World * Locals) * Py.outcome :=
  let l := {| correct := 0; total := 0; accuracy := None |} in
  let (w, gen) := traverse w (loader_test (the_loaders w)) in
  for_gen test_body (w, l) gen.

Definition report_line (acc : Q) : string :=
  ("Test Accuracy of the model on the 10000 test images: " ++ format_f 3 acc)%string.

(** [test()]: [cnn.eval()], then the loop and the [print] under
    [torch.no_grad()], which restores the gradient mode when it is left,
    also by an exception. *)
Definition test (w : World) : World * Py.outcome :=
  let w := set_training w false in
  let prev := grad_enabled w in
  let w := set_grad_enabled w false in
  let (w, r) :=
    match test_loop w with
    | ((w, l), Py.Done) =>
        match accuracy l with
        | None => (w, Py.Raised (Py.UnboundLocalError "accuracy"))
        | Some a => (emit w (Print (report_line a)), Py.Done)
        end
    | ((w, _), Py.Raised e) => (w, Py.Raised e)
    end in
  (set_grad_enabled w prev, r).

End Notebook.

End Pytorch.

(** ** The TensorFlow notebook: datasets, [train_step], [test_step], the epoch loop *)

Class TfNumerics : Type :=
  { Image : Type;
    Variables : Type;    (* [model.trainable_variables] *)
    Gradients : Type;
    AdamState : Type;
    (** [model(images, training=...)] *)
    model : Variables -> bool -> list Image -> list (list Q);
    (** [SparseCategoricalCrossentropy(from_logits=True)] *)
    loss_object : list nat -> list (list Q) -> Q;
    (** [tape.gradient(loss, model.trainable_variables)] for the loss of
        this batch *)
    tape_gradient : Variables -> list Image -> list nat -> Gradients;
    (** [optimizer.apply_gradients(zip(gradients, variables))] *)
    apply_gradients : AdamState -> Variables -> Gradients -> Variables * AdamState;
    (** the order in which the [k]-th traversal of a shuffled dataset
        yields its elements *)
    shuffled : nat -> list (Image * nat) -> list (Image * nat);
    (** a scalar tensor inside an f-string *)
    str_tensor : Q -> string }.

Module Tensorflow.

Import Batching.

Section Notebook.

Context {num : TfNumerics}.

(** [from_tensor_slices((x, y))], optionally [.shuffle(buffer)], then
    [.batch(n)]. *)
Record Dataset : Type := MkDataset
  { elements : list (Image * nat); shuffle_buffer : option Z; batch : nat }.

Definition train_ds (xy_train : list (Image * nat)) : Dataset :=
  {| elements := xy_train; shuffle_buffer := Some 10000; batch := 32 |}.

Definition test_ds (xy_test : list (Image * nat)) : Dataset :=
  {| elements := xy_test; shuffle_buffer := None; batch := 32 |}.

(** The batches of one traversal; [k] counts the traversals of shuffled
    datasets made so far. *)
Definition batches (ds : Dataset) (k : nat) : list (list Image * list nat) :=
  let order := match shuffle_buffer ds with
               | Some _ => shuffled k (elements ds)
               | None => elements ds
               end in
  map (fun b => (map fst b, map snd b)) (chunks (batch ds) [] order).

(** [tf.keras.metrics.Mean] and [SparseCategoricalAccuracy]: a total and
    a count. *)
Record Metric : Type := MkMetric { m_total : Q; m_count : Q }.

Definition reset_states (_ : Metric) : Metric := MkMetric 0 0.

Definition mean_update (m : Metric) (v : Q) : Metric :=
  MkMetric (m_total m + v) (m_count m + 1).

(** A row counts when its first maximum is at the label.  The rows and
    the labels of a call are those of one batch. *)
Definition matches (labels : list nat) (predictions : list (list Q)) : Z :=
  Z.of_nat (List.length
    (filter (fun lp => match TorchOps.max_index (snd lp) with
                       | Some i => Nat.eqb i (fst lp)
                       | None => false
                       end) (combine labels predictions))).

Definition accuracy_update (m : Metric) (labels : list nat)
  (predictions : list (list Q)) : Metric :=
  MkMetric (m_total m + inject_Z (matches labels predictions))
           (m_count m + inject_Z (Z.of_nat (List.length labels))).

(** [result()]: the quotient, 0 when the count is 0. *)
Definition result (m : Metric) : Q :=
  if Qeq_bool (m_count m) 0 then 0 else m_total m / m_count m.

Inductive MetricName : Type := TrainLoss | TrainAccuracy | TestLoss | TestAccuracy.

Inductive Event : Type :=
| Model (training : bool) (images : list Image)
| LossObject (labels : list nat) (value : Q)
| TapeGradient
| ApplyGradients
| MetricCall (m : MetricName)
| ResetStates (m : MetricName)
| Print (line : string).

Record World : Type := MkWorld
  { xy_train : list (Image * nat);   (* [(x_train, y_train)], sample by sample *)
    xy_test : list (Image * nat);
    variables : Variables;
    optimizer : AdamState;
    train_loss : Metric;
    train_accuracy : Metric;
    test_loss : Metric;
    test_accuracy : Metric;
    traversals : nat;
    calls : list Event }.

(** The data and the count of traversals are the same in both worlds. *)
Definition same (w w' : World) : Prop :=
  xy_train w' = xy_train w
  /\ xy_test w' = xy_test w
  /\ traversals w' = traversals w.

(** The variables of the model and the state of the optimizer are the
    same in both worlds. *)
Definition frame (w w' : World) : Prop :=
  variables w' = variables w
  /\ optimizer w' = optimizer w.

Definition emit (w : World) (e : Event) : World :=
  MkWorld (xy_train w) (xy_test w) (variables w) (optimizer w)
          (train_loss w) (train_accuracy w) (test_loss w) (test_accuracy w)
          (traversals w) (calls w ++ [e]).

Definition set_variables (w : World) (v : Variables) (o : AdamState) : World :=
  MkWorld (xy_train w) (xy_test w) v o
          (train_loss w) (train_accuracy w) (test_loss w) (test_accuracy w)
          (traversals w) (calls w).

Definition set_traversals (w : World) (k : nat) : World :=
  MkWorld (xy_train w) (xy_test w) (variables w) (optimizer w)
          (train_loss w) (train_accuracy w) (test_loss w) (test_accuracy w)
          k (calls w).

Definition get_metric (w : World) (n : MetricName) : Metric :=
  match n with
  | TrainLoss => train_loss w
  | TrainAccuracy => train_accuracy w
  | TestLoss => test_loss w
  | TestAccuracy => test_accuracy w
  end.

Definition set_metric (w : World) (n : MetricName) (m : Metric) : World :=
  match n with
  | TrainLoss =>
      MkWorld (xy_train w) (xy_test w) (variables w) (optimizer w)
              m (train_accuracy w) (test_loss w) (test_accuracy w)
              (traversals w) (calls w)
  | TrainAccuracy =>
      MkWorld (xy_train w) (xy_test w) (variables w) (optimizer w)
              (train_loss w) m (test_loss w) (test_accuracy w)
              (traversals w) (calls w)
  | TestLoss =>
      MkWorld (xy_train w) (xy_test w) (variables w) (optimizer w)
              (train_loss w) (train_accuracy w) m (test_accuracy w)
              (traversals w) (calls w)
  | TestAccuracy =>
      MkWorld (xy_train w) (xy_test w) (variables w) (optimizer w)
              (train_loss w) (train_accuracy w) (test_loss w) m
              (traversals w) (calls w)
  end.

Definition call_mean (w : World) (n : MetricName) (v : Q) : World :=
  emit (set_metric w n (mean_update (get_metric w n) v)) (MetricCall n).

Definition call_accuracy (w : World) (n : MetricName)
  (labels : list nat) (predictions : list (list Q)) : World :=
  emit (set_metric w n (accuracy_update (get_metric w n) labels predictions))
       (MetricCall n).

Definition call_reset (w : World) (n : MetricName) : World :=
  emit (set_metric w n (reset_states (get_metric w n))) (ResetStates n).

(** [train_step(images, labels)] *)
Definition train_step (w : World) (b : list Image * list nat) : World :=
  let (images, labels) := b in
  let predictions := model (variables w) true images in
  let w := emit w (Model true images) in
  let loss := loss_object labels predictions in
  let w := emit w (LossObject labels loss) in
  let gradients := tape_gradient (variables w) images labels in
  let w := emit w TapeGradient in
  let (v, o) := apply_gradients (optimizer w) (variables w) gradients in
  let w := emit (set_variables w v o) ApplyGradients in
  let w := call_mean w TrainLoss loss in
  call_accuracy w TrainAccuracy labels predictions.

(** [test_step(images, labels)] *)
Definition test_step (w : World) (b : list Image * list nat) : World :=
  let (images, labels) := b in
  let predictions := model (variables w) false images in
  let w := emit w (Model false images) in
  let t_loss := loss_object labels predictions in
  let w := emit w (LossObject labels t_loss) in
  let w := call_mean w TestLoss t_loss in
  call_accuracy w TestAccuracy labels predictions.

(** One traversal of a dataset by a [for] loop. *)
Definition traverse (w : World) (ds : Dataset)
  : World * list (list Image * list nat) :=
  match shuffle_buffer ds with
  | Some _ => (set_traversals w (S (traversals w)), batches ds (traversals w))
  | None => (w, batches ds (traversals w))
  end.

Definition epoch_line (epoch : Z) (w : World) : string :=
  ("Epoch " ++ Py.str (epoch + 1) ++ ", "
     ++ "Loss: " ++ str_tensor (result (train_loss w)) ++ ", "
     ++ "Accuracy: " ++ str_tensor (result (train_accuracy w) * 100) ++ ", "
     ++ "Test Loss: " ++ str_tensor (result (test_loss w)) ++ ", "
     ++ "Test Accuracy: " ++ str_tensor (result (test_accuracy w) * 100))%string.

(** The body of [for epoch in range(EPOCHS)]. *)
Definition epoch_body (w : World) (epoch : Z) : World :=
  let w := call_reset w TrainLoss in
  let w := call_reset w TrainAccuracy in
  let w := call_reset w TestLoss in
  let w := call_reset w TestAccuracy in
  let (w, train_batches) := traverse w (train_ds (xy_train w)) in
  let w := fold_left train_step train_batches w in
  let (w, test_batches) := traverse w (test_ds (xy_test w)) in
  let w := fold_left test_step test_batches w in
  emit w (Print (epoch_line epoch w)).

(** The last cell of the notebook. *)
Definition epoch_loop (EPOCHS : Z) (w : World) : World :=
  fold_left epoch_body (Py.range EPOCHS) w.

End Notebook.

End Tensorflow.

(** ** The steps of a training loop *)

Module TrainingLoop.

(** The kinds of steps a loop makes on a batch; the calls of both
    notebooks are read as such steps. *)
Inductive LoopStep (I : Type) : Type :=
| Scores (training : bool) (images : list I)
| LossOf (labels : list nat)
| ClearGradients
| ComputeGradients
| OptimizerUpdate
| RunningLoss
| RunningAccuracy.
Arguments Scores {I}.
Arguments LossOf {I}.
Arguments ClearGradients {I}.
Arguments ComputeGradients {I}.
Arguments OptimizerUpdate {I}.
Arguments RunningLoss {I}.
Arguments RunningAccuracy {I}.

(** The five steps per batch as the specification of the training loop
    lists them: scores in training mode, loss against the labels,
    gradients, one optimizer update, update of the running loss. *)
Definition five_steps {I : Type} (b : list I * list nat) : list (LoopStep I) :=
  [ Scores true (fst b); LossOf (snd b); ComputeGradients; OptimizerUpdate; RunningLoss ].

(** The kinds of steps that list names. *)
Definition is_one_of_five {I : Type} (s : LoopStep I) : bool :=
  match s with
  | Scores _ _ | LossOf _ | ComputeGradients | OptimizerUpdate | RunningLoss => true
  | ClearGradients | RunningAccuracy => false
  end.

(** The steps of [E] epochs, where [batches_of e] are the batches of the
    [e]-th traversal. *)
Definition epochs {I S : Type} (per_batch : list I * list nat -> list S)
  (E : nat) (batches_of : nat -> list (list I * list nat)) : list S :=
  flat_map (fun e => flat_map per_batch (batches_of e)) (seq 0 E).

(** What [train] of the PyTorch notebook does on a batch. *)
Definition torch_steps {I : Type} (b : list I * list nat) : list (LoopStep I) :=
  [ Scores true (fst b); LossOf (snd b); ClearGradients; ComputeGradients; OptimizerUpdate ].

(** What [train_step] of the TensorFlow notebook does on a batch. *)
Definition tf_steps {I : Type} (b : list I * list nat) : list (LoopStep I) :=
  [ Scores true (fst b); LossOf (snd b); ComputeGradients; OptimizerUpdate;
    RunningLoss; RunningAccuracy ].

(** What [test_step] does on a batch. *)
Definition tf_eval_steps {I : Type} (b : list I * list nat) : list (LoopStep I) :=
  [ Scores false (fst b); LossOf (snd b) ].

Definition of_torch {T : TorchTypes} (e : Pytorch.Event) : list (LoopStep Img) :=
  match e with
  | Pytorch.Forward training images => [Scores training images]
  | Pytorch.Loss labels _ => [LossOf labels]
  | Pytorch.ZeroGrad => [ClearGradients]
  | Pytorch.Backward => [ComputeGradients]
  | Pytorch.Step => [OptimizerUpdate]
  | Pytorch.Print _ => []
  end.

Definition of_tf {num : TfNumerics} (e : Tensorflow.Event) : list (LoopStep Image) :=
  match e with
  | Tensorflow.Model training images => [Scores training images]
  | Tensorflow.LossObject labels _ => [LossOf labels]
  | Tensorflow.TapeGradient => [ComputeGradients]
  | Tensorflow.ApplyGradients => [OptimizerUpdate]
  | Tensorflow.MetricCall Tensorflow.TrainLoss => [RunningLoss]
  | Tensorflow.MetricCall Tensorflow.TrainAccuracy => [RunningAccuracy]
  | Tensorflow.MetricCall _ => []
  | Tensorflow.ResetStates _ => []
  | Tensorflow.Print _ => []
  end.

(** The steps a world has seen. *)
Definition torch_log {T : TorchTypes} (w : Pytorch.World) : list (LoopStep Img) :=
  flat_map of_torch (Pytorch.calls w).

Definition tf_log {num : TfNumerics} (w : Tensorflow.World) : list (LoopStep Image) :=
  flat_map of_tf (Tensorflow.calls w).

End TrainingLoop.

(** ** The class of the highest score *)

Module Prediction.

(** [i] is the index of the first maximum of [row]: the score at [i] is
    at least every score of the row and strictly above every score
    before it. *)
Definition is_first_max (row : list Q) (i : nat) : Prop :=
  exists m,
    nth_error row i = Some m
    /\ (forall j s, nth_error row j = Some s -> (s <= m)%Q)
    /\ (forall j s, (j < i)%nat -> nth_error row j = Some s -> (s < m)%Q).

End Prediction.

(** ** The text of the reports *)

Module Report.

(** The values of the [Loss] calls, in order. *)
Definition losses {T : TorchTypes} (evs : list Pytorch.Event) : list Q :=
  flat_map (fun e => match e with Pytorch.Loss _ v => [v] | _ => [] end) evs.

(** The lines of epoch [e] (from 0) of [train], where [vs] are the
    losses of its batches from batch [i] (from 0) on: one line for every
    batch whose number (from 1) is a multiple of 100, with the epoch, the
    batch number and the loss of that batch. *)
Fixpoint epoch_lines_from {T : TorchTypes} {num : TorchNumerics}
  (num_epochs total_step : Z) (e i : nat) (vs : list Q) : list string :=
  match vs with
  | [] => []
  | v :: rest =>
      ((if (Z.of_nat i + 1) mod 100 =? 0
        then [Pytorch.progress_line (Z.of_nat e + 1) num_epochs
                (Z.of_nat i + 1) total_step v]
        else [])
         ++ epoch_lines_from num_epochs total_step e (S i) rest)%list
  end.

Definition epoch_lines {T : TorchTypes} {num : TorchNumerics}
  (num_epochs total_step : Z) (e : nat) (vs : list Q) : list string :=
  epoch_lines_from num_epochs total_step e 0 vs.

(** The lines of [train], where [vss] are the losses epoch by epoch,
    from epoch [e] on. *)
Fixpoint train_lines_from {T : TorchTypes} {num : TorchNumerics}
  (num_epochs total_step : Z) (e : nat) (vss : list (list Q)) : list string :=
  match vss with
  | [] => []
  | vs :: rest =>
      (epoch_lines num_epochs total_step e vs
         ++ train_lines_from num_epochs total_step (S e) rest)%list
  end.

(** The line after evaluation when the count in it is the size [N] of
    the test partition. *)
Definition report_line_of_size {T : TorchTypes} {num : TorchNumerics}
  (N : Z) (acc : Q) : string :=
  ("Test Accuracy of the model on the " ++ Py.str N ++ " test images: "
     ++ format_f 3 acc)%string.

End Report.

(** ** A model with other features *)

(** The same numerics, except that the second component of [cnn(x)] is
    given by [g]. *)
Definition replace_features {T : TorchTypes} (num : TorchNumerics)
  (g : Params -> bool -> list Img -> Feat) : TorchNumerics :=
  {| cnn := fun p training x => (fst (cnn p training x), g p training x);
     loss_func := loss_func;
     autograd := autograd;
     grad_add := grad_add;
     adam := adam;
     randperm := randperm;
     format_f := format_f |}.

(** ** A small instance of the numerical interfaces *)

Module Small.

Fixpoint zeros (n : nat) : string :=
  match n with
  | O => EmptyString
  | S n' => String "0" (zeros n')
  end.

Definition pad_zeros (d : nat) (s : string) : string :=
  (zeros (d - String.length s) ++ s)%string.

(** Fixed notation with [d] decimals, rounding to the nearest, halves to
    even. *)
Definition fixed (d : nat) (q : Q) : string :=
  let scale := 10 ^ Z.of_nat d in
  let den := Zpos (Qden q) in
  let n := Z.abs (Qnum q) * scale in
  let fl := n / den in
  let twice := 2 * (n mod den) in
  let m := if twice <? den then fl
           else if den <? twice then fl + 1
           else if Z.even fl then fl else fl + 1 in
  let negative := (Qnum q <? 0) && negb (m =? 0) in
  let int_part := Py.str (m / scale) in
  let frac_part := pad_zeros d (Py.str (m mod scale)) in
  ((if negative then "-" else "") ++ int_part ++ "." ++ frac_part)%string.

Definition types : TorchTypes :=
  {| Img := nat; Params := Z; Grad := Z; OptState := nat; Feat := unit |}.

(** The scores of a model that always answers class 0. *)
Definition class0 : list Q := [1; 0; 0; 0; 0; 0; 0; 0; 0; 0]%Q.

Definition numerics : @TorchNumerics types :=
  {| cnn := fun (p : @Params types) (training : bool) (xs : list (@Img types)) =>
              (map (fun _ => class0) xs, tt : @Feat types);
     loss_func := fun scores labels => (inject_Z (Z.of_nat (List.length labels)) / 4)%Q;
     autograd := fun (p : @Params types) _ _ _ => 1 : @Grad types;
     grad_add := fun (g1 g2 : @Grad types) => g1 + g2 : @Grad types;
     adam := fun (o : @OptState types) (p : @Params types) (g : @Grad types) =>
               (p - g : @Params types, S o : @OptState types);
     randperm := fun _ n => seq 0 n;
     format_f := fixed |}.

(** The world after the cells that build [loaders], [cnn] and
    [optimizer]. *)
Definition world (train_data test_data : list (nat * nat)) : @Pytorch.World types :=
  @Pytorch.MkWorld types
    (@Pytorch.MkLoaders types
       (@DataLoader.Build (@Img types) train_data 100 true)
       (@DataLoader.Build (@Img types) test_data 100 true))
    0 true None 0%nat true 0%nat [].

(** 101 test images: the first 100 are zeros, the last one is a one. *)
Definition test_101 : list (nat * nat) :=
  (map (fun i => (i, 0%nat)) (seq 0 100) ++ [(100%nat, 1%nat)])%list.

Definition tf_numerics : TfNumerics :=
  {| Image := nat; Variables := Z; Gradients := Z; AdamState := nat;
     model := fun _ _ xs => map (fun _ => class0) xs;
     loss_object := fun labels _ => (inject_Z (Z.of_nat (List.length labels)) / 4)%Q;
     tape_gradient := fun _ _ _ => 1;
     apply_gradients := fun o v g => (v - g, S o);
     shuffled := fun _ xs => rev xs;
     str_tensor := fixed 4 |}.

(** Three samples, batched by two. *)
Definition three : list (nat * nat) := [(10, 0); (11, 1); (12, 0)]%nat.

Definition tf_three : @Tensorflow.Dataset tf_numerics :=
  @Tensorflow.MkDataset tf_numerics three (Some 10000) 2.

Definition tf_world (xy_train xy_test : list (nat * nat)) : @Tensorflow.World tf_numerics :=
  @Tensorflow.MkWorld tf_numerics xy_train xy_test 0 0%nat
    (Tensorflow.MkMetric 0 0) (Tensorflow.MkMetric 0 0)
    (Tensorflow.MkMetric 0 0) (Tensorflow.MkMetric 0 0) 0%nat [].

End Small.

(** ** The accuracy of one batch *)

Module Evaluation.

(** The value the body of the loop of [test] assigns to [accuracy] on the
    batch [b], [None] when one of its calls raises. *)
Definition batch_accuracy {T : TorchTypes} {num : TorchNumerics}
  (p : Params) (training : bool) (b : DataLoader.Batch Img) : option Q :=
  match TorchOps.max_indices (fst (cnn p training (fst b))) with
  | None => None
  | Some pred_y =>
      match TorchOps.eq_sum pred_y (snd b) with
      | None => None
      | Some n =>
          if (List.length (snd b) =? 0)%nat then None
          else Some (inject_Z n / inject_Z (Z.of_nat (List.length (snd b))))%Q
      end
  end.

(** The number of samples labelled [c]. *)
Definition count_label {I : Type} (c : nat) (ds : list (I * nat)) : Z :=
  Z.of_nat (List.length (filter (fun s => Nat.eqb (snd s) c) ds)).

(** The model answers class 0 on every image. *)
Definition always_class0 {T : TorchTypes} (num : TorchNumerics) : Prop :=
  forall p training xs,
    TorchOps.max_indices (fst (cnn p training xs)) = Some (map (fun _ => 0%nat) xs).

(** The model returns one row of scores per image, none of them empty. *)
Definition one_row_per_image {T : TorchTypes} (num : TorchNumerics) : Prop :=
  forall p training xs,
    exists pred_y,
      TorchOps.max_indices (fst (cnn p training xs)) = Some pred_y
      /\ List.length pred_y = List.length xs.

(** The batches the traversal of the test loader yields in the world [w]. *)
Definition test_batches {T : TorchTypes} {num : TorchNumerics} (w : Pytorch.World)
  : list (DataLoader.Batch Img) :=
  fst (snd (Pytorch.traverse w (Pytorch.loader_test (Pytorch.the_loaders w)))).

End Evaluation.

(** ** The weights along the training loops *)

Module Trajectory.

(** The weights and the state of the optimizer after the batches [bs],
    each batch giving one Adam update with the gradient of its own loss at
    the current weights. *)
Definition torch_updates {T : TorchTypes} {num : TorchNumerics}
  (po : Params * OptState) (bs : list (DataLoader.Batch Img)) : Params * OptState :=
  fold_left (fun po b => adam (snd po) (fst po) (autograd (fst po) true (fst b) (snd b)))
            bs po.

Definition tf_updates {num : TfNumerics}
  (vo : Variables * AdamState) (bs : list (list Image * list nat)) : Variables * AdamState :=
  fold_left (fun vo b => apply_gradients (snd vo) (fst vo)
                           (tape_gradient (fst vo) (fst b) (snd b)))
            bs vo.

(** The correct predictions of the variables [v] over the batches [bs]. *)
Definition tf_matches {num : TfNumerics}
  (v : Variables) (bs : list (list Image * list nat)) : Z :=
  fold_right (fun b n => Tensorflow.matches (snd b) (model v false (fst b)) + n) 0 bs.

(** The sum of the losses of the batches [bs] under the variables [v],
    one loss per batch. *)
Definition tf_losses {num : TfNumerics}
  (v : Variables) (bs : list (list Image * list nat)) : Q :=
  fold_right (fun b s => (loss_object (snd b) (model v false (fst b)) + s)%Q) 0%Q bs.

(** The correct predictions and the losses during training over the
    batches [bs]: every batch is scored by the variables before its own
    update. *)
Fixpoint tf_train_matches {num : TfNumerics}
  (vo : Variables * AdamState) (bs : list (list Image * list nat)) : Z :=
  match bs with
  | [] => 0
  | b :: rest =>
      Tensorflow.matches (snd b) (model (fst vo) true (fst b))
      + tf_train_matches
          (apply_gradients (snd vo) (fst vo) (tape_gradient (fst vo) (fst b) (snd b)))
          rest
  end.

Fixpoint tf_train_losses {num : TfNumerics}
  (vo : Variables * AdamState) (bs : list (list Image * list nat)) : Q :=
  match bs with
  | [] => 0%Q
  | b :: rest =>
      (loss_object (snd b) (model (fst vo) true (fst b))
       + tf_train_losses
           (apply_gradients (snd vo) (fst vo) (tape_gradient (fst vo) (fst b) (snd b)))
           rest)%Q
  end.

(** What the TensorFlow notebook has printed. *)
Definition tf_stdout {num : TfNumerics} (w : Tensorflow.World) : list string :=
  flat_map (fun e => match e with Tensorflow.Print l => [l] | _ => [] end)
           (Tensorflow.calls w).

End Trajectory.

(** ** The TensorFlow notebook: the cells that prepare the images *)

Module Preprocess.

(** [x / 255.0] on one pixel of the [uint8] images. *)
Definition normalize (pixel : Z) : Q := (inject_Z pixel / 255)%Q.

(** The shape of [x[..., tf.newaxis]]. *)
Definition add_channel (s : Keras.Shape) : Keras.Shape := (s ++ [1])%list.

End Preprocess.

(** * Facts *)

(** ** Batching *)

Module BatchingFacts.

Import Batching.

Lemma ceil_div_bounds (n b : nat) :
(0 < b)%nat -> (n <= ceil_div n b * b < n + b)%nat.
Proof.
intros Hb. unfold ceil_div.
pose proof (Nat.div_mod_eq (n + b - 1) b) as E.
pose proof (Nat.mod_upper_bound (n + b - 1) b ltac:(lia)) as U.
nia.
Qed.

Section Chunks.
Context {A : Type}.
Variable B : nat.
Hypothesis Bpos : (0 < B)%nat.

Lemma chunks_concat (items acc : list A) :
  List.concat (chunks B acc items) = (acc ++ items)%list.
Proof.
  revert acc. induction items as [|x rest IH]; intros acc; cbn [chunks].
  - destruct acc; cbn; [reflexivity | now rewrite !app_nil_r].
  - destruct (Nat.eqb_spec (List.length (acc ++ [x])) B).
    + cbn [List.concat]. rewrite IH. cbn. now rewrite <- app_assoc.
    + rewrite IH. now rewrite <- app_assoc.
Qed.

Lemma ceil_step (n : nat) : ((B + n + B - 1) / B = S ((n + B - 1) / B))%nat.
Proof.
  replace (B + n + B - 1)%nat with ((n + B - 1) + 1 * B)%nat by lia.
  rewrite Nat.div_add by lia. lia.
Qed.

Lemma chunks_length (items acc : list A) :
  (List.length acc < B)%nat ->
  List.length (chunks B acc items)
  = ceil_div (List.length acc + List.length items) B.
Proof.
  unfold ceil_div.
  revert acc. induction items as [|x rest IH]; intros acc Hacc; cbn [chunks].
  - destruct acc as [|a acc]; cbn [List.length].
    + rewrite Nat.div_small by lia. reflexivity.
    + apply Nat.div_unique with (r := List.length acc); cbn in Hacc; lia.
  - destruct (Nat.eqb_spec (List.length (acc ++ [x])) B) as [E|E];
      rewrite length_app in E; cbn [List.length] in *.
    + rewrite IH by (cbn; lia). cbn [List.length].
      replace (List.length acc + S (List.length rest))%nat
        with (B + List.length rest)%nat by lia.
      now rewrite ceil_step.
    + rewrite IH by (rewrite length_app; cbn; lia).
      rewrite length_app. cbn [List.length]. f_equal. lia.
Qed.

Lemma chunks_nil_inv (items : list A) : chunks B [] items = [] -> items = [].
Proof.
  intros H. apply (f_equal (@List.concat A)) in H.
  rewrite chunks_concat in H. exact H.
Qed.

(** Every batch but the last is full. *)
Lemma chunks_full (items acc : list A) (i : nat) :
  (List.length acc < B)%nat ->
  (S i < List.length (chunks B acc items))%nat ->
  List.length (nth i (chunks B acc items) []) = B.
Proof.
  revert acc i. induction items as [|x rest IH]; intros acc i Hacc; cbn [chunks].
  - destruct acc; cbn; lia.
  - destruct (Nat.eqb_spec (List.length (acc ++ [x])) B) as [E|E].
    + cbn [List.length]. intros Hi. destruct i as [|i]; cbn [nth]; [exact E|].
      apply IH; [cbn; lia | lia].
    + apply IH. rewrite length_app in *. cbn [List.length] in *. lia.
Qed.

Lemma chunks_last (items acc : list A) :
  (List.length acc < B)%nat ->
  chunks B acc items <> [] ->
  List.length (last (chunks B acc items) [])
  = (if ((List.length acc + List.length items) mod B =? 0)%nat then B
     else (List.length acc + List.length items) mod B)%nat.
Proof.
  revert acc. induction items as [|x rest IH]; intros acc Hacc; cbn [chunks].
  - destruct acc as [|a acc]; [congruence|]. intros _.
    cbn [last List.length]. rewrite Nat.add_0_r, Nat.mod_small by exact Hacc.
    reflexivity.
  - destruct (Nat.eqb_spec (List.length (acc ++ [x])) B) as [E|E];
      rewrite length_app in E; cbn [List.length] in *.
    + intros _.
      replace (List.length acc + S (List.length rest))%nat
        with (List.length rest + 1 * B)%nat by lia.
      rewrite Nat.Div0.mod_add.
      destruct (chunks B [] rest) as [|b bs] eqn:Ech.
      * apply chunks_nil_inv in Ech. subst rest. cbn [last List.length].
        rewrite Nat.Div0.mod_0_l. cbn. rewrite length_app. cbn. lia.
      * change (last ((acc ++ [x]) :: b :: bs) []) with (last (b :: bs) []).
        rewrite <- Ech. rewrite IH; [reflexivity | cbn; lia | rewrite Ech; discriminate].
    + intros Hne. rewrite IH; [| rewrite length_app; cbn; lia | exact Hne].
      rewrite length_app. cbn [List.length].
      replace (List.length acc + 1 + List.length rest)%nat
        with (List.length acc + S (List.length rest))%nat by lia.
      reflexivity.
Qed.
End Chunks.

End BatchingFacts.

(** ** The batches of a [DataLoader] *)

Module DataLoaderFacts.

Import Batching BatchingFacts.

Section Fetch.
Context {Img : Type}.
Variable ds : list (Img * nat).

Lemma fetch_in_range (indices : list nat) :
  Forall (fun i => (i < List.length ds)%nat) indices ->
  DataLoader.fetch ds indices = Some (DataLoader.fetched ds indices)
  /\ List.length (DataLoader.fetched ds indices) = List.length indices.
Proof.
  induction 1 as [|i rest Hi _ [IHf IHl]]; [now split|].
  cbn [DataLoader.fetch]. unfold DataLoader.fetched in *. cbn [flat_map].
  destruct (nth_error ds i) as [s|] eqn:E.
  - rewrite IHf. cbn. split; [reflexivity | now rewrite IHl].
  - apply nth_error_None in E. lia.
Qed.

Lemma fetched_range : DataLoader.fetched ds (seq 0 (List.length ds)) = ds.
Proof.
  unfold DataLoader.fetched.
  induction ds as [|s l IH] using rev_ind; [reflexivity|].
  rewrite length_app, Nat.add_comm. cbn [List.length Nat.add].
  rewrite seq_S, flat_map_app. cbn [flat_map Nat.add].
  rewrite nth_error_app2, Nat.sub_diag by lia. cbn. f_equal.
  rewrite <- IH at 2. rewrite !flat_map_concat_map. f_equal.
  apply map_ext_in.
  intros i Hi. apply in_seq in Hi. rewrite nth_error_app1 by lia. reflexivity.
Qed.

Lemma fetched_concat (ibs : list (list nat)) :
  flat_map (DataLoader.fetched ds) ibs = DataLoader.fetched ds (List.concat ibs).
Proof.
  unfold DataLoader.fetched.
  induction ibs as [|ib rest IH]; [reflexivity|].
  cbn [flat_map List.concat]. now rewrite flat_map_app, IH.
Qed.

Lemma samples_collate (ss : list (Img * nat)) :
  DataLoader.samples (DataLoader.collate ss) = ss.
Proof.
  unfold DataLoader.samples, DataLoader.collate. cbn [fst snd].
  induction ss as [|[x y] ss IH]; [reflexivity|]. cbn. now rewrite IH.
Qed.

(** With every index in range, the traversal ends normally and yields
    the batches of the samples at the indices. *)
Lemma fetch_batches_in_range (ibs : list (list nat)) :
  Forall (Forall (fun i => (i < List.length ds)%nat)) ibs ->
  DataLoader.fetch_batches ds ibs
  = (map (fun ib => DataLoader.collate (DataLoader.fetched ds ib)) ibs, Py.Done).
Proof.
  induction 1 as [|ib rest Hib _ IH]; [reflexivity|].
  cbn [DataLoader.fetch_batches].
  destruct (fetch_in_range ib Hib) as [-> _]. now rewrite IH.
Qed.
End Fetch.

Lemma Forall_concat_inv {A} (P : A -> Prop) (ls : list (list A)) :
  Forall P (List.concat ls) -> Forall (Forall P) ls.
Proof.
  induction ls as [|l ls IH]; cbn [List.concat]; intros H; [constructor|].
  apply Forall_app in H. destruct H. constructor; auto.
Qed.

Lemma last_map {A B} (f : A -> B) (l : list A) (d : A) :
  last (map f l) (f d) = f (last l d).
Proof.
  induction l as [|a [|b l] IH]; [reflexivity | reflexivity |].
  exact IH.
Qed.

Lemma last_In {A} (l : list A) (d : A) : l <> [] -> In (last l d) l.
Proof.
  induction l as [|a [|b l] IH]; intros H; [congruence | now left |].
  right. apply IH. discriminate.
Qed.

Section Traversal.
Context {Img : Type}.
Variables (ds : list (Img * nat)) (B : nat) (order : list nat).
Hypothesis Bpos : (0 < B)%nat.
Hypothesis order_perm : Permutation order (seq 0 (List.length ds)).

Let ibs := chunks B [] order.
Let bs := map (fun ib => DataLoader.collate (DataLoader.fetched ds ib)) ibs.

Lemma order_in_range : Forall (fun i => (i < List.length ds)%nat) order.
Proof.
  apply Forall_forall. intros i Hi.
  apply (Permutation_in _ order_perm), in_seq in Hi. lia.
Qed.

Lemma order_length : List.length order = List.length ds.
Proof. rewrite (Permutation_length order_perm). apply length_seq. Qed.

Lemma chunks_in_range : Forall (Forall (fun i => (i < List.length ds)%nat)) ibs.
Proof.
  apply Forall_concat_inv. unfold ibs. rewrite chunks_concat.
  apply order_in_range.
Qed.

Lemma traversal_batches : DataLoader.fetch_batches ds ibs = (bs, Py.Done).
Proof. apply fetch_batches_in_range, chunks_in_range. Qed.

Lemma traversal_count : List.length bs = ceil_div (List.length ds) B.
Proof.
  unfold bs, ibs. rewrite length_map, chunks_length by (cbn; lia).
  cbn [List.length Nat.add]. now rewrite order_length.
Qed.

Lemma traversal_covers : Permutation (flat_map DataLoader.samples bs) ds.
Proof.
  unfold bs. rewrite flat_map_concat_map, map_map.
  rewrite (map_ext _ (DataLoader.fetched ds)) by (intros; apply samples_collate).
  rewrite <- flat_map_concat_map, fetched_concat.
  unfold ibs. rewrite chunks_concat. cbn [app].
  apply (Permutation_trans (l' := DataLoader.fetched ds (seq 0 (List.length ds)))).
  - unfold DataLoader.fetched. apply Permutation_flat_map, order_perm.
  - now rewrite fetched_range.
Qed.

Lemma batch_size_at (i : nat) :
  List.length (fst (nth i bs ([], []))) = List.length (nth i ibs []).
Proof.
  unfold bs.
  destruct (Nat.lt_ge_cases i (List.length ibs)) as [Hi|Hi].
  - rewrite (nth_indep _ _ (DataLoader.collate (DataLoader.fetched ds [])))
      by now rewrite length_map.
    rewrite (map_nth (fun ib => DataLoader.collate (DataLoader.fetched ds ib))).
    cbn [DataLoader.collate fst]. rewrite length_map.
    apply fetch_in_range.
    pose proof chunks_in_range as H. rewrite Forall_forall in H.
    apply H, nth_In, Hi.
  - rewrite !nth_overflow by (rewrite ?length_map; lia). reflexivity.
Qed.

Lemma traversal_full (i : nat) :
  (S i < List.length bs)%nat -> List.length (fst (nth i bs ([], []))) = B.
Proof.
  intros Hi. rewrite batch_size_at. unfold bs in Hi. rewrite length_map in Hi.
  apply chunks_full; [exact Bpos | cbn; lia | exact Hi].
Qed.

Lemma traversal_last :
  bs <> [] ->
  List.length (fst (last bs ([], [])))
  = (if (List.length ds mod B =? 0)%nat then B else List.length ds mod B)%nat.
Proof.
  intros Hne.
  assert (Hib : ibs <> []) by (intros E; apply Hne; unfold bs; now rewrite E).
  unfold bs.
  change (@nil Img, @nil nat) with (DataLoader.collate (DataLoader.fetched ds [])).
  rewrite (last_map (fun ib => DataLoader.collate (DataLoader.fetched ds ib))).
  cbn [DataLoader.collate fst]. rewrite length_map.
  pose proof chunks_in_range as H. rewrite Forall_forall in H.
  destruct (fetch_in_range ds _ (H _ (last_In ibs [] Hib))) as [_ ->].
  unfold ibs in *. rewrite chunks_last; [| exact Bpos | cbn; lia | exact Hib].
  cbn [List.length Nat.add]. now rewrite order_length.
Qed.
End Traversal.

(** With a sampler order that is a permutation of the indices, a traversal
    ends normally after ceil(N/B) batches. *)
Lemma iter_done {Img} (dl : DataLoader.t Img) (perm : list nat) :
  (0 < DataLoader.batch_size dl)%nat ->
  Permutation (DataLoader.sampler dl perm) (seq 0 (List.length (DataLoader.dataset dl))) ->
  DataLoader.iter dl perm = (fst (DataLoader.iter dl perm), Py.Done)
  /\ List.length (fst (DataLoader.iter dl perm))
     = ceil_div (List.length (DataLoader.dataset dl)) (DataLoader.batch_size dl).
Proof.
  intros HB Hp. unfold DataLoader.iter.
  rewrite (traversal_batches (DataLoader.dataset dl) (DataLoader.batch_size dl) _ HB Hp).
  cbn [fst]. split; [reflexivity|].
  apply traversal_count; assumption.
Qed.

End DataLoaderFacts.

(** ** The batches of a TensorFlow dataset *)

Module DatasetFacts.

Import Batching BatchingFacts DataLoaderFacts.

Section Batches.
Context {I : Type}.
Variables (xs order : list (I * nat)) (B : nat).
Hypothesis Bpos : (0 < B)%nat.
Hypothesis order_perm : Permutation order xs.

Let bs := map (@DataLoader.collate I) (chunks B [] order).

Lemma batches_count : List.length bs = ceil_div (List.length xs) B.
Proof.
  unfold bs. rewrite length_map, chunks_length by (cbn; lia).
  cbn [List.length Nat.add]. now rewrite (Permutation_length order_perm).
Qed.

Lemma batches_cover : Permutation (flat_map DataLoader.samples bs) xs.
Proof.
  unfold bs. rewrite flat_map_concat_map, map_map.
  rewrite (map_ext _ (fun b => b)) by (intros; apply samples_collate).
  rewrite map_id, chunks_concat. exact order_perm.
Qed.

Lemma batches_full (i : nat) :
  (S i < List.length bs)%nat -> List.length (fst (nth i bs ([], []))) = B.
Proof.
  unfold bs. rewrite length_map. intros Hi.
  change (@nil I, @nil nat) with (@DataLoader.collate I []).
  rewrite (map_nth (@DataLoader.collate I)). cbn [DataLoader.collate fst].
  rewrite length_map. apply chunks_full; [exact Bpos | cbn; lia | exact Hi].
Qed.

Lemma batches_last :
  bs <> [] ->
  List.length (fst (last bs ([], [])))
  = (if (List.length xs mod B =? 0)%nat then B else List.length xs mod B)%nat.
Proof.
  intros Hne.
  assert (Hc : chunks B [] order <> [])
    by (intros E; apply Hne; unfold bs; now rewrite E).
  unfold bs. change (@nil I, @nil nat) with (@DataLoader.collate I []).
  rewrite (last_map (@DataLoader.collate I)). cbn [DataLoader.collate fst].
  rewrite length_map, chunks_last; [| exact Bpos | cbn; lia | exact Hc].
  cbn [List.length Nat.add]. now rewrite (Permutation_length order_perm).
Qed.
End Batches.

End DatasetFacts.


(** ** Loops *)

Module LoopFacts.

Import Batching.

Lemma for_each_ext {S A} (f g : S -> A -> S * Py.outcome) :
(forall s a, f s a = g s a) ->
forall items s, for_each f s items = for_each g s items.
Proof.
intros H items. induction items as [|a rest IH]; intros s; [reflexivity|].
cbn [for_each]. rewrite H. destruct (g s a) as [s' [|e]]; [apply IH | reflexivity].
Qed.

(** A relation that every run of the body respects, however it ends, is
  respected by the loop. *)
Lemma for_each_respects {S A} (R : S -> S -> Prop) (body : S -> A -> S * Py.outcome) :
(forall s, R s s) ->
(forall s1 s2 s3, R s1 s2 -> R s2 s3 -> R s1 s3) ->
(forall s a, R s (fst (body s a))) ->
forall items s, R s (fst (for_each body s items)).
Proof.
intros Hrefl Htrans Hbody items.
induction items as [|a rest IH]; intros s; cbn [for_each]; [apply Hrefl|].
specialize (Hbody s a). destruct (body s a) as [s' [|e]]; cbn [fst] in *.
- eapply Htrans; [exact Hbody | apply IH].
- exact Hbody.
Qed.

Lemma for_gen_respects {S A} (R : S -> S -> Prop) (body : S -> A -> S * Py.outcome) :
(forall s, R s s) ->
(forall s1 s2 s3, R s1 s2 -> R s2 s3 -> R s1 s3) ->
(forall s a, R s (fst (body s a))) ->
forall gen s, R s (fst (for_gen body s gen)).
Proof.
intros Hrefl Htrans Hbody gen s. unfold for_gen.
pose proof (for_each_respects R body Hrefl Htrans Hbody (fst gen) s) as H.
destruct (for_each body s (fst gen)) as [s' [|e]]; exact H.
Qed.

End LoopFacts.

(** ** [test] leaves the weights and the optimizer alone *)

Module PytorchFacts.

Import Batching LoopFacts.

Section Facts.
Context {T : TorchTypes} {num : TorchNumerics}.

Local Abbreviation frame := Pytorch.frame.

Lemma frame_refl w : frame w w.
Proof. now repeat split. Qed.

Lemma frame_trans w1 w2 w3 : frame w1 w2 -> frame w2 w3 -> frame w1 w3.
Proof. unfold Pytorch.frame. intuition congruence. Qed.

Lemma test_body_frame (st : Pytorch.World * Pytorch.Locals) b :
  frame (fst st) (fst (fst (Pytorch.test_body st b))).
Proof.
  destruct st as [w l], b as [images labels]. unfold Pytorch.test_body.
  destruct (cnn _ _ images) as [test_output last_layer].
  destruct (TorchOps.max_indices test_output) as [pred_y|]; [|now repeat split].
  destruct (TorchOps.eq_sum pred_y labels) as [n|]; [|now repeat split].
  destruct (List.length labels =? 0)%nat; now repeat split.
Qed.

Lemma traverse_frame w dl : frame w (fst (Pytorch.traverse w dl)).
Proof.
  unfold Pytorch.traverse.
  destruct (DataLoader.shuffle dl); [destruct (DataLoader.dataset dl)|]; now repeat split.
Qed.

(** The traversal of a shuffled loader over a dataset that is not
    empty. *)
Lemma traverse_shuffled w (ds : list (Img * nat)) (B : nat) :
  ds <> [] ->
  Pytorch.traverse w (DataLoader.Build ds B true)
  = (Pytorch.set_rng w (S (Pytorch.rng w)),
     DataLoader.iter (DataLoader.Build ds B true)
                     (randperm (Pytorch.rng w) (List.length ds))).
Proof.
  intros Hne. unfold Pytorch.traverse. cbn [DataLoader.shuffle DataLoader.dataset].
  destruct ds; [congruence | reflexivity].
Qed.

Lemma test_loop_frame w : frame w (fst (fst (Pytorch.test_loop w))).
Proof.
  unfold Pytorch.test_loop.
  pose proof (traverse_frame w (Pytorch.loader_test (Pytorch.the_loaders w))) as Ht.
  destruct (Pytorch.traverse w _) as [w1 gen]. cbn [fst] in Ht.
  eapply frame_trans; [exact Ht|].
  apply (for_gen_respects (fun s s' => frame (fst s) (fst s')) Pytorch.test_body).
  - intros s. apply frame_refl.
  - intros s1 s2 s3. apply frame_trans.
  - apply test_body_frame.
Qed.

Lemma test_frame w :
  frame w (fst (Pytorch.test w))
  /\ Pytorch.grad_enabled (fst (Pytorch.test w)) = Pytorch.grad_enabled w.
Proof.
  unfold Pytorch.test.
  set (w0 := Pytorch.set_grad_enabled (Pytorch.set_training w false) false).
  pose proof (test_loop_frame w0) as H.
  destruct (Pytorch.test_loop w0) as [[w1 l] [|e]]; cbn [fst] in H.
  - destruct (Pytorch.accuracy l); (split; [|reflexivity]);
      destruct H as (H1 & H2 & H3); repeat split; cbn; assumption.
  - split; [|reflexivity]. destruct H as (H1 & H2 & H3); repeat split; cbn; assumption.
Qed.

End Facts.

End PytorchFacts.

(** ** The calls of [train] *)

Module TrainFacts.

Import Batching LoopFacts BatchingFacts DataLoaderFacts.

Section Facts.
Context {T : TorchTypes} {num : TorchNumerics}.

Local Abbreviation same := Pytorch.same.

Lemma train_body_calls (E : Z) (S : nat) (e : Z) (w : Pytorch.World)
  (i : nat) (x : list Img) (y : list nat) :
  Pytorch.grad_enabled w = true ->
  let v := loss_func (fst (cnn (Pytorch.cnn_params w) (Pytorch.cnn_training w) x)) y in
  exists w',
    Pytorch.train_body E S e w (i, (x, y)) = (w', Py.Done)
    /\ Pytorch.calls w'
       = (Pytorch.calls w
            ++ [Pytorch.Forward (Pytorch.cnn_training w) x; Pytorch.Loss y v;
                Pytorch.ZeroGrad; Pytorch.Backward; Pytorch.Step]
            ++ (if (Z.of_nat i + 1) mod 100 =? 0
                then [Pytorch.Print (Pytorch.progress_line (e + 1) E (Z.of_nat i + 1)
                                                          (Z.of_nat S) v)]
                else []))%list
    /\ same w w'.
Proof.
  intros Hg v. unfold Pytorch.train_body, Pytorch.backward, Pytorch.zero_grad.
  cbn [Pytorch.grad_enabled Pytorch.emit Pytorch.set_grad Pytorch.cnn_params
       Pytorch.cnn_training Pytorch.cnn_grad].
  rewrite Hg. unfold Pytorch.step.
  cbn [Pytorch.grad_enabled Pytorch.emit Pytorch.set_grad Pytorch.cnn_params
       Pytorch.cnn_training Pytorch.cnn_grad Pytorch.optimizer].
  destruct (adam _ _ _) as [p o].
  destruct ((Z.of_nat i + 1) mod 100 =? 0); eexists; (split; [reflexivity|]);
    cbn [Pytorch.calls Pytorch.emit Pytorch.set_weights Pytorch.set_grad
         Pytorch.grad_enabled Pytorch.cnn_training Pytorch.the_loaders
         Pytorch.rng];
    rewrite <- ?app_assoc; (split; [reflexivity|]); unfold Pytorch.same;
    cbn [Pytorch.calls Pytorch.emit Pytorch.set_weights Pytorch.set_grad
         Pytorch.grad_enabled Pytorch.cnn_training Pytorch.the_loaders
         Pytorch.rng]; repeat split; try assumption.
Qed.

Lemma same_refl w : same w w.
Proof. now repeat split. Qed.

Lemma same_trans w1 w2 w3 : same w1 w2 -> same w2 w3 -> same w1 w3.
Proof. unfold Pytorch.same. intuition congruence. Qed.

(** The inner loop of [train] over the batches [bs], numbered from [i0]. *)
Lemma inner_loop_calls (E : Z) (S : nat) (e : nat) (bs : list (DataLoader.Batch Img)) :
  forall (i0 : nat) (w : Pytorch.World),
    Pytorch.grad_enabled w = true ->
    Pytorch.cnn_training w = true ->
    exists w' vs,
      for_each (Pytorch.train_body E S (Z.of_nat e)) w
               (combine (seq i0 (List.length bs)) bs) = (w', Py.Done)
      /\ List.length vs = List.length bs
      /\ TrainingLoop.torch_log w'
         = (TrainingLoop.torch_log w ++ flat_map TrainingLoop.torch_steps bs)%list
      /\ Report.losses (Pytorch.calls w') = (Report.losses (Pytorch.calls w) ++ vs)%list
      /\ Pytorch.stdout w'
         = (Pytorch.stdout w ++ Report.epoch_lines_from E (Z.of_nat S) e i0 vs)%list
      /\ same w w'.
Proof.
  induction bs as [|[x y] rest IH]; intros i0 w Hg Ht.
  - exists w, []. cbn. rewrite !app_nil_r. repeat split; reflexivity.
  - cbn [List.length seq combine for_each].
    destruct (train_body_calls E S (Z.of_nat e) w i0 x y Hg) as (w1 & Hb & Hc & Hs).
    match goal with
    | |- context [Pytorch.train_body ?a ?b ?c ?d ?p] =>
        replace (Pytorch.train_body a b c d p) with (w1, Py.Done)
          by (symmetry; exact Hb)
    end.
    pose proof Hs as (Hg1 & Ht1 & _).
    destruct (IH (Datatypes.S i0) w1) as (w' & vs & -> & Hl & Hlog & Hloss & Hout & Hs');
      [congruence | congruence |].
    exists w'. eexists (_ :: vs). split; [reflexivity|].
    split; [cbn; now rewrite Hl|].
    split; [|split; [|split]].
    + rewrite Hlog. unfold TrainingLoop.torch_log. rewrite Hc, Ht, !flat_map_app.
      cbn [flat_map]. rewrite <- app_assoc. f_equal.
      destruct (_ =? 0); reflexivity.
    + rewrite Hloss, Hc. unfold Report.losses. rewrite !flat_map_app.
      rewrite <- app_assoc. f_equal.
      destruct (_ =? 0); reflexivity.
    + rewrite Hout. unfold Pytorch.stdout. rewrite Hc, !flat_map_app.
      cbn [Report.epoch_lines_from]. rewrite <- !app_assoc. f_equal.
      cbn [flat_map app]. destruct (_ =? 0); reflexivity.
    + eapply same_trans; eassumption.
Qed.

(** One epoch of [train]. *)
Lemma train_epoch_calls (E : Z) (St e : nat) (w : Pytorch.World)
  (ds : list (Img * nat)) (Hne : ds <> []) :
  let dl := DataLoader.Build ds 100 true in
  Pytorch.loader_train (Pytorch.the_loaders w) = dl ->
  Pytorch.grad_enabled w = true ->
  Pytorch.cnn_training w = true ->
  Permutation (randperm (Pytorch.rng w) (List.length ds)) (seq 0 (List.length ds)) ->
  exists w' vs,
    Pytorch.train_epoch E St w (Z.of_nat e) = (w', Py.Done)
    /\ List.length vs = ceil_div (List.length ds) 100
    /\ TrainingLoop.torch_log w'
       = (TrainingLoop.torch_log w
            ++ flat_map TrainingLoop.torch_steps
                        (Pytorch.batches_of_draw dl (Pytorch.rng w)))%list
    /\ Report.losses (Pytorch.calls w') = (Report.losses (Pytorch.calls w) ++ vs)%list
    /\ Pytorch.stdout w'
       = (Pytorch.stdout w ++ Report.epoch_lines E (Z.of_nat St) e vs)%list
    /\ Pytorch.grad_enabled w' = true
    /\ Pytorch.cnn_training w' = true
    /\ Pytorch.the_loaders w' = Pytorch.the_loaders w
    /\ Pytorch.rng w' = Datatypes.S (Pytorch.rng w).
Proof.
  intros dl Hdl Hg Ht Hp.
  unfold Pytorch.train_epoch. rewrite Hdl. unfold dl.
  rewrite (PytorchFacts.traverse_shuffled w ds 100 Hne). fold dl.
  destruct (iter_done dl (randperm (Pytorch.rng w) (List.length ds))) as [Hi Hn];
    [cbn; lia | exact Hp |].
  rewrite Hi. unfold for_gen. cbn [fst snd]. unfold enumerate.
  set (bs := fst (DataLoader.iter dl (randperm (Pytorch.rng w) (List.length ds)))) in *.
  destruct (inner_loop_calls E St e bs 0 (Pytorch.set_rng w (Datatypes.S (Pytorch.rng w))))
    as (w' & vs & -> & Hl & Hlog & Hloss & Hout & Hs); [exact Hg | exact Ht |].
  exists w', vs. split; [reflexivity|].
  destruct Hs as (Hg' & Ht' & Hd' & Hr').
  cbn in Hg', Ht', Hd', Hr'.
  repeat split; try congruence; try assumption.
  all: rewrite Hl; exact Hn.
Qed.

(** The epochs of [train], from epoch [e0] on. *)
Lemma epochs_calls (E : Z) (St : nat) (ds : list (Img * nat)) (n : nat)
  (Hne : ds <> []) :
  (forall k, Permutation (randperm k (List.length ds)) (seq 0 (List.length ds))) ->
  forall (e0 : nat) (w : Pytorch.World),
    Pytorch.loader_train (Pytorch.the_loaders w) = DataLoader.Build ds 100 true ->
    Pytorch.grad_enabled w = true ->
    Pytorch.cnn_training w = true ->
    exists w' vss,
      for_each (Pytorch.train_epoch E St) w (map Z.of_nat (seq e0 n)) = (w', Py.Done)
      /\ List.length vss = n
      /\ Forall (fun vs => List.length vs = ceil_div (List.length ds) 100) vss
      /\ TrainingLoop.torch_log w'
         = (TrainingLoop.torch_log w
              ++ TrainingLoop.epochs TrainingLoop.torch_steps n
                   (fun j => Pytorch.batches_of_draw (DataLoader.Build ds 100 true)
                                                     (Pytorch.rng w + j)))%list
      /\ Report.losses (Pytorch.calls w')
         = (Report.losses (Pytorch.calls w) ++ List.concat vss)%list
      /\ Pytorch.stdout w'
         = (Pytorch.stdout w ++ Report.train_lines_from E (Z.of_nat St) e0 vss)%list.
Proof.
  intros Hp. induction n as [|n IH]; intros e0 w Hd Hg Ht.
  - exists w, []. cbn. rewrite !app_nil_r. repeat split; try reflexivity. constructor.
  - cbn [seq map for_each].
    destruct (train_epoch_calls E St e0 w ds Hne Hd Hg Ht (Hp _)) as
      (w1 & vs & -> & Hl & Hlog & Hloss & Hout & Hg1 & Ht1 & Hd1 & Hr1).
    rewrite <- Hd1 in Hd.
    destruct (IH (Datatypes.S e0) w1 Hd Hg1 Ht1)
      as (w' & vss & -> & Hl' & Hall & Hlog' & Hloss' & Hout').
    exists w', (vs :: vss). split; [reflexivity|].
    split; [cbn; now rewrite Hl'|].
    split; [constructor; assumption|].
    split; [|split].
    + rewrite Hlog', Hlog, <- app_assoc. f_equal.
      unfold TrainingLoop.epochs. cbn [seq flat_map].
      rewrite Nat.add_0_r. f_equal.
      rewrite <- seq_shift, !flat_map_concat_map, map_map. f_equal.
      apply map_ext. intros j. rewrite Hr1. do 2 f_equal. lia.
    + rewrite Hloss', Hloss, <- app_assoc. reflexivity.
    + rewrite Hout', Hout, <- app_assoc. reflexivity.
Qed.

(** [train]: it ends normally, and its steps, its losses and its lines
    are those of [Z.to_nat E] epochs. *)
Lemma train_calls (E : Z) (w : Pytorch.World) (ds : list (Img * nat))
  (Hne : ds <> []) :
  Pytorch.loader_train (Pytorch.the_loaders w) = DataLoader.Build ds 100 true ->
  Pytorch.grad_enabled w = true ->
  (forall k, Permutation (randperm k (List.length ds)) (seq 0 (List.length ds))) ->
  exists w' vss,
    Pytorch.train E w = (w', Py.Done)
    /\ List.length vss = Z.to_nat E
    /\ Forall (fun vs => List.length vs = ceil_div (List.length ds) 100) vss
    /\ TrainingLoop.torch_log w'
       = (TrainingLoop.torch_log w
            ++ TrainingLoop.epochs TrainingLoop.torch_steps (Z.to_nat E)
                 (fun e => Pytorch.batches_of_draw
                             (Pytorch.loader_train (Pytorch.the_loaders w))
                             (Pytorch.rng w + e)))%list
    /\ Report.losses (Pytorch.calls w')
       = (Report.losses (Pytorch.calls w) ++ List.concat vss)%list
    /\ Pytorch.stdout w'
       = (Pytorch.stdout w
            ++ Report.train_lines_from E (Z.of_nat (ceil_div (List.length ds) 100)) 0 vss)%list.
Proof.
  intros Hdl Hg Hp. unfold Pytorch.train, Py.range.
  cbn [Pytorch.set_training Pytorch.the_loaders].
  rewrite Hdl.
  apply (epochs_calls E _ ds (Z.to_nat E) Hne Hp 0 (Pytorch.set_training w true));
    [exact Hdl | exact Hg | reflexivity].
Qed.

(** What the cell that builds [loaders] leaves when it does not raise. *)
Lemma loaders_inv (train_data test_data : list (Img * nat)) (L : Pytorch.Loaders) :
  Pytorch.loaders train_data test_data = Some L ->
  L = Pytorch.MkLoaders (DataLoader.Build train_data 100 true)
                        (DataLoader.Build test_data 100 true)
  /\ train_data <> [] /\ test_data <> [].
Proof.
  unfold Pytorch.loaders, DataLoader.init. cbn [Nat.eqb andb].
  destruct train_data, test_data; cbn; intros H; try discriminate.
  injection H as <-. repeat split; discriminate.
Qed.
End Facts.
End TrainFacts.

(** ** The calls of the TensorFlow loop *)

Module TensorflowFacts.

Import Batching.

Section Facts.
Context {num : TfNumerics}.

Local Abbreviation same := Tensorflow.same.
Local Abbreviation frame := Tensorflow.frame.

Lemma log_emit w e :
  TrainingLoop.tf_log (Tensorflow.emit w e)
  = (TrainingLoop.tf_log w ++ TrainingLoop.of_tf e)%list.
Proof.
  unfold TrainingLoop.tf_log. cbn [Tensorflow.emit Tensorflow.calls].
  rewrite flat_map_app. cbn. now rewrite app_nil_r.
Qed.

Lemma log_set_metric w n m :
  TrainingLoop.tf_log (Tensorflow.set_metric w n m) = TrainingLoop.tf_log w.
Proof. destruct n; reflexivity. Qed.

Lemma same_set_metric w n m : same w (Tensorflow.set_metric w n m).
Proof. destruct n; now repeat split. Qed.

Lemma frame_set_metric w n m : frame w (Tensorflow.set_metric w n m).
Proof. destruct n; now repeat split. Qed.

Lemma tf_same_trans w1 w2 w3 : same w1 w2 -> same w2 w3 -> same w1 w3.
Proof. unfold Tensorflow.same. intuition congruence. Qed.

Lemma tf_frame_trans w1 w2 w3 : frame w1 w2 -> frame w2 w3 -> frame w1 w3.
Proof. unfold Tensorflow.frame. intuition congruence. Qed.

Lemma same_emit w e : same w (Tensorflow.emit w e).
Proof. now repeat split. Qed.

Lemma frame_emit w e : frame w (Tensorflow.emit w e).
Proof. now repeat split. Qed.

Lemma call_mean_facts w n v :
  TrainingLoop.tf_log (Tensorflow.call_mean w n v)
  = (TrainingLoop.tf_log w ++ TrainingLoop.of_tf (Tensorflow.MetricCall n))%list
  /\ same w (Tensorflow.call_mean w n v) /\ frame w (Tensorflow.call_mean w n v).
Proof.
  unfold Tensorflow.call_mean. rewrite log_emit, log_set_metric.
  split; [reflexivity|]. split.
  - eapply tf_same_trans; [apply same_set_metric | apply same_emit].
  - eapply tf_frame_trans; [apply frame_set_metric | apply frame_emit].
Qed.

Lemma call_accuracy_facts w n labels predictions :
  TrainingLoop.tf_log (Tensorflow.call_accuracy w n labels predictions)
  = (TrainingLoop.tf_log w ++ TrainingLoop.of_tf (Tensorflow.MetricCall n))%list
  /\ same w (Tensorflow.call_accuracy w n labels predictions)
  /\ frame w (Tensorflow.call_accuracy w n labels predictions).
Proof.
  unfold Tensorflow.call_accuracy. rewrite log_emit, log_set_metric.
  split; [reflexivity|]. split.
  - eapply tf_same_trans; [apply same_set_metric | apply same_emit].
  - eapply tf_frame_trans; [apply frame_set_metric | apply frame_emit].
Qed.

Lemma call_reset_facts w n :
  TrainingLoop.tf_log (Tensorflow.call_reset w n) = TrainingLoop.tf_log w
  /\ same w (Tensorflow.call_reset w n).
Proof.
  unfold Tensorflow.call_reset. rewrite log_emit, log_set_metric.
  split; [apply app_nil_r|].
  eapply tf_same_trans; [apply same_set_metric | apply same_emit].
Qed.

Lemma train_step_facts w b :
  TrainingLoop.tf_log (Tensorflow.train_step w b)
  = (TrainingLoop.tf_log w ++ TrainingLoop.tf_steps b)%list
  /\ same w (Tensorflow.train_step w b).
Proof.
  destruct b as [images labels]. unfold Tensorflow.train_step.
  cbn [Tensorflow.emit Tensorflow.variables Tensorflow.optimizer].
  destruct (apply_gradients _ _ _) as [v o].
  match goal with
  | |- context [Tensorflow.call_accuracy ?w1 ?n ?l ?p] =>
      destruct (call_accuracy_facts w1 n l p) as (-> & Hs1 & _);
      match w1 with
      | Tensorflow.call_mean ?w2 ?n2 ?v2 =>
          destruct (call_mean_facts w2 n2 v2) as (E2 & Hs2 & _)
      end
  end.
  rewrite E2. split.
  - unfold TrainingLoop.tf_log. cbn [Tensorflow.emit Tensorflow.set_variables Tensorflow.calls].
    rewrite !flat_map_app. cbn. rewrite <- !app_assoc. reflexivity.
  - eapply tf_same_trans; [|exact Hs1]. eapply tf_same_trans; [|exact Hs2].
    now repeat split.
Qed.

Lemma test_step_facts w b :
  TrainingLoop.tf_log (Tensorflow.test_step w b)
  = (TrainingLoop.tf_log w ++ TrainingLoop.tf_eval_steps b)%list
  /\ same w (Tensorflow.test_step w b)
  /\ frame w (Tensorflow.test_step w b).
Proof.
  destruct b as [images labels]. unfold Tensorflow.test_step.
  cbn [Tensorflow.emit Tensorflow.variables Tensorflow.optimizer].
  match goal with
  | |- context [Tensorflow.call_accuracy ?w1 ?n ?l ?p] =>
      destruct (call_accuracy_facts w1 n l p) as (-> & Hs1 & Hf1);
      match w1 with
      | Tensorflow.call_mean ?w2 ?n2 ?v2 =>
          destruct (call_mean_facts w2 n2 v2) as (E2 & Hs2 & Hf2)
      end
  end.
  rewrite E2. split; [|split].
  - unfold TrainingLoop.tf_log. cbn [Tensorflow.emit Tensorflow.calls].
    rewrite !flat_map_app. cbn. rewrite <- !app_assoc. reflexivity.
  - eapply tf_same_trans; [|exact Hs1]. eapply tf_same_trans; [|exact Hs2].
    now repeat split.
  - eapply tf_frame_trans; [|exact Hf1]. eapply tf_frame_trans; [|exact Hf2].
    now repeat split.
Qed.

Lemma train_steps_facts bs : forall w,
  TrainingLoop.tf_log (fold_left Tensorflow.train_step bs w)
  = (TrainingLoop.tf_log w ++ flat_map TrainingLoop.tf_steps bs)%list
  /\ same w (fold_left Tensorflow.train_step bs w).
Proof.
  induction bs as [|b rest IH]; intros w; cbn [fold_left flat_map].
  - rewrite app_nil_r. now repeat split.
  - destruct (IH (Tensorflow.train_step w b)) as [-> Hs].
    destruct (train_step_facts w b) as [-> Hs0]. split.
    + now rewrite <- app_assoc.
    + eapply tf_same_trans; eassumption.
Qed.

Lemma test_steps_facts bs : forall w,
  TrainingLoop.tf_log (fold_left Tensorflow.test_step bs w)
  = (TrainingLoop.tf_log w ++ flat_map TrainingLoop.tf_eval_steps bs)%list
  /\ same w (fold_left Tensorflow.test_step bs w)
  /\ frame w (fold_left Tensorflow.test_step bs w).
Proof.
  induction bs as [|b rest IH]; intros w; cbn [fold_left flat_map].
  - rewrite app_nil_r. now repeat split.
  - destruct (IH (Tensorflow.test_step w b)) as (-> & Hs & Hf).
    destruct (test_step_facts w b) as (-> & Hs0 & Hf0). split; [|split].
    + now rewrite <- app_assoc.
    + eapply tf_same_trans; eassumption.
    + eapply tf_frame_trans; eassumption.
Qed.

(** One epoch: the training batches of this traversal, then the test
    batches. *)
Lemma epoch_body_facts w epoch :
  let w' := Tensorflow.epoch_body w epoch in
  TrainingLoop.tf_log w'
  = (TrainingLoop.tf_log w
       ++ flat_map TrainingLoop.tf_steps
            (Tensorflow.batches (Tensorflow.train_ds (Tensorflow.xy_train w))
                                (Tensorflow.traversals w))
       ++ flat_map TrainingLoop.tf_eval_steps
            (Tensorflow.batches (Tensorflow.test_ds (Tensorflow.xy_test w)) 0))%list
  /\ Tensorflow.xy_train w' = Tensorflow.xy_train w
  /\ Tensorflow.xy_test w' = Tensorflow.xy_test w
  /\ Tensorflow.traversals w' = S (Tensorflow.traversals w).
Proof.
  unfold Tensorflow.epoch_body.
  set (w1 := Tensorflow.call_reset _ Tensorflow.TestAccuracy).
  assert (H1 : TrainingLoop.tf_log w1 = TrainingLoop.tf_log w /\ same w w1).
  { unfold w1.
    repeat match goal with
    | |- context [Tensorflow.call_reset ?w0 ?n] =>
        let E := fresh "E" in let Hs := fresh "Hs" in
        destruct (call_reset_facts w0 n) as [E Hs];
        rewrite E; clear E;
        generalize dependent (Tensorflow.call_reset w0 n); intros
    end.
    split; [reflexivity|]. repeat (eapply tf_same_trans; [eassumption|]).
    now repeat split. }
  clearbody w1. destruct H1 as [E1 (Hd1 & Hd2 & Hk1)].
  unfold Tensorflow.traverse. cbn [Tensorflow.train_ds Tensorflow.shuffle_buffer].
  set (w2 := Tensorflow.set_traversals w1 _).
  destruct (train_steps_facts
              (Tensorflow.batches (Tensorflow.train_ds (Tensorflow.xy_train w1))
                                  (Tensorflow.traversals w1)) w2) as [E3 Hs3].
  change (Tensorflow.batches {| Tensorflow.elements := Tensorflow.xy_train w1;
                                Tensorflow.shuffle_buffer := Some 10000;
                                Tensorflow.batch := 32 |})
    with (Tensorflow.batches (Tensorflow.train_ds (Tensorflow.xy_train w1))).
  set (w3 := fold_left Tensorflow.train_step _ w2) in *.
  cbn [Tensorflow.test_ds Tensorflow.shuffle_buffer].
  change (Tensorflow.batches {| Tensorflow.elements := Tensorflow.xy_test w3;
                                Tensorflow.shuffle_buffer := None;
                                Tensorflow.batch := 32 |} (Tensorflow.traversals w3))
    with (Tensorflow.batches (Tensorflow.test_ds (Tensorflow.xy_test w3)) 0).
  destruct (test_steps_facts
              (Tensorflow.batches (Tensorflow.test_ds (Tensorflow.xy_test w3)) 0) w3)
    as (E4 & Hs4 & _).
  set (w4 := fold_left Tensorflow.test_step _ w3) in *.
  cbv zeta. rewrite log_emit, E4, E3. cbn [TrainingLoop.of_tf]. rewrite app_nil_r.
  destruct Hs3 as (A1 & A2 & A3), Hs4 as (B1 & B2 & B3).
  assert (Tensorflow.xy_train w2 = Tensorflow.xy_train w1) by reflexivity.
  assert (Tensorflow.xy_test w2 = Tensorflow.xy_test w1) by reflexivity.
  assert (Tensorflow.traversals w2 = S (Tensorflow.traversals w1)) by reflexivity.
  assert (TrainingLoop.tf_log w2 = TrainingLoop.tf_log w1) by reflexivity.
  cbn [Tensorflow.emit Tensorflow.xy_train Tensorflow.xy_test Tensorflow.traversals].
  repeat split; try congruence.
  rewrite <- app_assoc, H2, E1, Hd1, Hk1.
  replace (Tensorflow.xy_test w3) with (Tensorflow.xy_test w) by congruence.
  reflexivity.
Qed.

Lemma epochs_facts (n : nat) : forall (e0 : nat) (w : Tensorflow.World),
  let w' := fold_left Tensorflow.epoch_body (map Z.of_nat (seq e0 n)) w in
  TrainingLoop.tf_log w'
  = (TrainingLoop.tf_log w
       ++ flat_map (fun j =>
            flat_map TrainingLoop.tf_steps
              (Tensorflow.batches (Tensorflow.train_ds (Tensorflow.xy_train w))
                                  (Tensorflow.traversals w + j))
            ++ flat_map TrainingLoop.tf_eval_steps
                 (Tensorflow.batches (Tensorflow.test_ds (Tensorflow.xy_test w)) 0))
          (seq 0 n))%list.
Proof.
  induction n as [|n IH]; intros e0 w; cbn [seq map fold_left flat_map].
  - now rewrite app_nil_r.
  - cbv zeta in IH. rewrite IH.
    destruct (epoch_body_facts w (Z.of_nat e0)) as (-> & -> & -> & ->).
    rewrite Nat.add_0_r, <- !app_assoc. do 3 f_equal.
    rewrite <- seq_shift, !flat_map_concat_map, map_map. f_equal.
    apply map_ext. intros j. do 3 f_equal. lia.
Qed.

End Facts.

End TensorflowFacts.

(** ** The index of the maximum *)

Module TorchOpsFacts.

Import Prediction.

Lemma max_from_first_max (rest : list Q) :
forall (pre : list Q) (best : Q) (best_i : nat),
  nth_error pre best_i = Some best ->
  (forall j s, nth_error pre j = Some s -> (s <= best)%Q) ->
  (forall j s, (j < best_i)%nat -> nth_error pre j = Some s -> (s < best)%Q) ->
  is_first_max (pre ++ rest) (TorchOps.max_from best best_i (List.length pre) rest).
Proof.
induction rest as [|s rest IH]; intros pre best best_i Hb Hle Hlt.
- cbn [TorchOps.max_from]. rewrite app_nil_r. exists best. auto.
- assert (Hi : (best_i < List.length pre)%nat)
    by (apply nth_error_Some; congruence).
  cbn [TorchOps.max_from].
  replace (pre ++ s :: rest)%list with ((pre ++ [s]) ++ rest)%list
    by (rewrite <- app_assoc; reflexivity).
  replace (S (List.length pre)) with (List.length (pre ++ [s]))
    by (rewrite length_app; cbn; lia).
  destruct (Qle_bool s best) eqn:E.
  + apply Qle_bool_iff in E. apply IH.
    * rewrite nth_error_app1 by exact Hi. exact Hb.
    * intros j t Hj.
      destruct (Nat.lt_ge_cases j (List.length pre)) as [Hlt'|Hge].
      -- rewrite nth_error_app1 in Hj by exact Hlt'. eauto.
      -- rewrite nth_error_app2 in Hj by exact Hge.
         destruct (j - List.length pre)%nat as [|[|n]]; cbn in Hj; try discriminate.
         injection Hj as <-. exact E.
    * intros j t Hj Hn. rewrite nth_error_app1 in Hn by lia. eauto.
  + assert (Hs : (best < s)%Q).
    { apply Qnot_le_lt. intros H. apply Qle_bool_iff in H. congruence. }
    replace (List.length pre) with (List.length pre + 0)%nat at 1 by lia.
    rewrite length_app. cbn [List.length].
    replace (List.length pre + 0)%nat with (List.length pre) by lia.
    replace (List.length pre + 1)%nat with (List.length (pre ++ [s]))
      by (rewrite length_app; reflexivity).
    apply IH.
    * rewrite nth_error_app2, Nat.sub_diag by lia. reflexivity.
    * intros j t Hj.
      destruct (Nat.lt_ge_cases j (List.length pre)) as [Hlt'|Hge].
      -- rewrite nth_error_app1 in Hj by exact Hlt'.
         apply Qlt_le_weak. eapply Qle_lt_trans; [eapply Hle; exact Hj | exact Hs].
      -- rewrite nth_error_app2 in Hj by exact Hge.
         destruct (j - List.length pre)%nat as [|[|n]]; cbn in Hj; try discriminate.
         injection Hj as <-. apply Qle_refl.
    * intros j t Hj Hn. rewrite nth_error_app1 in Hn by exact Hj.
      eapply Qle_lt_trans; [eapply Hle; exact Hn | exact Hs].
Qed.

Lemma max_index_first_max (row : list Q) :
row <> [] -> exists i, TorchOps.max_index row = Some i /\ is_first_max row i.
Proof.
destruct row as [|s rest]; [congruence|]. intros _.
eexists. split; [reflexivity|].
apply (max_from_first_max rest [s] s 0%nat).
- reflexivity.
- intros [|[|j]] t Hj; cbn in Hj; try discriminate.
  injection Hj as <-. apply Qle_refl.
- intros j t Hj. lia.
Qed.

(** The first maximum is unique. *)
Lemma first_max_unique (row : list Q) (i j : nat) :
is_first_max row i -> is_first_max row j -> i = j.
Proof.
intros (m & Hm & Hle & Hlt) (m' & Hm' & Hle' & Hlt').
destruct (Nat.lt_trichotomy i j) as [H|[H|H]]; [|exact H|].
- exfalso. apply (Qlt_irrefl m).
  eapply Qlt_le_trans; [apply (Hlt' i m H Hm) | apply (Hle j m' Hm')].
- exfalso. apply (Qlt_irrefl m').
  eapply Qlt_le_trans; [apply (Hlt j m' H Hm') | apply (Hle' i m Hm)].
Qed.

End TorchOpsFacts.

(** ** What [test] prints *)

Module TestFacts.

Import Batching LoopFacts.

Lemma chunks_nonempty {A} (B : nat) (items : list A) :
forall acc, Forall (fun b => b <> []) (chunks B acc items).
Proof.
induction items as [|x rest IH]; intros acc; cbn [chunks].
- destruct acc; repeat constructor. discriminate.
- destruct (_ =? _)%nat; [|apply IH].
  constructor; [|apply IH]. destruct acc; discriminate.
Qed.

(** Nothing can be fetched from an empty dataset. *)
Lemma fetch_batches_empty {Img} (ibs : list (list nat)) :
Forall (fun b => b <> []) ibs ->
DataLoader.fetch_batches (@nil (Img * nat)) ibs
= ([], match ibs with [] => Py.Done | _ :: _ => Py.Raised Py.IndexError end).
Proof.
destruct 1 as [|ib rest Hib _]; [reflexivity|].
destruct ib as [|i ib]; [congruence|].
cbn. destruct i; reflexivity.
Qed.

Section Facts.
Context {T : TorchTypes} {num : TorchNumerics}.

Lemma stdout_emit_silent w e :
  (forall l, e <> Pytorch.Print l) ->
  Pytorch.stdout (Pytorch.emit w e) = Pytorch.stdout w.
Proof.
  intros H. unfold Pytorch.stdout. cbn [Pytorch.emit Pytorch.calls].
  rewrite flat_map_app. cbn [flat_map].
  destruct e; try apply app_nil_r. now elim (H line).
Qed.

Lemma stdout_emit_print w l :
  Pytorch.stdout (Pytorch.emit w (Pytorch.Print l)) = (Pytorch.stdout w ++ [l])%list.
Proof.
  unfold Pytorch.stdout. cbn [Pytorch.emit Pytorch.calls].
  now rewrite flat_map_app.
Qed.

Lemma test_body_stdout (st : Pytorch.World * Pytorch.Locals) b :
  Pytorch.stdout (fst (fst (Pytorch.test_body st b))) = Pytorch.stdout (fst st).
Proof.
  destruct st as [w l], b as [images labels]. unfold Pytorch.test_body.
  destruct (cnn _ _ images) as [test_output last_layer].
  destruct (TorchOps.max_indices test_output) as [pred_y|];
    [|apply stdout_emit_silent; discriminate].
  destruct (TorchOps.eq_sum pred_y labels) as [n|];
    [|apply stdout_emit_silent; discriminate].
  destruct (List.length labels =? 0)%nat; apply stdout_emit_silent; discriminate.
Qed.

Lemma test_loop_stdout w :
  Pytorch.stdout (fst (fst (Pytorch.test_loop w))) = Pytorch.stdout w.
Proof.
  unfold Pytorch.test_loop.
  set (dl := Pytorch.loader_test (Pytorch.the_loaders w)).
  assert (H0 : Pytorch.stdout (fst (Pytorch.traverse w dl)) = Pytorch.stdout w).
  { unfold Pytorch.traverse.
    destruct (DataLoader.shuffle dl); [destruct (DataLoader.dataset dl)|]; reflexivity. }
  destruct (Pytorch.traverse w dl) as [w1 gen]. cbn [fst] in H0. rewrite <- H0.
  apply (for_gen_respects
           (fun s s' => Pytorch.stdout (fst s') = Pytorch.stdout (fst s))
           Pytorch.test_body); try congruence; apply test_body_stdout.
Qed.

(** [test] prints one line when it ends normally, and nothing when it
    raises. *)
Lemma test_stdout w :
  match Pytorch.test w with
  | (w', Py.Done) => exists a, Pytorch.stdout w' = (Pytorch.stdout w ++ [Pytorch.report_line a])%list
  | (w', Py.Raised _) => Pytorch.stdout w' = Pytorch.stdout w
  end.
Proof.
  unfold Pytorch.test.
  set (w0 := Pytorch.set_grad_enabled (Pytorch.set_training w false) false).
  pose proof (test_loop_stdout w0) as H.
  destruct (Pytorch.test_loop w0) as [[w1 l] [|e]]; cbn [fst] in H.
  - destruct (Pytorch.accuracy l) as [a|].
    + exists a. change (Pytorch.stdout (Pytorch.set_grad_enabled ?x _))
        with (Pytorch.stdout x). rewrite stdout_emit_print, H. reflexivity.
    + exact H.
  - exact H.
Qed.

(** Over a test loader whose dataset is empty, [test] raises before it
    has called the model or printed anything: the random sampler of a
    shuffled loader divides by zero; a loader that is not shuffled yields
    no batch, and [accuracy] is read before any assignment. *)
Lemma test_empty w :
  let dl := Pytorch.loader_test (Pytorch.the_loaders w) in
  Pytorch.test_data w = [] ->
  exists w' e,
    Pytorch.test w = (w', Py.Raised e)
    /\ Pytorch.calls w' = Pytorch.calls w
    /\ (DataLoader.shuffle dl = true -> e = Py.ZeroDivisionError)
    /\ (DataLoader.shuffle dl = false -> e = Py.UnboundLocalError "accuracy").
Proof.
  intros dl Hempty. unfold Pytorch.test_data in Hempty. fold dl in Hempty.
  unfold Pytorch.test, Pytorch.test_loop, Pytorch.traverse.
  cbn [Pytorch.the_loaders Pytorch.set_grad_enabled Pytorch.set_training Pytorch.rng].
  fold dl. destruct (DataLoader.shuffle dl) eqn:Es.
  - rewrite Hempty. unfold for_gen. cbn [fst snd for_each].
    do 2 eexists. split; [reflexivity|]. split; [reflexivity|].
    split; [reflexivity | discriminate].
  - unfold DataLoader.iter, DataLoader.sampler. rewrite Es, Hempty.
    cbn [List.length seq chunks DataLoader.fetch_batches].
    unfold for_gen. cbn [fst snd for_each Pytorch.accuracy].
    do 2 eexists. split; [reflexivity|]. split; [reflexivity|].
    split; [discriminate | reflexivity].
Qed.
End Facts.

End TestFacts.

(** ** The lines of [train] *)

Module ReportFacts.

Section Facts.
Context {T : TorchTypes} {num : TorchNumerics}.

Lemma epoch_lines_from_form (E St : Z) (e : nat) (vs : list Q) :
  forall (i : nat) (l : string),
    In l (Report.epoch_lines_from E St e i vs) ->
    exists (j : nat) (v : Q),
      (i <= j < i + List.length vs)%nat
      /\ (Z.of_nat j + 1) mod 100 = 0
      /\ nth_error vs (j - i) = Some v
      /\ l = Pytorch.progress_line (Z.of_nat e + 1) E (Z.of_nat j + 1) St v.
Proof.
  induction vs as [|v rest IH]; intros i l Hin; [destruct Hin|].
  cbn [Report.epoch_lines_from] in Hin. apply in_app_or in Hin.
  destruct Hin as [Hin|Hin].
  - destruct (Z.eqb_spec ((Z.of_nat i + 1) mod 100) 0) as [Hm|Hm]; [|destruct Hin].
    destruct Hin as [<-|[]]. exists i, v. rewrite Nat.sub_diag. cbn.
    repeat split; try lia; try assumption.
  - destruct (IH (S i) l Hin) as (j & v' & Hj & Hm & Hn & Hl).
    exists j, v'. cbn [List.length]. repeat split; try lia; try assumption.
    replace (j - i)%nat with (S (j - S i)) by lia. exact Hn.
Qed.

(** Every line of [train] is the progress line of an epoch, of a batch
    whose number is a multiple of 100, and of the loss of that batch. *)
Lemma train_lines_from_form (E St : Z) (n : nat) (vss : list (list Q)) :
  Forall (fun vs => List.length vs = n) vss ->
  forall (e0 : nat) (l : string),
    In l (Report.train_lines_from E St e0 vss) ->
    exists (e s : Z) (v : Q),
      Z.of_nat e0 < e <= Z.of_nat (e0 + List.length vss)
      /\ 1 <= s <= Z.of_nat n
      /\ s mod 100 = 0
      /\ In v (List.concat vss)
      /\ l = Pytorch.progress_line e E s St v.
Proof.
  induction 1 as [|vs rest Hvs _ IH]; intros e0 l Hin; [destruct Hin|].
  cbn [Report.train_lines_from] in Hin. apply in_app_or in Hin.
  destruct Hin as [Hin|Hin].
  - apply epoch_lines_from_form in Hin.
    destruct Hin as (j & v & Hj & Hm & Hn & ->).
    exists (Z.of_nat e0 + 1), (Z.of_nat j + 1), v. cbn [List.length List.concat].
    repeat split; try lia; try assumption.
    apply in_or_app. left. eapply nth_error_In; eassumption.
  - destruct (IH (S e0) l Hin) as (e & s & v & He & Hs & Hm & Hv & Hl).
    exists e, s, v. cbn [List.length List.concat].
    repeat split; try lia; try assumption.
    apply in_or_app. now right.
Qed.
End Facts.

End ReportFacts.

(** ** The loop of [test], batch by batch *)

Module EvaluationFacts.

Import Batching LoopFacts.

Section Facts.
Context {T : TorchTypes} {num : TorchNumerics}.

Lemma test_body_cases (w : Pytorch.World) (l : Pytorch.Locals) (b : DataLoader.Batch Img) :
  let w1 := Pytorch.emit w (Pytorch.Forward (Pytorch.cnn_training w) (fst b)) in
  match Evaluation.batch_accuracy (Pytorch.cnn_params w) (Pytorch.cnn_training w) b with
  | Some a =>
      Pytorch.test_body (w, l) b
      = ((w1, Pytorch.MkLocals (Pytorch.correct l) (Pytorch.total l) (Some a)), Py.Done)
  | None =>
      exists e,
        Pytorch.test_body (w, l) b = ((w1, l), Py.Raised e)
        /\ (e = Py.IndexError
            \/ (exists msg, e = Py.RuntimeError msg)
            \/ (e = Py.ZeroDivisionError /\ snd b = []))
  end.
Proof.
  destruct b as [images labels]. unfold Evaluation.batch_accuracy, Pytorch.test_body.
  cbn [fst snd].
  destruct (cnn _ _ images) as [test_output last_layer]. cbn [fst].
  destruct (TorchOps.max_indices test_output) as [pred_y|]; [|eauto].
  destruct (TorchOps.eq_sum pred_y labels) as [n|]; [|eauto 6].
  destruct labels as [|y labels]; cbn [List.length Nat.eqb]; [|reflexivity].
  eexists. split; [reflexivity|]. right. right. split; reflexivity.
Qed.

(** A run of the loop that ends normally: the weights and the mode are
    those of the start, one call of the model has been made per batch,
    [correct] and [total] are untouched, and [accuracy] is that of the
    last batch. *)
Lemma test_loop_done (bs : list (DataLoader.Batch Img)) :
  forall (w w' : Pytorch.World) (l l' : Pytorch.Locals),
    for_each Pytorch.test_body (w, l) bs = ((w', l'), Py.Done) ->
    Pytorch.cnn_params w' = Pytorch.cnn_params w
    /\ Pytorch.cnn_training w' = Pytorch.cnn_training w
    /\ Pytorch.calls w'
       = (Pytorch.calls w
            ++ map (fun b => Pytorch.Forward (Pytorch.cnn_training w) (fst b)) bs)%list
    /\ Pytorch.correct l' = Pytorch.correct l
    /\ Pytorch.total l' = Pytorch.total l
    /\ (bs = [] -> l' = l)
    /\ (forall init b, bs = (init ++ [b])%list ->
          exists a,
            Evaluation.batch_accuracy (Pytorch.cnn_params w) (Pytorch.cnn_training w) b
            = Some a
            /\ Pytorch.accuracy l' = Some a).
Proof.
  induction bs as [|b0 rest IH]; intros w w' l l' H.
  - cbn in H. injection H as <- <-. rewrite app_nil_r.
    repeat split; try reflexivity. intros [|? ?] bl E; discriminate.
  - cbn [for_each] in H.
    pose proof (test_body_cases w l b0) as Hb. cbv zeta in Hb.
    destruct (Evaluation.batch_accuracy _ _ b0) as [a|] eqn:Ea.
    + rewrite Hb in H. apply IH in H.
      destruct H as (Hp & Ht & Hc & Hco & Hto & Hnil & Hlast).
      cbn [Pytorch.emit Pytorch.cnn_params Pytorch.cnn_training Pytorch.calls
           Pytorch.correct Pytorch.total] in *.
      repeat split; try assumption.
      * rewrite Hc, <- app_assoc. reflexivity.
      * discriminate.
      * intros init b E. destruct init as [|b1 init]; cbn in E.
        -- injection E as Eb Er. subst b0 rest. exists a. split; [exact Ea|].
           now rewrite (Hnil eq_refl).
        -- injection E as Eb Er. subst b1 rest. exact (Hlast init b eq_refl).
    + destruct Hb as (e & Hb & _). rewrite Hb in H. discriminate.
Qed.

(** With a labelled image in every batch, the loop does not divide by
    zero. *)
Lemma test_loop_raised (bs : list (DataLoader.Batch Img)) :
  Forall (fun b => snd b <> []) bs ->
  forall st st' e,
    for_each Pytorch.test_body st bs = (st', Py.Raised e) ->
    e = Py.IndexError \/ exists msg, e = Py.RuntimeError msg.
Proof.
  induction 1 as [|b0 rest Hb0 _ IH]; intros [w l] st' e H; [discriminate|].
  cbn [for_each] in H.
  pose proof (test_body_cases w l b0) as Hb. cbv zeta in Hb.
  destruct (Evaluation.batch_accuracy _ _ b0) as [a|].
  - rewrite Hb in H. eapply IH; eassumption.
  - destruct Hb as (e0 & Hb & [Hr|[Hr|[_ Hz]]]); [| |contradiction];
      rewrite Hb in H; injection H as _ <-; [left | right]; exact Hr.
Qed.

(** With an accuracy for every batch, the loop ends normally. *)
Lemma test_loop_runs (bs : list (DataLoader.Batch Img)) :
  forall (w : Pytorch.World) (l : Pytorch.Locals),
    (forall b, In b bs ->
       exists a, Evaluation.batch_accuracy (Pytorch.cnn_params w) (Pytorch.cnn_training w) b
                 = Some a) ->
    exists w' l', for_each Pytorch.test_body (w, l) bs = ((w', l'), Py.Done).
Proof.
  induction bs as [|b0 rest IH]; intros w l Hall; [now exists w, l|].
  cbn [for_each].
  pose proof (test_body_cases w l b0) as Hb. cbv zeta in Hb.
  destruct (Hall b0 (or_introl eq_refl)) as (a & Ha). rewrite Ha in Hb. rewrite Hb.
  apply IH. intros b Hin. apply Hall. now right.
Qed.

End Facts.

(** The batches of a loader are never empty, and only an index out of
    range ends a traversal early. *)
Lemma fetch_length {Img} (ds : list (Img * nat)) (ib : list nat) :
  forall ss, DataLoader.fetch ds ib = Some ss -> List.length ss = List.length ib.
Proof.
  induction ib as [|i rest IH]; intros ss H; cbn in H.
  - now injection H as <-.
  - destruct (nth_error ds i); [|discriminate].
    destruct (DataLoader.fetch ds rest) as [ss'|]; [|discriminate].
    injection H as <-. cbn. now rewrite (IH ss' eq_refl).
Qed.

Lemma fetch_batches_labelled {Img} (ds : list (Img * nat)) (ibs : list (list nat)) :
  Forall (fun ib => ib <> []) ibs ->
  Forall (fun b => snd b <> []) (fst (DataLoader.fetch_batches ds ibs))
  /\ (snd (DataLoader.fetch_batches ds ibs) = Py.Done
      \/ snd (DataLoader.fetch_batches ds ibs) = Py.Raised Py.IndexError).
Proof.
  induction 1 as [|ib rest Hib _ [IH1 IH2]]; cbn [DataLoader.fetch_batches].
  - split; [constructor | now left].
  - destruct (DataLoader.fetch ds ib) as [ss|] eqn:E.
    + destruct (DataLoader.fetch_batches ds rest) as [bs fin]. cbn [fst snd] in *.
      split; [|exact IH2]. constructor; [|exact IH1].
      cbn. apply fetch_length in E. destruct ss; [|discriminate].
      destruct ib; [congruence | discriminate].
    + split; [constructor | now right].
Qed.

Lemma iter_labelled {Img} (dl : DataLoader.t Img) (perm : list nat) :
  Forall (fun b => snd b <> []) (fst (DataLoader.iter dl perm))
  /\ (snd (DataLoader.iter dl perm) = Py.Done
      \/ snd (DataLoader.iter dl perm) = Py.Raised Py.IndexError).
Proof. apply fetch_batches_labelled, TestFacts.chunks_nonempty. Qed.

End EvaluationFacts.

(** ** [test] as a whole *)

Module TestRunFacts.

Import Batching LoopFacts EvaluationFacts.

Section Facts.
Context {T : TorchTypes} {num : TorchNumerics}.

(** What a traversal changes in the world: the count of draws only. *)
Lemma traverse_world (w : Pytorch.World) (dl : DataLoader.t Img) :
  let w1 := fst (Pytorch.traverse w dl) in
  Pytorch.cnn_params w1 = Pytorch.cnn_params w
  /\ Pytorch.cnn_training w1 = Pytorch.cnn_training w
  /\ Pytorch.calls w1 = Pytorch.calls w
  /\ Pytorch.the_loaders w1 = Pytorch.the_loaders w.
Proof.
  unfold Pytorch.traverse.
  destruct (DataLoader.shuffle dl); [destruct (DataLoader.dataset dl)|]; now repeat split.
Qed.

(** The batches of a traversal depend on the world through the count of
    draws only. *)
Lemma traverse_batches (w w0 : Pytorch.World) (dl : DataLoader.t Img) :
  Pytorch.rng w0 = Pytorch.rng w ->
  snd (Pytorch.traverse w0 dl) = snd (Pytorch.traverse w dl).
Proof.
  intros H. unfold Pytorch.traverse.
  destruct (DataLoader.shuffle dl); [destruct (DataLoader.dataset dl)|];
    cbn [snd]; now rewrite ?H.
Qed.

(** A traversal is the iteration over the batches of a sampler order,
    unless the random sampler of a shuffled loader finds the dataset
    empty. *)
Lemma traverse_iter (w : Pytorch.World) (dl : DataLoader.t Img) :
  ((DataLoader.shuffle dl = false \/ DataLoader.dataset dl <> [])
   /\ exists perm, snd (Pytorch.traverse w dl) = DataLoader.iter dl perm)
  \/ (DataLoader.shuffle dl = true /\ DataLoader.dataset dl = []
      /\ snd (Pytorch.traverse w dl) = ([], Py.Raised Py.ZeroDivisionError)).
Proof.
  unfold Pytorch.traverse.
  destruct (DataLoader.shuffle dl); [destruct (DataLoader.dataset dl)|].
  - right. now repeat split.
  - left. split; [right; discriminate | eexists; reflexivity].
  - left. split; [now left | eexists; reflexivity].
Qed.

(** [test], from the loop it runs. *)
Lemma test_unfold (w : Pytorch.World) :
  let w0 := Pytorch.set_grad_enabled (Pytorch.set_training w false) false in
  let dl := Pytorch.loader_test (Pytorch.the_loaders w) in
  let w1 := fst (Pytorch.traverse w0 dl) in
  let gen := snd (Pytorch.traverse w dl) in
  let l0 := Pytorch.MkLocals 0 0 None in
  Pytorch.test w
  = match for_each Pytorch.test_body (w1, l0) (fst gen) with
    | ((w2, l2), Py.Done) =>
        match snd gen with
        | Py.Done =>
            match Pytorch.accuracy l2 with
            | Some a =>
                (Pytorch.set_grad_enabled
                   (Pytorch.emit w2 (Pytorch.Print (Pytorch.report_line a)))
                   (Pytorch.grad_enabled w), Py.Done)
            | None =>
                (Pytorch.set_grad_enabled w2 (Pytorch.grad_enabled w),
                 Py.Raised (Py.UnboundLocalError "accuracy"))
            end
        | Py.Raised e => (Pytorch.set_grad_enabled w2 (Pytorch.grad_enabled w), Py.Raised e)
        end
    | ((w2, _), Py.Raised e) =>
        (Pytorch.set_grad_enabled w2 (Pytorch.grad_enabled w), Py.Raised e)
    end.
Proof.
  intros w0 dl w1 gen l0. unfold Pytorch.test, Pytorch.test_loop. fold w0.
  change (Pytorch.the_loaders w0) with (Pytorch.the_loaders w). fold dl.
  assert (Hgen : snd (Pytorch.traverse w0 dl) = gen)
    by (apply traverse_batches; reflexivity).
  unfold w1. destruct (Pytorch.traverse w0 dl) as [w1' gen']. cbn [fst snd] in *.
  subst gen'. unfold for_gen. subst l0.
  destruct (for_each Pytorch.test_body (w1', _) (fst gen)) as [[w2 l2] [|e]];
    [|reflexivity].
  destruct (snd gen); [|reflexivity].
  destruct (Pytorch.accuracy l2); reflexivity.
Qed.

End Facts.

End TestRunFacts.

(** ** [test] over the loaders of the notebook *)

Module TestLoaderFacts.

Import Batching LoopFacts BatchingFacts DataLoaderFacts EvaluationFacts TestRunFacts.

(** Items that fit in one batch make one batch. *)
Lemma chunks_fit {A} (B : nat) (items : list A) :
  forall acc,
    (List.length acc + List.length items <= B)%nat ->
    (List.length acc < B)%nat ->
    (acc ++ items)%list <> [] ->
    chunks B acc items = [(acc ++ items)%list].
Proof.
  induction items as [|x rest IH]; intros acc Hle Hlt Hne; cbn [chunks].
  - rewrite app_nil_r in *. destruct acc; [congruence | reflexivity].
  - cbn [List.length] in Hle.
    destruct (Nat.eqb_spec (List.length (acc ++ [x])) B) as [E|E];
      rewrite length_app in E; cbn [List.length] in E.
    + assert (rest = []) by (destruct rest; [reflexivity | cbn in Hle; lia]).
      subst rest. reflexivity.
    + rewrite IH.
      * now rewrite <- app_assoc.
      * rewrite length_app. cbn [List.length]. lia.
      * rewrite length_app. cbn [List.length]. lia.
      * destruct acc; discriminate.
Qed.

Lemma collate_lengths {Img} (ss : list (Img * nat)) :
  List.length (fst (DataLoader.collate ss)) = List.length ss
  /\ List.length (snd (DataLoader.collate ss)) = List.length ss.
Proof. unfold DataLoader.collate. cbn. now rewrite !length_map. Qed.

(** The number of samples labelled [c] does not depend on their order. *)
Lemma count_label_perm {I} (c : nat) (l l' : list (I * nat)) :
  Permutation l l' -> Evaluation.count_label c l = Evaluation.count_label c l'.
Proof.
  unfold Evaluation.count_label. intros H. f_equal.
  induction H as [|s l l' _ IH|s s' l|l l' l'' _ IH1 _ IH2]; cbn.
  - reflexivity.
  - destruct (snd s =? c)%nat; cbn; now rewrite IH.
  - destruct (snd s =? c)%nat, (snd s' =? c)%nat; reflexivity.
  - now rewrite IH1.
Qed.

(** With the prediction 0 for every image of a batch, the sum of
    [pred_y == labels] is the number of labels 0. *)
Lemma eq_sum_class0 {I} (ss : list (I * nat)) :
  TorchOps.eq_sum (map (fun _ => 0%nat) (map fst ss)) (map snd ss)
  = Some (Evaluation.count_label 0 ss).
Proof.
  assert (Hpairs : forall l : list (I * nat),
             TorchOps.count_pairs (map (fun _ => 0%nat) (map fst l)) (map snd l)
             = Evaluation.count_label 0 l).
  { unfold TorchOps.count_pairs, Evaluation.count_label. intros l. f_equal.
    induction l as [|[x y] l IH]; [reflexivity|]. cbn.
    destruct y; cbn; now rewrite IH. }
  unfold TorchOps.eq_sum.
  destruct ss as [|[x y] [|s2 rest]].
  - reflexivity.
  - cbn. unfold TorchOps.count_eq, Evaluation.count_label. cbn.
    destruct y; reflexivity.
  - cbn [map].
    change (0%nat :: 0%nat :: map (fun _ => 0%nat) (map fst rest))
      with (map (fun _ : I => 0%nat) (map fst ((x, y) :: s2 :: rest))).
    change (y :: snd s2 :: map snd rest) with (map snd ((x, y) :: s2 :: rest)).
    rewrite Hpairs. cbn [List.length]. rewrite !length_map, Nat.eqb_refl. reflexivity.
Qed.

Section Facts.
Context {T : TorchTypes} {num : TorchNumerics}.
Variables (train_data test_data : list (Img * nat)) (w : Pytorch.World).
Hypothesis Hloaders : Pytorch.loaders train_data test_data = Some (Pytorch.the_loaders w).
Hypothesis Hperm :
  Permutation (randperm (Pytorch.rng w) (List.length test_data))
              (seq 0 (List.length test_data)).

(** The batches of the test traversal: the samples at the drawn indices,
    by hundreds. *)
Lemma test_batches_eq :
  snd (Pytorch.traverse w (Pytorch.loader_test (Pytorch.the_loaders w)))
  = (map (fun ib => DataLoader.collate (DataLoader.fetched test_data ib))
         (chunks 100 [] (randperm (Pytorch.rng w) (List.length test_data))),
     Py.Done).
Proof.
  destruct (TrainFacts.loaders_inv _ _ _ Hloaders) as (HL & _ & Hne).
  rewrite HL. cbn [Pytorch.loader_test].
  rewrite (PytorchFacts.traverse_shuffled w test_data 100 Hne).
  cbn [snd]. unfold DataLoader.iter.
  cbn [DataLoader.dataset DataLoader.batch_size DataLoader.sampler DataLoader.shuffle].
  apply traversal_batches; [lia | exact Hperm].
Qed.

Lemma test_data_nonempty : test_data <> [].
Proof. now destruct (TrainFacts.loaders_inv _ _ _ Hloaders) as (_ & _ & H). Qed.

Lemma test_batches_nonempty : Evaluation.test_batches w <> [].
Proof.
  unfold Evaluation.test_batches. rewrite test_batches_eq. cbn [fst].
  intros E. apply map_eq_nil in E. apply chunks_nil_inv in E.
  pose proof test_data_nonempty as Hne.
  apply Permutation_length in Hperm. rewrite E, length_seq in Hperm.
  destruct test_data; [congruence | discriminate].
Qed.

(** Every batch has as many labels as images, and at least one. *)
Lemma test_batches_shape :
  Forall (fun b => List.length (fst b) = List.length (snd b) /\ snd b <> [])
         (Evaluation.test_batches w).
Proof.
  unfold Evaluation.test_batches. rewrite test_batches_eq. cbn [fst].
  apply Forall_forall. intros b Hin. apply in_map_iff in Hin.
  destruct Hin as (ib & <- & Hib).
  destruct (collate_lengths (DataLoader.fetched test_data ib)) as [-> E2].
  split; [now rewrite E2|].
  intros E. rewrite E in E2. cbn in E2.
  assert (Hr : Forall (Forall (fun i => (i < List.length test_data)%nat))
                      (chunks 100 [] (randperm (Pytorch.rng w) (List.length test_data))))
    by (apply chunks_in_range; solve [lia | exact Hperm]).
  rewrite Forall_forall in Hr.
  destruct (fetch_in_range test_data ib (Hr ib Hib)) as [_ Hlen].
  pose proof (TestFacts.chunks_nonempty 100 (randperm (Pytorch.rng w) (List.length test_data)) [])
    as Hn.
  rewrite Forall_forall in Hn. specialize (Hn ib Hib).
  destruct ib; [congruence|]. rewrite Hlen in E2. discriminate.
Qed.

End Facts.

End TestLoaderFacts.

(** ** Runs of [test] that end normally, and the modes *)

Module TestDoneFacts.

Import Batching LoopFacts EvaluationFacts TestRunFacts.

Section Facts.
Context {T : TorchTypes} {num : TorchNumerics}.

(** With one row of scores per image, a batch with as many labels as
    images, and at least one, has an accuracy. *)
Lemma batch_accuracy_some (p : Params) (training : bool) (b : DataLoader.Batch Img) :
  Evaluation.one_row_per_image num ->
  List.length (fst b) = List.length (snd b) ->
  snd b <> [] ->
  exists a, Evaluation.batch_accuracy p training b = Some a.
Proof.
  intros Hrows Hlen Hne. unfold Evaluation.batch_accuracy.
  destruct (Hrows p training (fst b)) as (pred & -> & Hp).
  rewrite Hlen in Hp.
  assert (He : exists n, TorchOps.eq_sum pred (snd b) = Some n).
  { unfold TorchOps.eq_sum. destruct pred as [|p0 [|p1 r]]; [| eauto |].
    - destruct (snd b); [congruence | discriminate].
    - rewrite Hp, Nat.eqb_refl. eauto. }
  destruct He as (n & ->).
  destruct (snd b); [congruence|]. cbn [List.length Nat.eqb]. eauto.
Qed.

(** A traversal that ends normally after at least one batch, every batch
    having an accuracy: [test] ends normally. *)
Lemma test_runs (w : Pytorch.World) :
  let dl := Pytorch.loader_test (Pytorch.the_loaders w) in
  snd (snd (Pytorch.traverse w dl)) = Py.Done ->
  Evaluation.test_batches w <> [] ->
  (forall b, In b (Evaluation.test_batches w) ->
             exists a, Evaluation.batch_accuracy (Pytorch.cnn_params w) false b = Some a) ->
  exists w' init b a,
    Pytorch.test w = (w', Py.Done)
    /\ Evaluation.test_batches w = (init ++ [b])%list
    /\ Evaluation.batch_accuracy (Pytorch.cnn_params w) false b = Some a
    /\ Pytorch.calls w'
       = (Pytorch.calls w
            ++ map (fun b => Pytorch.Forward false (fst b)) (Evaluation.test_batches w)
            ++ [Pytorch.Print (Pytorch.report_line a)])%list.
Proof.
  intros dl Hfin Hne Hall. rewrite test_unfold. cbv zeta. fold dl.
  set (w0 := Pytorch.set_grad_enabled (Pytorch.set_training w false) false) in *.
  destruct (traverse_world w0 dl) as (Hp1 & Ht1 & Hc1 & _).
  unfold Evaluation.test_batches in *. fold dl in Hne, Hall |- *.
  destruct (snd (Pytorch.traverse w dl)) as [bs fin]. cbn [fst snd] in *. subst fin.
  destruct (test_loop_runs bs (fst (Pytorch.traverse w0 dl)) (Pytorch.MkLocals 0 0 None))
    as (w2 & l2 & E).
  { intros b Hin. rewrite Hp1, Ht1. exact (Hall b Hin). }
  rewrite E. apply test_loop_done in E.
  destruct E as (Hp & Ht & Hc & _ & _ & _ & Hlast).
  rewrite Ht1 in Hc, Hlast. rewrite Hp1 in Hlast. rewrite Hc1 in Hc.
  cbn [Pytorch.set_grad_enabled Pytorch.set_training Pytorch.cnn_training
       Pytorch.cnn_params Pytorch.calls w0] in Hc, Hlast.
  destruct (exists_last Hne) as (init & b & Elast).
  destruct (Hlast init b Elast) as (a & Hacc & ->).
  eexists _, init, b, a. split; [reflexivity|]. split; [exact Elast|].
  split; [exact Hacc|].
  cbn [Pytorch.set_grad_enabled Pytorch.emit Pytorch.calls].
  rewrite Hc, <- app_assoc. reflexivity.
Qed.

(** The calls of the model print nothing. *)
Lemma stdout_forwards (calls0 : list Pytorch.Event) (bs : list (DataLoader.Batch Img))
  (training : bool) (line : string) :
  flat_map (fun e => match e with Pytorch.Print l => [l] | _ => [] end)
           (calls0 ++ map (fun b => Pytorch.Forward training (fst b)) bs
              ++ [Pytorch.Print line])%list
  = (flat_map (fun e => match e with Pytorch.Print l => [l] | _ => [] end) calls0
       ++ [line])%list.
Proof.
  rewrite !flat_map_app. cbn [flat_map]. rewrite app_nil_r. f_equal.
  replace (flat_map _ (map _ bs)) with (@nil string); [reflexivity|].
  induction bs; cbn; auto.
Qed.

Lemma log_forwards (calls0 : list Pytorch.Event) (bs : list (DataLoader.Batch Img))
  (training : bool) (line : string) :
  flat_map TrainingLoop.of_torch
           (calls0 ++ map (fun b => Pytorch.Forward training (fst b)) bs
              ++ [Pytorch.Print line])%list
  = (flat_map TrainingLoop.of_torch calls0
       ++ map (fun b => TrainingLoop.Scores training (fst b)) bs)%list.
Proof.
  rewrite !flat_map_app. cbn [flat_map TrainingLoop.of_torch]. rewrite !app_nil_r.
  f_equal. induction bs; cbn; [reflexivity | now f_equal].
Qed.

(** The training flag along the loops, however they end. *)
Lemma test_body_mode (st : Pytorch.World * Pytorch.Locals) b :
  Pytorch.cnn_training (fst (fst (Pytorch.test_body st b)))
  = Pytorch.cnn_training (fst st).
Proof.
  destruct st as [w l].
  pose proof (test_body_cases w l b) as H. cbv zeta in H.
  destruct (Evaluation.batch_accuracy _ _ b).
  - now rewrite H.
  - destruct H as (e & -> & _). reflexivity.
Qed.

Lemma test_mode (w : Pytorch.World) :
  Pytorch.cnn_training (fst (Pytorch.test w)) = false.
Proof.
  rewrite test_unfold. cbv zeta.
  set (w0 := Pytorch.set_grad_enabled (Pytorch.set_training w false) false).
  set (dl := Pytorch.loader_test (Pytorch.the_loaders w)).
  destruct (traverse_world w0 dl) as (_ & Ht1 & _).
  pose proof (for_each_respects
                (fun s s' => Pytorch.cnn_training (fst s') = Pytorch.cnn_training (fst s))
                Pytorch.test_body (fun s => eq_refl)
                (fun s1 s2 s3 H1 H2 => eq_trans H2 H1) test_body_mode
                (fst (snd (Pytorch.traverse w dl)))
                (fst (Pytorch.traverse w0 dl), Pytorch.MkLocals 0 0 None)) as H.
  cbn [fst] in H. rewrite Ht1 in H.
  destruct (for_each _ _ _) as [[w2 l2] [|e]]; cbn [fst] in H.
  - destruct (snd (snd (Pytorch.traverse w dl))); [|exact H].
    destruct (Pytorch.accuracy l2); exact H.
  - exact H.
Qed.

Lemma train_body_mode E S e (w : Pytorch.World) ib :
  Pytorch.cnn_training (fst (Pytorch.train_body E S e w ib)) = Pytorch.cnn_training w.
Proof.
  destruct ib as [i [images labels]]. unfold Pytorch.train_body, Pytorch.backward.
  cbn [Pytorch.zero_grad Pytorch.emit Pytorch.set_grad Pytorch.grad_enabled].
  destruct (Pytorch.grad_enabled w); [|reflexivity].
  unfold Pytorch.step. cbn [Pytorch.emit Pytorch.cnn_grad Pytorch.set_grad].
  destruct (adam _ _ _) as [p o].
  destruct (_ =? 0); reflexivity.
Qed.

Lemma train_mode (E : Z) (w : Pytorch.World) :
  Pytorch.cnn_training (fst (Pytorch.train E w)) = true.
Proof.
  unfold Pytorch.train.
  apply (for_each_respects
           (fun s s' => Pytorch.cnn_training s = true -> Pytorch.cnn_training s' = true)
           (Pytorch.train_epoch E _)); [auto | auto | | reflexivity].
  intros s epoch Hs. unfold Pytorch.train_epoch.
  destruct (traverse_world s (Pytorch.loader_train (Pytorch.the_loaders s)))
    as (_ & Ht & _).
  destruct (Pytorch.traverse s _) as [w1 gen]. cbn [fst] in Ht.
  rewrite <- Hs, <- Ht.
  apply (for_gen_respects
           (fun s s' => Pytorch.cnn_training s' = Pytorch.cnn_training s)
           (Pytorch.train_body E _ epoch)); [auto | congruence | apply train_body_mode].
Qed.

End Facts.

End TestDoneFacts.

(** ** How many lines [train] prints, and the weights it leaves *)

Module TrainRunFacts.

Import Batching LoopFacts BatchingFacts DataLoaderFacts.

Lemma hundreds_step (i : nat) :
  (S i / 100 = i / 100 + (if ((Z.of_nat i + 1) mod 100 =? 0)%Z then 1 else 0))%nat.
Proof.
  apply Nat2Z.inj. rewrite Nat2Z.inj_add, !Nat2Z.inj_div.
  destruct (Z.eqb_spec ((Z.of_nat i + 1) mod 100) 0) as [E|E];
    zify; Z.to_euclidean_division_equations; lia.
Qed.

Lemma flat_map_length_const {A B} (f : A -> list B) (c : nat) (l : list A) :
  (forall a, List.length (f a) = c) ->
  List.length (flat_map f l) = (List.length l * c)%nat.
Proof.
  intros Hf. induction l as [|a l IH]; [reflexivity|].
  cbn [flat_map List.length]. rewrite length_app, Hf, IH. reflexivity.
Qed.

Section Facts.
Context {T : TorchTypes} {num : TorchNumerics}.

Lemma batches_of_draw_length (ds : list (Img * nat)) (k : nat) :
  Permutation (randperm k (List.length ds)) (seq 0 (List.length ds)) ->
  List.length (Pytorch.batches_of_draw (DataLoader.Build ds 100 true) k)
  = ceil_div (List.length ds) 100.
Proof.
  intros Hp. unfold Pytorch.batches_of_draw. cbn [DataLoader.dataset].
  apply (iter_done (DataLoader.Build ds 100 true)); [cbn; lia | exact Hp].
Qed.

(** From batch [i] on, the lines of an epoch are as many as the multiples
    of 100 among the numbers of its batches. *)
Lemma epoch_lines_from_length (E St : Z) (e : nat) (vs : list Q) :
  forall i,
    List.length (Report.epoch_lines_from E St e i vs)
    = ((i + List.length vs) / 100 - i / 100)%nat.
Proof.
  induction vs as [|v rest IH]; intros i; cbn [Report.epoch_lines_from List.length].
  - rewrite Nat.add_0_r. lia.
  - rewrite length_app, IH.
    replace (i + S (List.length rest))%nat with (S i + List.length rest)%nat by lia.
    pose proof (hundreds_step i) as Hs.
    pose proof (Nat.Div0.div_le_mono (S i) (S i + List.length rest) 100 ltac:(lia)) as Hm.
    destruct ((Z.of_nat i + 1) mod 100 =? 0); cbn [List.length]; lia.
Qed.

Lemma train_lines_from_length (E St : Z) (n : nat) (vss : list (list Q)) :
  Forall (fun vs => List.length vs = n) vss ->
  forall e,
    List.length (Report.train_lines_from E St e vss)
    = (List.length vss * (n / 100))%nat.
Proof.
  induction 1 as [|vs rest Hvs _ IH]; intros e; cbn [Report.train_lines_from List.length].
  - reflexivity.
  - rewrite length_app, IH. unfold Report.epoch_lines.
    rewrite epoch_lines_from_length, Hvs. cbn. lia.
Qed.

(** One batch of [train]: the weights move by one Adam update with the
    gradient of this batch alone, whatever the gradient buffers held. *)
Lemma train_body_weights (E : Z) (S : nat) (e : Z) (w w' : Pytorch.World)
  (i : nat) (x : list Img) (y : list nat) :
  Pytorch.grad_enabled w = true ->
  Pytorch.train_body E S e w (i, (x, y)) = (w', Py.Done) ->
  (Pytorch.cnn_params w', Pytorch.optimizer w')
  = adam (Pytorch.optimizer w) (Pytorch.cnn_params w)
         (autograd (Pytorch.cnn_params w) (Pytorch.cnn_training w) x y)
  /\ Pytorch.cnn_grad w'
     = Some (autograd (Pytorch.cnn_params w) (Pytorch.cnn_training w) x y).
Proof.
  intros Hg. unfold Pytorch.train_body, Pytorch.backward, Pytorch.zero_grad.
  cbn [Pytorch.grad_enabled Pytorch.emit Pytorch.set_grad Pytorch.cnn_params
       Pytorch.cnn_training Pytorch.cnn_grad].
  rewrite Hg. unfold Pytorch.step.
  cbn [Pytorch.grad_enabled Pytorch.emit Pytorch.set_grad Pytorch.cnn_params
       Pytorch.cnn_training Pytorch.cnn_grad Pytorch.optimizer].
  destruct (adam _ _ _) as [p o].
  destruct ((Z.of_nat i + 1) mod 100 =? 0); intros H; injection H as <-;
    split; reflexivity.
Qed.

Lemma inner_loop_weights (E : Z) (S : nat) (e : nat) (bs : list (DataLoader.Batch Img)) :
  forall (i0 : nat) (w w' : Pytorch.World),
    Pytorch.grad_enabled w = true ->
    Pytorch.cnn_training w = true ->
    for_each (Pytorch.train_body E S (Z.of_nat e)) w
             (combine (seq i0 (List.length bs)) bs) = (w', Py.Done) ->
    (Pytorch.cnn_params w', Pytorch.optimizer w')
    = Trajectory.torch_updates (Pytorch.cnn_params w, Pytorch.optimizer w) bs.
Proof.
  induction bs as [|[x y] rest IH]; intros i0 w w' Hg Ht H.
  - cbn in H. now injection H as <-.
  - cbn [List.length seq combine for_each] in H.
    destruct (TrainFacts.train_body_calls E S (Z.of_nat e) w i0 x y Hg)
      as (w1 & Hb & _ & (Hg1 & Ht1 & _)).
    destruct (train_body_weights E S (Z.of_nat e) w w1 i0 x y Hg Hb) as [Hw _].
    match type of H with
    | context [Pytorch.train_body ?a ?b ?c ?d ?p] =>
        replace (Pytorch.train_body a b c d p) with (w1, Py.Done) in H
          by (symmetry; exact Hb)
    end.
    apply IH in H; [| congruence | congruence].
    rewrite H. unfold Trajectory.torch_updates. cbn [fold_left fst snd].
    rewrite <- Ht, <- Hw. reflexivity.
Qed.

Lemma torch_updates_app (po : Params * OptState) (bs1 bs2 : list (DataLoader.Batch Img)) :
  Trajectory.torch_updates po (bs1 ++ bs2)
  = Trajectory.torch_updates (Trajectory.torch_updates po bs1) bs2.
Proof. unfold Trajectory.torch_updates. apply fold_left_app. Qed.

Lemma train_epoch_weights (E : Z) (St e : nat) (w w' : Pytorch.World)
  (ds : list (Img * nat)) :
  let dl := DataLoader.Build ds 100 true in
  Pytorch.loader_train (Pytorch.the_loaders w) = dl ->
  Pytorch.grad_enabled w = true ->
  Pytorch.cnn_training w = true ->
  Pytorch.train_epoch E St w (Z.of_nat e) = (w', Py.Done) ->
  (Pytorch.cnn_params w', Pytorch.optimizer w')
  = Trajectory.torch_updates (Pytorch.cnn_params w, Pytorch.optimizer w)
      (Pytorch.batches_of_draw dl (Pytorch.rng w)).
Proof.
  intros dl Hdl Hg Ht. unfold Pytorch.train_epoch. rewrite Hdl.
  assert (Hcases : ds = [] \/ ds <> [])
    by (destruct ds; [now left | right; discriminate]).
  destruct Hcases as [Hnil | Hne].
  { unfold dl, Pytorch.traverse. rewrite Hnil.
    cbn [DataLoader.shuffle DataLoader.dataset]. unfold for_gen.
    cbn [fst snd enumerate List.length seq combine for_each]. discriminate. }
  unfold dl. rewrite (PytorchFacts.traverse_shuffled w ds 100 Hne). fold dl.
  unfold Pytorch.batches_of_draw. cbn [DataLoader.dataset dl]. fold dl.
  unfold for_gen. cbn [fst snd]. unfold enumerate.
  destruct (for_each _ _ _) as [w2 [|e2]] eqn:Ef; [|discriminate].
  intros H. assert (w2 = w') by (destruct (snd _); congruence). subst w2.
  apply inner_loop_weights in Ef; [exact Ef | exact Hg | exact Ht].
Qed.

(** The weights after the epochs of [train], from epoch [e0] on. *)
Lemma epochs_weights (E : Z) (St : nat) (ds : list (Img * nat)) (n : nat)
  (Hne : ds <> []) :
  (forall k, Permutation (randperm k (List.length ds)) (seq 0 (List.length ds))) ->
  forall (e0 : nat) (w w' : Pytorch.World),
    Pytorch.loader_train (Pytorch.the_loaders w) = DataLoader.Build ds 100 true ->
    Pytorch.grad_enabled w = true ->
    Pytorch.cnn_training w = true ->
    for_each (Pytorch.train_epoch E St) w (map Z.of_nat (seq e0 n)) = (w', Py.Done) ->
    (Pytorch.cnn_params w', Pytorch.optimizer w')
    = Trajectory.torch_updates (Pytorch.cnn_params w, Pytorch.optimizer w)
        (flat_map (fun j => Pytorch.batches_of_draw (DataLoader.Build ds 100 true)
                                                    (Pytorch.rng w + j))
                  (seq 0 n))
    /\ Pytorch.rng w' = (Pytorch.rng w + n)%nat.
Proof.
  intros Hp. induction n as [|n IH]; intros e0 w w' Hd Hg Ht H.
  - cbn in H. injection H as <-. split; [reflexivity | lia].
  - cbn [seq map for_each] in H.
    destruct (TrainFacts.train_epoch_calls E St e0 w ds Hne Hd Hg Ht (Hp _))
      as (w1 & vs & Hb & _ & _ & _ & _ & Hg1 & Ht1 & Hd1 & Hr1).
    pose proof (train_epoch_weights E St e0 w w1 ds Hd Hg Ht Hb) as Hw.
    rewrite Hb in H. rewrite <- Hd1 in Hd.
    apply IH in H; [| exact Hd | exact Hg1 | exact Ht1].
    destruct H as [H Hr]. split; [|rewrite Hr, Hr1; lia].
    rewrite H, Hw. cbn [seq flat_map]. rewrite torch_updates_app, Nat.add_0_r.
    f_equal. rewrite <- seq_shift, !flat_map_concat_map, map_map. f_equal.
    apply map_ext. intros j. rewrite Hr1. f_equal. lia.
Qed.

End Facts.

End TrainRunFacts.

(** ** The variables and the metrics of the TensorFlow loop *)

Module TfRunFacts.

Import Batching BatchingFacts.

Section Facts.
Context {num : TfNumerics}.

(** What a call of a metric or a print leaves alone. *)
Lemma set_metric_other w n m n' :
  n' <> n ->
  Tensorflow.get_metric (Tensorflow.set_metric w n m) n' = Tensorflow.get_metric w n'.
Proof. destruct n, n'; intros H; try reflexivity; congruence. Qed.

Lemma set_metric_same w n m :
  Tensorflow.get_metric (Tensorflow.set_metric w n m) n = m.
Proof. destruct n; reflexivity. Qed.

Lemma get_metric_emit w e n :
  Tensorflow.get_metric (Tensorflow.emit w e) n = Tensorflow.get_metric w n.
Proof. destruct n; reflexivity. Qed.

Lemma get_metric_set_variables w v o n :
  Tensorflow.get_metric (Tensorflow.set_variables w v o) n = Tensorflow.get_metric w n.
Proof. destruct n; reflexivity. Qed.

Lemma get_metric_set_traversals w k n :
  Tensorflow.get_metric (Tensorflow.set_traversals w k) n = Tensorflow.get_metric w n.
Proof. destruct n; reflexivity. Qed.

Lemma variables_set_metric w n m :
  Tensorflow.variables (Tensorflow.set_metric w n m) = Tensorflow.variables w
  /\ Tensorflow.optimizer (Tensorflow.set_metric w n m) = Tensorflow.optimizer w.
Proof. destruct n; split; reflexivity. Qed.

(** [train_step]: one update of the variables with the gradient of the
    batch, and the test metrics untouched. *)
Lemma train_step_run w b :
  (Tensorflow.variables (Tensorflow.train_step w b),
   Tensorflow.optimizer (Tensorflow.train_step w b))
  = apply_gradients (Tensorflow.optimizer w) (Tensorflow.variables w)
      (tape_gradient (Tensorflow.variables w) (fst b) (snd b))
  /\ Tensorflow.test_accuracy (Tensorflow.train_step w b) = Tensorflow.test_accuracy w
  /\ Tensorflow.test_loss (Tensorflow.train_step w b) = Tensorflow.test_loss w.
Proof.
  destruct b as [images labels]. unfold Tensorflow.train_step.
  cbn [Tensorflow.emit Tensorflow.variables Tensorflow.optimizer fst snd].
  destruct (apply_gradients _ _ _) as [v o].
  unfold Tensorflow.call_accuracy, Tensorflow.call_mean.
  cbn [Tensorflow.set_metric Tensorflow.emit Tensorflow.set_variables
       Tensorflow.variables Tensorflow.optimizer Tensorflow.test_accuracy
       Tensorflow.test_loss]. repeat split.
Qed.

Lemma train_steps_run bs : forall w,
  (Tensorflow.variables (fold_left Tensorflow.train_step bs w),
   Tensorflow.optimizer (fold_left Tensorflow.train_step bs w))
  = Trajectory.tf_updates (Tensorflow.variables w, Tensorflow.optimizer w) bs
  /\ Tensorflow.test_accuracy (fold_left Tensorflow.train_step bs w)
     = Tensorflow.test_accuracy w.
Proof.
  induction bs as [|b rest IH]; intros w; cbn [fold_left]; [now split|].
  destruct (IH (Tensorflow.train_step w b)) as [-> ->].
  destruct (train_step_run w b) as (-> & -> & _). split; reflexivity.
Qed.

(** [test_step]: the accuracy metric gains the correct predictions and the
    number of labels of the batch. *)
Lemma test_step_run w b :
  Tensorflow.variables (Tensorflow.test_step w b) = Tensorflow.variables w
  /\ Tensorflow.optimizer (Tensorflow.test_step w b) = Tensorflow.optimizer w
  /\ Tensorflow.test_accuracy (Tensorflow.test_step w b)
     = Tensorflow.accuracy_update (Tensorflow.test_accuracy w) (snd b)
         (model (Tensorflow.variables w) false (fst b)).
Proof.
  destruct b as [images labels]. unfold Tensorflow.test_step.
  unfold Tensorflow.call_accuracy, Tensorflow.call_mean.
  cbn [Tensorflow.set_metric Tensorflow.emit Tensorflow.get_metric
       Tensorflow.variables Tensorflow.optimizer Tensorflow.test_accuracy fst snd].
  repeat split.
Qed.

Lemma test_steps_run bs : forall w,
  let w' := fold_left Tensorflow.test_step bs w in
  Tensorflow.variables w' = Tensorflow.variables w
  /\ Tensorflow.optimizer w' = Tensorflow.optimizer w
  /\ (Tensorflow.m_total (Tensorflow.test_accuracy w')
      == Tensorflow.m_total (Tensorflow.test_accuracy w)
         + inject_Z (Trajectory.tf_matches (Tensorflow.variables w) bs))%Q
  /\ (Tensorflow.m_count (Tensorflow.test_accuracy w')
      == Tensorflow.m_count (Tensorflow.test_accuracy w)
         + inject_Z (Z.of_nat (List.length (flat_map snd bs))))%Q.
Proof.
  induction bs as [|b rest IH]; intros w; cbn [fold_left].
  - split; [reflexivity|]. split; [reflexivity|].
    split; symmetry; apply Qplus_0_r.
  - cbv zeta in IH. destruct (IH (Tensorflow.test_step w b)) as (Hv & Ho & Ht & Hc).
    destruct (test_step_run w b) as (Hv0 & Ho0 & Ha0).
    cbv zeta. rewrite Hv, Ho, Ht, Hc, Hv0, Ha0.
    split; [reflexivity|]. split; [exact Ho0|].
    cbn [Tensorflow.accuracy_update Tensorflow.m_total Tensorflow.m_count
         Trajectory.tf_matches fold_right flat_map].
    rewrite length_app, Nat2Z.inj_add, !inject_Z_plus.
    split; symmetry; apply Qplus_assoc.
Qed.

Lemma tf_updates_app (vo : Variables * AdamState) bs1 bs2 :
  Trajectory.tf_updates vo (bs1 ++ bs2)
  = Trajectory.tf_updates (Trajectory.tf_updates vo bs1) bs2.
Proof. unfold Trajectory.tf_updates. apply fold_left_app. Qed.

(** The labels of the batches of a dataset that is not shuffled are the
    labels of its elements. *)
Lemma unshuffled_labels (xs : list (Image * nat)) (B : nat) :
  flat_map snd (Tensorflow.batches (Tensorflow.MkDataset xs None B) 0) = map snd xs.
Proof.
  unfold Tensorflow.batches. cbn [Tensorflow.shuffle_buffer Tensorflow.elements Tensorflow.batch].
  rewrite <- (chunks_concat B xs []) at 2. cbn [app].
  generalize (chunks B [] xs). intros cs.
  induction cs as [|c cs IH]; [reflexivity|].
  cbn [map flat_map List.concat snd]. now rewrite map_app, IH.
Qed.

(** The steps print nothing. *)
Lemma stdout_train_step w b :
  Trajectory.tf_stdout (Tensorflow.train_step w b) = Trajectory.tf_stdout w.
Proof.
  destruct b as [images labels]. unfold Tensorflow.train_step.
  cbn [Tensorflow.emit Tensorflow.variables Tensorflow.optimizer].
  destruct (apply_gradients _ _ _) as [v o].
  unfold Trajectory.tf_stdout, Tensorflow.call_accuracy, Tensorflow.call_mean.
  cbn [Tensorflow.set_metric Tensorflow.emit Tensorflow.set_variables Tensorflow.calls].
  rewrite !flat_map_app. cbn [flat_map]. now rewrite !app_nil_r.
Qed.

Lemma stdout_test_step w b :
  Trajectory.tf_stdout (Tensorflow.test_step w b) = Trajectory.tf_stdout w.
Proof.
  destruct b as [images labels]. unfold Tensorflow.test_step.
  unfold Trajectory.tf_stdout, Tensorflow.call_accuracy, Tensorflow.call_mean.
  cbn [Tensorflow.set_metric Tensorflow.emit Tensorflow.calls].
  rewrite !flat_map_app. cbn [flat_map]. now rewrite !app_nil_r.
Qed.

Lemma stdout_steps (f : Tensorflow.World -> list Image * list nat -> Tensorflow.World) bs :
  (forall w b, Trajectory.tf_stdout (f w b) = Trajectory.tf_stdout w) ->
  forall w, Trajectory.tf_stdout (fold_left f bs w) = Trajectory.tf_stdout w.
Proof.
  intros Hf. induction bs as [|b rest IH]; intros w; cbn [fold_left]; [reflexivity|].
  now rewrite IH, Hf.
Qed.

(** One epoch. *)
Lemma epoch_body_run w epoch :
  let w' := Tensorflow.epoch_body w epoch in
  let train_batches :=
    Tensorflow.batches (Tensorflow.train_ds (Tensorflow.xy_train w)) (Tensorflow.traversals w) in
  let test_batches := Tensorflow.batches (Tensorflow.test_ds (Tensorflow.xy_test w)) 0 in
  (Tensorflow.variables w', Tensorflow.optimizer w')
  = Trajectory.tf_updates (Tensorflow.variables w, Tensorflow.optimizer w) train_batches
  /\ (Tensorflow.m_total (Tensorflow.test_accuracy w')
      == inject_Z (Trajectory.tf_matches (Tensorflow.variables w') test_batches))%Q
  /\ (Tensorflow.m_count (Tensorflow.test_accuracy w')
      == inject_Z (Z.of_nat (List.length (Tensorflow.xy_test w))))%Q
  /\ exists wl,
       Trajectory.tf_stdout w'
       = (Trajectory.tf_stdout w ++ [Tensorflow.epoch_line epoch wl])%list
       /\ Tensorflow.test_accuracy wl = Tensorflow.test_accuracy w'.
Proof.
  cbv zeta. unfold Tensorflow.epoch_body.
  set (w1 := Tensorflow.call_reset _ Tensorflow.TestAccuracy).
  assert (H1 : Tensorflow.variables w1 = Tensorflow.variables w
               /\ Tensorflow.optimizer w1 = Tensorflow.optimizer w
               /\ Tensorflow.xy_train w1 = Tensorflow.xy_train w
               /\ Tensorflow.xy_test w1 = Tensorflow.xy_test w
               /\ Tensorflow.traversals w1 = Tensorflow.traversals w
               /\ Tensorflow.test_accuracy w1 = Tensorflow.MkMetric 0 0)
    by (repeat split).
  assert (Hs1 : Trajectory.tf_stdout w1 = Trajectory.tf_stdout w).
  { unfold Trajectory.tf_stdout, w1, Tensorflow.call_reset.
    cbn [Tensorflow.set_metric Tensorflow.emit Tensorflow.calls].
    rewrite !flat_map_app. cbn [flat_map]. now rewrite !app_nil_r. }
  destruct H1 as (Hv1 & Ho1 & Hx1 & Hy1 & Hk1 & Ha1).
  unfold Tensorflow.traverse. cbn [Tensorflow.train_ds Tensorflow.shuffle_buffer].
  change (Tensorflow.batches {| Tensorflow.elements := Tensorflow.xy_train w1;
                                Tensorflow.shuffle_buffer := Some 10000;
                                Tensorflow.batch := 32 |})
    with (Tensorflow.batches (Tensorflow.train_ds (Tensorflow.xy_train w1))).
  set (w2 := Tensorflow.set_traversals w1 _).
  rewrite Hx1, Hk1.
  set (trb := Tensorflow.batches (Tensorflow.train_ds (Tensorflow.xy_train w))
                                 (Tensorflow.traversals w)).
  destruct (train_steps_run trb w2) as [Hw3 Ha3].
  destruct (TensorflowFacts.train_steps_facts trb w2) as [_ (_ & Hy3 & _)].
  pose proof (stdout_steps Tensorflow.train_step trb stdout_train_step w2) as Hs3.
  set (w3 := fold_left Tensorflow.train_step trb w2) in *.
  cbn [Tensorflow.test_ds Tensorflow.shuffle_buffer].
  change (Tensorflow.batches {| Tensorflow.elements := Tensorflow.xy_test w3;
                                Tensorflow.shuffle_buffer := None;
                                Tensorflow.batch := 32 |} (Tensorflow.traversals w3))
    with (Tensorflow.batches (Tensorflow.test_ds (Tensorflow.xy_test w3)) 0).
  assert (Hy : Tensorflow.xy_test w3 = Tensorflow.xy_test w)
    by (rewrite Hy3; exact Hy1).
  rewrite Hy.
  change (Tensorflow.batches (Tensorflow.test_ds (Tensorflow.xy_test w))
                             (Tensorflow.traversals w3))
    with (Tensorflow.batches (Tensorflow.test_ds (Tensorflow.xy_test w)) 0).
  set (teb := Tensorflow.batches (Tensorflow.test_ds (Tensorflow.xy_test w)) 0).
  destruct (test_steps_run teb w3) as (Hv4 & Ho4 & Ht4 & Hc4).
  pose proof (stdout_steps Tensorflow.test_step teb stdout_test_step w3) as Hs4.
  set (w4 := fold_left Tensorflow.test_step teb w3) in *.
  cbv zeta.
  split; [|split; [|split]].
  - cbn [Tensorflow.emit Tensorflow.variables Tensorflow.optimizer].
    rewrite Hv4, Ho4, Hw3. cbn [w2 Tensorflow.set_traversals Tensorflow.variables
                                  Tensorflow.optimizer]. now rewrite Hv1, Ho1.
  - cbn [Tensorflow.emit Tensorflow.variables Tensorflow.test_accuracy].
    rewrite Ht4, Hv4, Ha3. cbn [w2 Tensorflow.set_traversals Tensorflow.test_accuracy].
    rewrite Ha1. cbn [Tensorflow.m_total]. apply Qplus_0_l.
  - cbn [Tensorflow.emit Tensorflow.test_accuracy].
    rewrite Hc4, Ha3. cbn [w2 Tensorflow.set_traversals Tensorflow.test_accuracy].
    rewrite Ha1. cbn [Tensorflow.m_count]. unfold teb, Tensorflow.test_ds.
    rewrite unshuffled_labels, length_map. apply Qplus_0_l.
  - exists w4. split; [|reflexivity].
    unfold Trajectory.tf_stdout at 1. cbn [Tensorflow.emit Tensorflow.calls].
    rewrite flat_map_app. cbn [flat_map app].
    fold (Trajectory.tf_stdout w4). rewrite Hs4, Hs3.
    change (Trajectory.tf_stdout w2) with (Trajectory.tf_stdout w1). now rewrite Hs1.
Qed.

(** The epochs from epoch [e0] on. *)
Lemma epochs_run (n : nat) : forall (e0 : nat) (w : Tensorflow.World),
  let w' := fold_left Tensorflow.epoch_body (map Z.of_nat (seq e0 n)) w in
  (Tensorflow.variables w', Tensorflow.optimizer w')
  = Trajectory.tf_updates (Tensorflow.variables w, Tensorflow.optimizer w)
      (flat_map (fun j => Tensorflow.batches (Tensorflow.train_ds (Tensorflow.xy_train w))
                                             (Tensorflow.traversals w + j))
                (seq 0 n))
  /\ Tensorflow.xy_test w' = Tensorflow.xy_test w
  /\ exists ws,
       List.length ws = n
       /\ Trajectory.tf_stdout w'
          = (Trajectory.tf_stdout w
               ++ map (fun ew => Tensorflow.epoch_line (Z.of_nat (fst ew)) (snd ew))
                      (combine (seq e0 n) ws))%list.
Proof.
  induction n as [|n IH]; intros e0 w; cbn [seq map fold_left flat_map].
  - split; [reflexivity|]. split; [reflexivity|]. exists []. split; [reflexivity|].
    cbn. now rewrite app_nil_r.
  - cbv zeta in IH.
    destruct (IH (S e0) (Tensorflow.epoch_body w (Z.of_nat e0))) as (Hw & Hy & ws & Hl & Hs).
    destruct (epoch_body_run w (Z.of_nat e0)) as (Hw0 & _ & _ & wl & Hs0 & _).
    destruct (TensorflowFacts.epoch_body_facts w (Z.of_nat e0)) as (_ & Hx & Hy0 & Hk).
    cbv zeta in *. rewrite Hw, Hw0, Hy, Hx, Hk.
    split; [|split; [exact Hy0|]].
    + rewrite tf_updates_app, Nat.add_0_r. f_equal.
      rewrite <- seq_shift, !flat_map_concat_map, map_map. f_equal.
      apply map_ext. intros j. f_equal. lia.
    + exists (wl :: ws). split; [cbn; now rewrite Hl|].
      rewrite Hs, Hs0, <- app_assoc. reflexivity.
Qed.

End Facts.

End TfRunFacts.

(** ** The four metrics of an epoch *)

Module TfMetricFacts.

Import Batching BatchingFacts.

Section Facts.
Context {num : TfNumerics}.

Lemma Q_count_succ (c : Q) (n : nat) :
  (c + 1 + inject_Z (Z.of_nat n) == c + inject_Z (Z.of_nat (S n)))%Q.
Proof.
  rewrite Nat2Z.inj_succ. unfold Z.succ. rewrite inject_Z_plus.
  rewrite <- !Qplus_assoc. apply Qplus_comp; [reflexivity|]. apply Qplus_comm.
Qed.

(** The batches are the chunks of the order of the traversal, images and
    labels apart: their labels together are the labels of the order. *)
Lemma chunk_labels (order : list (Image * nat)) (B : nat) :
  flat_map snd (map (fun b => (map fst b, map snd b)) (chunks B [] order))
  = map snd order.
Proof.
  rewrite <- (chunks_concat B order []) at 2. cbn [app].
  generalize (chunks B [] order). intros cs.
  induction cs as [|c cs IH]; [reflexivity|].
  cbn [map flat_map List.concat snd]. now rewrite map_app, IH.
Qed.

Lemma train_step_metrics w b :
  let w' := Tensorflow.train_step w b in
  let predictions := model (Tensorflow.variables w) true (fst b) in
  Tensorflow.train_loss w'
  = Tensorflow.mean_update (Tensorflow.train_loss w) (loss_object (snd b) predictions)
  /\ Tensorflow.train_accuracy w'
     = Tensorflow.accuracy_update (Tensorflow.train_accuracy w) (snd b) predictions
  /\ Tensorflow.test_loss w' = Tensorflow.test_loss w.
Proof.
  destruct b as [images labels]. unfold Tensorflow.train_step.
  cbn [Tensorflow.emit Tensorflow.variables Tensorflow.optimizer fst snd].
  destruct (apply_gradients _ _ _) as [v o].
  unfold Tensorflow.call_accuracy, Tensorflow.call_mean.
  cbn [Tensorflow.set_metric Tensorflow.get_metric Tensorflow.emit
       Tensorflow.set_variables Tensorflow.train_loss Tensorflow.train_accuracy
       Tensorflow.test_loss]. repeat split.
Qed.

Lemma test_step_metrics w b :
  let w' := Tensorflow.test_step w b in
  Tensorflow.test_loss w'
  = Tensorflow.mean_update (Tensorflow.test_loss w)
      (loss_object (snd b) (model (Tensorflow.variables w) false (fst b)))
  /\ Tensorflow.train_loss w' = Tensorflow.train_loss w
  /\ Tensorflow.train_accuracy w' = Tensorflow.train_accuracy w.
Proof.
  destruct b as [images labels]. unfold Tensorflow.test_step.
  unfold Tensorflow.call_accuracy, Tensorflow.call_mean.
  cbn [Tensorflow.set_metric Tensorflow.get_metric Tensorflow.emit
       Tensorflow.variables Tensorflow.train_loss Tensorflow.train_accuracy
       Tensorflow.test_loss fst snd]. repeat split.
Qed.

(** The training steps count the batches in the loss metric and the labels
    in the accuracy metric. *)
Lemma train_steps_counts bs : forall w,
  let w' := fold_left Tensorflow.train_step bs w in
  (Tensorflow.m_count (Tensorflow.train_loss w')
   == Tensorflow.m_count (Tensorflow.train_loss w)
      + inject_Z (Z.of_nat (List.length bs)))%Q
  /\ (Tensorflow.m_count (Tensorflow.train_accuracy w')
      == Tensorflow.m_count (Tensorflow.train_accuracy w)
         + inject_Z (Z.of_nat (List.length (flat_map snd bs))))%Q
  /\ Tensorflow.test_loss w' = Tensorflow.test_loss w.
Proof.
  induction bs as [|b rest IH]; intros w; cbn [fold_left].
  - split; [symmetry; apply Qplus_0_r|]. split; [symmetry; apply Qplus_0_r|reflexivity].
  - cbv zeta in IH. destruct (IH (Tensorflow.train_step w b)) as (Hl & Ha & Ht).
    destruct (train_step_metrics w b) as (Hl0 & Ha0 & Ht0). cbv zeta in Hl0, Ha0.
    cbv zeta. rewrite Hl, Ha, Ht, Hl0, Ha0.
    cbn [Tensorflow.mean_update Tensorflow.accuracy_update Tensorflow.m_count
         List.length flat_map].
    split; [apply Q_count_succ|]. split; [|exact Ht0].
    rewrite length_app, Nat2Z.inj_add, inject_Z_plus. symmetry. apply Qplus_assoc.
Qed.

(** The test steps add the loss of every batch, each counted once, and
    leave the training metrics. *)
Lemma test_steps_loss bs : forall w,
  let w' := fold_left Tensorflow.test_step bs w in
  (Tensorflow.m_total (Tensorflow.test_loss w')
   == Tensorflow.m_total (Tensorflow.test_loss w)
      + Trajectory.tf_losses (Tensorflow.variables w) bs)%Q
  /\ (Tensorflow.m_count (Tensorflow.test_loss w')
      == Tensorflow.m_count (Tensorflow.test_loss w)
         + inject_Z (Z.of_nat (List.length bs)))%Q
  /\ Tensorflow.train_loss w' = Tensorflow.train_loss w
  /\ Tensorflow.train_accuracy w' = Tensorflow.train_accuracy w.
Proof.
  induction bs as [|b rest IH]; intros w; cbn [fold_left].
  - split; [symmetry; apply Qplus_0_r|]. split; [symmetry; apply Qplus_0_r|].
    split; reflexivity.
  - cbv zeta in IH. destruct (IH (Tensorflow.test_step w b)) as (Ht & Hc & Hl & Ha).
    destruct (test_step_metrics w b) as (Ht0 & Hl0 & Ha0).
    destruct (TfRunFacts.test_step_run w b) as (Hv0 & _).
    cbv zeta. rewrite Ht, Hc, Hl, Ha, Ht0, Hv0.
    cbn [Tensorflow.mean_update Tensorflow.m_total Tensorflow.m_count
         Trajectory.tf_losses fold_right List.length].
    split; [symmetry; apply Qplus_assoc|]. split; [apply Q_count_succ|].
    split; [exact Hl0 | exact Ha0].
Qed.

(** The training steps add, batch by batch, the correct predictions and
    the loss under the variables of before the update of the batch. *)
Lemma train_steps_totals bs : forall w,
  let w' := fold_left Tensorflow.train_step bs w in
  (Tensorflow.m_total (Tensorflow.train_accuracy w')
   == Tensorflow.m_total (Tensorflow.train_accuracy w)
      + inject_Z (Trajectory.tf_train_matches
                    (Tensorflow.variables w, Tensorflow.optimizer w) bs))%Q
  /\ (Tensorflow.m_total (Tensorflow.train_loss w')
      == Tensorflow.m_total (Tensorflow.train_loss w)
         + Trajectory.tf_train_losses
             (Tensorflow.variables w, Tensorflow.optimizer w) bs)%Q.
Proof.
  induction bs as [|b rest IH]; intros w; cbn [fold_left].
  - split; symmetry; apply Qplus_0_r.
  - cbv zeta in IH. destruct (IH (Tensorflow.train_step w b)) as (Ha & Hl).
    destruct (train_step_metrics w b) as (Hl0 & Ha0 & _). cbv zeta in Hl0, Ha0.
    destruct (TfRunFacts.train_step_run w b) as (Hrun & _).
    cbv zeta. rewrite Ha, Hl, Hl0, Ha0, Hrun.
    cbn [Tensorflow.mean_update Tensorflow.accuracy_update Tensorflow.m_total
         Trajectory.tf_train_matches Trajectory.tf_train_losses fst snd].
    rewrite inject_Z_plus. split; symmetry; apply Qplus_assoc.
Qed.

(** The body of the epoch loop, its steps named. *)
Lemma epoch_body_unfold w epoch :
  let w1 := Tensorflow.call_reset
              (Tensorflow.call_reset
                 (Tensorflow.call_reset
                    (Tensorflow.call_reset w Tensorflow.TrainLoss)
                    Tensorflow.TrainAccuracy)
                 Tensorflow.TestLoss)
              Tensorflow.TestAccuracy in
  let w2 := Tensorflow.set_traversals w1 (S (Tensorflow.traversals w)) in
  let w3 := fold_left Tensorflow.train_step
              (Tensorflow.batches (Tensorflow.train_ds (Tensorflow.xy_train w))
                                  (Tensorflow.traversals w)) w2 in
  let w4 := fold_left Tensorflow.test_step
              (Tensorflow.batches (Tensorflow.test_ds (Tensorflow.xy_test w3)) 0) w3 in
  Tensorflow.epoch_body w epoch
  = Tensorflow.emit w4 (Tensorflow.Print (Tensorflow.epoch_line epoch w4)).
Proof. reflexivity. Qed.

Lemma epoch_body_metrics w epoch :
  Permutation (shuffled (Tensorflow.traversals w) (Tensorflow.xy_train w))
              (Tensorflow.xy_train w) ->
  let w' := Tensorflow.epoch_body w epoch in
  let test_batches := Tensorflow.batches (Tensorflow.test_ds (Tensorflow.xy_test w)) 0 in
  (Tensorflow.m_count (Tensorflow.train_loss w')
   == inject_Z (Z.of_nat (ceil_div (List.length (Tensorflow.xy_train w)) 32)))%Q
  /\ (Tensorflow.m_count (Tensorflow.train_accuracy w')
      == inject_Z (Z.of_nat (List.length (Tensorflow.xy_train w))))%Q
  /\ (Tensorflow.m_count (Tensorflow.test_loss w')
      == inject_Z (Z.of_nat (ceil_div (List.length (Tensorflow.xy_test w)) 32)))%Q
  /\ (Tensorflow.m_total (Tensorflow.test_loss w')
      == Trajectory.tf_losses (Tensorflow.variables w') test_batches)%Q.
Proof.
  intros Hp. cbv zeta. rewrite epoch_body_unfold. cbv zeta.
  set (w1 := Tensorflow.call_reset _ Tensorflow.TestAccuracy).
  set (w2 := Tensorflow.set_traversals w1 _).
  set (trb := Tensorflow.batches (Tensorflow.train_ds (Tensorflow.xy_train w))
                                 (Tensorflow.traversals w)).
  destruct (train_steps_counts trb w2) as (Hl3 & Ha3 & Ht3). cbv zeta in Hl3, Ha3, Ht3.
  destruct (TensorflowFacts.train_steps_facts trb w2) as [_ (_ & Hy3 & _)].
  set (w3 := fold_left Tensorflow.train_step trb w2) in *.
  assert (Hy : Tensorflow.xy_test w3 = Tensorflow.xy_test w) by (rewrite Hy3; reflexivity).
  rewrite Hy.
  set (teb := Tensorflow.batches (Tensorflow.test_ds (Tensorflow.xy_test w)) 0).
  destruct (test_steps_loss teb w3) as (Ht4 & Hc4 & Hl4 & Ha4).
  destruct (TfRunFacts.test_steps_run teb w3) as (Hv4 & _).
  cbv zeta in Ht4, Hc4, Hl4, Ha4, Hv4.
  set (w4 := fold_left Tensorflow.test_step teb w3) in *.
  cbn [Tensorflow.emit Tensorflow.train_loss Tensorflow.train_accuracy
       Tensorflow.test_loss Tensorflow.variables].
  assert (Htr : List.length trb = ceil_div (List.length (Tensorflow.xy_train w)) 32).
  { unfold trb, Tensorflow.batches.
    cbn [Tensorflow.train_ds Tensorflow.shuffle_buffer Tensorflow.elements Tensorflow.batch].
    rewrite length_map, chunks_length by (cbn; lia).
    cbn [List.length Nat.add]. now rewrite (Permutation_length Hp). }
  assert (Hlab : List.length (flat_map snd trb) = List.length (Tensorflow.xy_train w)).
  { unfold trb, Tensorflow.batches.
    cbn [Tensorflow.train_ds Tensorflow.shuffle_buffer Tensorflow.elements Tensorflow.batch].
    rewrite chunk_labels, length_map. exact (Permutation_length Hp). }
  assert (Hte : List.length teb = ceil_div (List.length (Tensorflow.xy_test w)) 32).
  { unfold teb, Tensorflow.batches.
    cbn [Tensorflow.test_ds Tensorflow.shuffle_buffer Tensorflow.elements Tensorflow.batch].
    rewrite length_map, chunks_length by (cbn; lia). reflexivity. }
  split; [|split; [|split]].
  - rewrite Hl4, Hl3, Htr. apply Qplus_0_l.
  - rewrite Ha4, Ha3, Hlab. apply Qplus_0_l.
  - rewrite Hc4, Ht3, Hte. apply Qplus_0_l.
  - rewrite Ht4, Hv4, Ht3. apply Qplus_0_l.
Qed.

Lemma epoch_body_train_totals w epoch :
  let w' := Tensorflow.epoch_body w epoch in
  let train_batches :=
    Tensorflow.batches (Tensorflow.train_ds (Tensorflow.xy_train w))
                       (Tensorflow.traversals w) in
  (Tensorflow.m_total (Tensorflow.train_accuracy w')
   == inject_Z (Trajectory.tf_train_matches
                  (Tensorflow.variables w, Tensorflow.optimizer w) train_batches))%Q
  /\ (Tensorflow.m_total (Tensorflow.train_loss w')
      == Trajectory.tf_train_losses
           (Tensorflow.variables w, Tensorflow.optimizer w) train_batches)%Q.
Proof.
  cbv zeta. rewrite epoch_body_unfold. cbv zeta.
  set (w1 := Tensorflow.call_reset _ Tensorflow.TestAccuracy).
  set (w2 := Tensorflow.set_traversals w1 _).
  set (trb := Tensorflow.batches (Tensorflow.train_ds (Tensorflow.xy_train w))
                                 (Tensorflow.traversals w)).
  destruct (train_steps_totals trb w2) as (Ha3 & Hl3). cbv zeta in Ha3, Hl3.
  set (w3 := fold_left Tensorflow.train_step trb w2) in *.
  set (teb := Tensorflow.batches (Tensorflow.test_ds (Tensorflow.xy_test w3)) 0).
  destruct (test_steps_loss teb w3) as (_ & _ & Hl4 & Ha4). cbv zeta in Hl4, Ha4.
  cbn [Tensorflow.emit Tensorflow.train_loss Tensorflow.train_accuracy].
  rewrite Hl4, Ha4, Ha3, Hl3. split; apply Qplus_0_l.
Qed.

(** The epoch starts by the four resets: what the metrics held does not
    enter. *)
Lemma epoch_body_forgets w epoch (m1 m2 m3 m4 : Tensorflow.Metric) :
  Tensorflow.epoch_body
    (Tensorflow.set_metric
       (Tensorflow.set_metric
          (Tensorflow.set_metric
             (Tensorflow.set_metric w Tensorflow.TrainLoss m1)
             Tensorflow.TrainAccuracy m2)
          Tensorflow.TestLoss m3)
       Tensorflow.TestAccuracy m4) epoch
  = Tensorflow.epoch_body w epoch.
Proof. rewrite !epoch_body_unfold. reflexivity. Qed.

End Facts.

End TfMetricFacts.

(** ** Which inputs the models accept *)

Module ShapeRunFacts.

Import Torch.

(** A convolution with kernel 5, stride 1 and padding 2 keeps the height
    and the width; a pooling with kernel 2 halves them, rounding down. *)
Lemma conv_same (h : Z) : conv_out h 5 1 2 = h.
Proof. unfold conv_out. rewrite Z.div_1_r. lia. Qed.

Lemma pool_half (h : Z) : pool_out h 2 = h / 2.
Proof. unfold pool_out. Z.to_euclidean_division_equations. lia. Qed.

(** One block [Conv2d(cin, cout, 5, 1, 2); ReLU; MaxPool2d(2)] on a batch. *)
Lemma block_shape (cin cout K C H W : Z) :
  Sequential [Conv2dLayer (Conv2d cin cout 5 1 2); ReLU; MaxPool2d 2] [K; C; H; W]
  = if (C =? cin) && (2 <=? H) && (2 <=? W)
    then Some [K; cout; H / 2; W / 2] else None.
Proof.
  cbn [Sequential apply in_channels out_channels].
  unfold conv2d_hw. cbn [kernel_size padding stride].
  rewrite !conv_same.
  destruct (Z.eqb_spec C cin) as [_|_]; cbn [andb]; [|reflexivity].
  repeat match goal with
         | |- context [?a <=? ?b] => destruct (Z.leb_spec a b); cbn [andb]
         end;
    rewrite ?pool_half; try reflexivity; lia.
Qed.

(** [x.view(x.size(0), -1)] on a batch: the rows are flattened when the
    batch is not empty, and the call raises when it is. *)
Lemma view_flat (K c h w : Z) :
  view [K; c; h; w] [K; -1] = if 1 <=? K then Some [K; c * (h * (w * 1))] else None.
Proof.
  destruct (Z.leb_spec 1 K) as [HK|HK].
  - unfold view. cbn [existsb filter fold_right List.length map].
    assert (E1 : (K <? -1) = false) by (apply Z.ltb_ge; lia).
    assert (E2 : (K =? -1) = false) by (apply Z.eqb_neq; lia).
    assert (E3 : (K =? 0) = false) by (apply Z.eqb_neq; lia).
    rewrite E1, E2. cbn. rewrite Z.mul_1_r.
    rewrite E3, (Z.mul_comm K), Z.mod_mul, Z.div_mul by lia.
    reflexivity.
  - assert (HC : K < -1 \/ K = -1 \/ K = 0) by lia.
    destruct HC as [HC|[->| ->]]; [|reflexivity|reflexivity].
    unfold view. cbn [existsb].
    now rewrite (proj2 (Z.ltb_lt K (-1)) HC).
Qed.

(** [CNN.forward] on a batch, in closed form. *)
Lemma forward_closed (K C H W : Z) :
  CNN.forward CNN.init [K; C; H; W]
  = if (C =? 1) && (4 <=? H) && (4 <=? W) && (1 <=? K) && (H / 4 * (W / 4) =? 49)
    then Some ([K; 10], [K; 1568]) else None.
Proof.
  unfold CNN.forward. cbn [CNN.conv1 CNN.conv2 CNN.out CNN.init].
  rewrite block_shape.
  destruct (Z.eqb_spec C 1) as [_|_]; cbn [andb]; [|reflexivity].
  destruct (Z.leb_spec 2 H) as [H2|H2]; cbn [andb].
  2: { destruct (Z.leb_spec 4 H); [lia | reflexivity]. }
  destruct (Z.leb_spec 2 W) as [W2|W2]; cbn [andb].
  2: { destruct (Z.leb_spec 4 H), (Z.leb_spec 4 W); cbn [andb]; try reflexivity; lia. }
  rewrite block_shape, Z.eqb_refl. cbn [andb].
  rewrite !Z.div_div by lia. change (2 * 2) with 4.
  assert (E4 : forall x, (2 <=? x / 2) = (4 <=? x)).
  { intros x. destruct (Z.leb_spec 2 (x / 2)), (Z.leb_spec 4 x); try reflexivity;
      exfalso; Z.to_euclidean_division_equations; lia. }
  rewrite !E4.
  destruct (Z.leb_spec 4 H) as [H4|H4]; cbn [andb]; [|reflexivity].
  destruct (Z.leb_spec 4 W) as [W4|W4]; cbn [andb]; [|reflexivity].
  cbn [size nth_error]. rewrite view_flat.
  destruct (Z.leb_spec 1 K) as [HK|HK]; cbn [andb]; [|reflexivity].
  cbn [apply rev app].
  change (32 * 7 * 7) with 1568.
  destruct (Z.eqb_spec (32 * (H / 4 * (W / 4 * 1))) 1568) as [E|E],
           (Z.eqb_spec (H / 4 * (W / 4)) 49) as [E'|E'];
    [rewrite E; reflexivity | lia | lia | reflexivity].
Qed.

(** [MyModel.call] on an input of rank 4, in closed form. *)
Lemma call_closed (K H W C : Z) :
  MyModel.call MyModel.init [K; H; W; C]
  = if (3 <=? H) && (3 <=? W) then Some [K; 10] else None.
Proof.
  unfold MyModel.call.
  cbn [MyModel.conv1 MyModel.flatten MyModel.d1 MyModel.d2 MyModel.init Keras.apply].
  destruct ((3 <=? H) && (3 <=? W)); reflexivity.
Qed.

End ShapeRunFacts.

(** ** [train], then [test] *)

Module TrainTestFacts.

Import Batching LoopFacts BatchingFacts DataLoaderFacts.

Section Facts.
Context {T : TorchTypes} {num : TorchNumerics}.

(** The epochs leave the loaders and the gradient mode. *)
Lemma epochs_loaders (E : Z) (St : nat) (ds : list (Img * nat)) (n : nat)
  (Hne : ds <> []) :
  (forall k, Permutation (randperm k (List.length ds)) (seq 0 (List.length ds))) ->
  forall (e0 : nat) (w w' : Pytorch.World),
    Pytorch.loader_train (Pytorch.the_loaders w) = DataLoader.Build ds 100 true ->
    Pytorch.grad_enabled w = true ->
    Pytorch.cnn_training w = true ->
    for_each (Pytorch.train_epoch E St) w (map Z.of_nat (seq e0 n)) = (w', Py.Done) ->
    Pytorch.the_loaders w' = Pytorch.the_loaders w
    /\ Pytorch.grad_enabled w' = true.
Proof.
  intros Hp. induction n as [|n IH]; intros e0 w w' Hd Hg Ht H.
  - cbn in H. injection H as <-. split; [reflexivity | exact Hg].
  - cbn [seq map for_each] in H.
    destruct (TrainFacts.train_epoch_calls E St e0 w ds Hne Hd Hg Ht (Hp _))
      as (w1 & vs & Hb & _ & _ & _ & _ & Hg1 & Ht1 & Hd1 & _).
    rewrite Hb in H. rewrite <- Hd1 in Hd.
    apply IH in H; [| exact Hd | exact Hg1 | exact Ht1].
    destruct H as [H Hg']. split; [now rewrite H | exact Hg'].
Qed.

(** The world [train] leaves. *)
Lemma train_world (E : Z) (w : Pytorch.World) (ds : list (Img * nat))
  (Hne : ds <> []) :
  Pytorch.loader_train (Pytorch.the_loaders w) = DataLoader.Build ds 100 true ->
  Pytorch.grad_enabled w = true ->
  (forall k, Permutation (randperm k (List.length ds)) (seq 0 (List.length ds))) ->
  exists w',
    Pytorch.train E w = (w', Py.Done)
    /\ Pytorch.the_loaders w' = Pytorch.the_loaders w
    /\ Pytorch.grad_enabled w' = true
    /\ Pytorch.rng w' = (Pytorch.rng w + Z.to_nat E)%nat
    /\ (Pytorch.cnn_params w', Pytorch.optimizer w')
       = Trajectory.torch_updates (Pytorch.cnn_params w, Pytorch.optimizer w)
           (flat_map (fun j => Pytorch.batches_of_draw (DataLoader.Build ds 100 true)
                                                       (Pytorch.rng w + j))
                     (seq 0 (Z.to_nat E))).
Proof.
  intros Hdl Hg Hp.
  destruct (TrainFacts.train_calls E w ds Hne Hdl Hg Hp) as (w' & vss & Ht & _).
  exists w'. split; [exact Ht|].
  unfold Pytorch.train, Py.range in Ht.
  pose proof (TrainRunFacts.epochs_weights E _ ds (Z.to_nat E) Hne Hp 0
                (Pytorch.set_training w true) w' Hdl Hg eq_refl Ht) as [Hw Hr].
  pose proof (epochs_loaders E _ ds (Z.to_nat E) Hne Hp 0
                (Pytorch.set_training w true) w' Hdl Hg eq_refl Ht) as [Hl Hg'].
  split; [exact Hl|]. split; [exact Hg'|]. split; [exact Hr | exact Hw].
Qed.

(** The draws [test] has made are those of the traversal of the test
    loader, however it ends: the loop draws nothing. *)
Lemma test_body_rng (st : Pytorch.World * Pytorch.Locals) (b : DataLoader.Batch Img) :
  Pytorch.rng (fst (fst (Pytorch.test_body st b))) = Pytorch.rng (fst st).
Proof.
  destruct st as [w l], b as [images labels]. unfold Pytorch.test_body.
  destruct (cnn _ _ _) as [test_output last_layer].
  destruct (TorchOps.max_indices test_output) as [pred_y|]; [|reflexivity].
  destruct (TorchOps.eq_sum pred_y labels) as [n|]; [|reflexivity].
  destruct (List.length labels =? 0)%nat; reflexivity.
Qed.

Lemma test_rng (w : Pytorch.World) :
  Pytorch.rng (fst (Pytorch.test w))
  = Pytorch.rng (fst (Pytorch.traverse w (Pytorch.loader_test (Pytorch.the_loaders w)))).
Proof.
  unfold Pytorch.test, Pytorch.test_loop.
  set (w0 := Pytorch.set_grad_enabled (Pytorch.set_training w false) false).
  change (Pytorch.the_loaders w0) with (Pytorch.the_loaders w).
  set (dl := Pytorch.loader_test (Pytorch.the_loaders w)).
  assert (H0 : Pytorch.rng (fst (Pytorch.traverse w0 dl))
               = Pytorch.rng (fst (Pytorch.traverse w dl)))
    by (unfold Pytorch.traverse;
        destruct (DataLoader.shuffle dl); [destruct (DataLoader.dataset dl)|]; reflexivity).
  destruct (Pytorch.traverse w0 dl) as [w1 gen]. cbn [fst] in H0.
  pose proof (for_gen_respects
                (fun s s' : Pytorch.World * Pytorch.Locals =>
                   Pytorch.rng (fst s') = Pytorch.rng (fst s))
                Pytorch.test_body
                (fun s => eq_refl)
                (fun s1 s2 s3 H12 H23 => eq_trans H23 H12)
                test_body_rng gen (w1, Pytorch.MkLocals 0 0 None)) as H.
  cbn [fst] in H.
  destruct (for_gen Pytorch.test_body _ gen) as [[w2 l2] [|e]]; cbn [fst] in H.
  - destruct (Pytorch.accuracy l2); cbn; now rewrite H.
  - cbn. now rewrite H.
Qed.

End Facts.

End TrainTestFacts.

(** ** The shapes of the models *)

Module ShapeFacts.

Lemma view_rows (K c h w : Z) :
1 <= K -> Torch.view [K; c; h; w] [K; -1] = Some [K; c * (h * (w * 1))].
Proof.
intros HK. unfold Torch.view.
cbn [existsb filter fold_right List.length map].
assert (E1 : (K <? -1) = false) by (apply Z.ltb_ge; lia).
assert (E2 : (K =? -1) = false) by (apply Z.eqb_neq; lia).
assert (E3 : (K =? 0) = false) by (apply Z.eqb_neq; lia).
rewrite E1, E2. cbn. rewrite Z.mul_1_r.
rewrite E3, (Z.mul_comm K), Z.mod_mul, Z.div_mul by lia.
reflexivity.
Qed.

Lemma conv1_shape (K : Z) :
Torch.Sequential (CNN.conv1 CNN.init) [K; 1; 28; 28] = Some [K; 16; 14; 14].
Proof. reflexivity. Qed.

Lemma conv2_shape (K : Z) :
Torch.Sequential (CNN.conv2 CNN.init) [K; 16; 14; 14] = Some [K; 32; 7; 7].
Proof. reflexivity. Qed.

Lemma forward_shape (K : Z) :
1 <= K -> CNN.forward CNN.init [K; 1; 28; 28] = Some ([K; 10], [K; 1568]).
Proof.
intros HK. unfold CNN.forward. rewrite conv1_shape, conv2_shape.
cbn [Torch.size nth_error]. rewrite view_rows by assumption. reflexivity.
Qed.

(** The empty batch is refused: the [-1] of the [view] is ambiguous. *)
Lemma forward_empty_batch : CNN.forward CNN.init [0; 1; 28; 28] = None.
Proof. reflexivity. Qed.

(** Images of another size are refused by the linear layer. *)
Lemma forward_other_size : CNN.forward CNN.init [4; 1; 32; 32] = None.
Proof. reflexivity. Qed.

Lemma call_shape (K : Z) : MyModel.call MyModel.init [K; 28; 28; 1] = Some [K; 10].
Proof. reflexivity. Qed.

End ShapeFacts.

(** ** Only the scores of [cnn(x)] are used *)

Module FeatureFacts.

Import Batching LoopFacts.

Section Facts.
Context {T : TorchTypes} (num : TorchNumerics).
Variable g : Params -> bool -> list Img -> Feat.

Let num' : TorchNumerics := replace_features num g.

Lemma train_body_features E S e w ib :
  Pytorch.train_body (num := num') E S e w ib = Pytorch.train_body (num := num) E S e w ib.
Proof. destruct ib as [i [images labels]]. reflexivity. Qed.

Lemma test_body_features st b :
  Pytorch.test_body (num := num') st b = Pytorch.test_body (num := num) st b.
Proof.
  destruct st as [w l], b as [images labels]. unfold Pytorch.test_body.
  cbn [cnn num' replace_features].
  destruct (cnn (Pytorch.cnn_params w) (Pytorch.cnn_training w) images); reflexivity.
Qed.

Lemma train_features E w :
  Pytorch.train (num := num') E w = Pytorch.train (num := num) E w.
Proof.
  unfold Pytorch.train. apply for_each_ext. intros s epoch.
  unfold Pytorch.train_epoch.
  change (Pytorch.traverse (num := num') s) with (Pytorch.traverse (num := num) s).
  destruct (Pytorch.traverse _ _) as [w1 gen]. unfold for_gen.
  rewrite (for_each_ext _ _ (train_body_features E _ epoch)). reflexivity.
Qed.

Lemma test_features w :
  Pytorch.test (num := num') w = Pytorch.test (num := num) w.
Proof.
  unfold Pytorch.test, Pytorch.test_loop.
  change (Pytorch.traverse (num := num')) with (Pytorch.traverse (num := num)).
  destruct (Pytorch.traverse _ _) as [w1 gen]. unfold for_gen.
  rewrite (for_each_ext _ _ test_body_features).
  destruct (for_each _ _ _) as [[w2 l] [|e]]; [|reflexivity].
  destruct (snd gen); [|reflexivity].
  destruct (Pytorch.accuracy l); reflexivity.
Qed.
End Facts.

End FeatureFacts.

(** * The properties of the notebooks *)

(** C4.  For every batch of K >= 1 images of 28 x 28 pixels, the scores the
    model returns have the shape (K, 10): the first component of
    [CNN.forward] in the PyTorch notebook, the value of [MyModel.call] in
    the TensorFlow notebook. *)
Theorem model_output_shape (K : Z) (HK : 1 <= K) :
  option_map fst (CNN.forward CNN.init [K; 1; 28; 28]) = Some [K; 10]
  /\ MyModel.call MyModel.init [K; 28; 28; 1] = Some [K; 10].
Proof.
  split.
  - rewrite ShapeFacts.forward_shape by exact HK. reflexivity.
  - apply ShapeFacts.call_shape.
Qed.

Lemma model_output_shape_witness :
  option_map fst (CNN.forward CNN.init [3; 1; 28; 28]) = Some [3; 10]
  /\ MyModel.call MyModel.init [3; 28; 28; 1] = Some [3; 10].
Proof. apply (model_output_shape 3). lia. Defined.

(** C10.  The forward pass of the PyTorch model returns a pair: the logits
    of shape (K, 10) and the flattened output of [conv2] of shape
    (K, 32*7*7) = (K, 1568).  [train] and [test] use the first component
    only: they do the same whatever the second component is. *)
Theorem forward_returns_pair (K : Z) (HK : 1 <= K) :
  CNN.forward CNN.init [K; 1; 28; 28] = Some ([K; 10], [K; 32 * 7 * 7])
  /\ 32 * 7 * 7 = 1568
  /\ (forall (T : TorchTypes) (num : TorchNumerics)
             (g : Params -> bool -> list Img -> Feat)
             (E : Z) (w : Pytorch.World),
         Pytorch.train (num := replace_features num g) E w = Pytorch.train (num := num) E w
         /\ Pytorch.test (num := replace_features num g) w = Pytorch.test (num := num) w).
Proof.
  split; [apply ShapeFacts.forward_shape, HK|]. split; [reflexivity|].
  intros T num g E w. split.
  - apply FeatureFacts.train_features.
  - apply FeatureFacts.test_features.
Qed.

Lemma forward_returns_pair_witness :
  CNN.forward CNN.init [2; 1; 28; 28] = Some ([2; 10], [2; 1568]).
Proof. apply (forward_returns_pair 2). lia. Defined.

(** C5.  [test] changes neither the weights of the model, nor their
    gradient buffers, nor the state of the optimizer, and it restores the
    gradient mode, however it ends; [test_step] of the TensorFlow notebook,
    on one batch and over all the test batches, changes neither the
    variables of the model nor the state of the optimizer. *)
Theorem evaluation_leaves_weights
  {T : TorchTypes} {num : TorchNumerics} {tf : TfNumerics}
  (w : Pytorch.World) (tw : Tensorflow.World)
  (b : list Image * list nat) (bs : list (list Image * list nat)) :
  (let w' := fst (Pytorch.test w) in
   Pytorch.cnn_params w' = Pytorch.cnn_params w
   /\ Pytorch.optimizer w' = Pytorch.optimizer w
   /\ Pytorch.cnn_grad w' = Pytorch.cnn_grad w
   /\ Pytorch.grad_enabled w' = Pytorch.grad_enabled w)
  /\ (Tensorflow.variables (Tensorflow.test_step tw b) = Tensorflow.variables tw
      /\ Tensorflow.optimizer (Tensorflow.test_step tw b) = Tensorflow.optimizer tw)
  /\ (Tensorflow.variables (fold_left Tensorflow.test_step bs tw) = Tensorflow.variables tw
      /\ Tensorflow.optimizer (fold_left Tensorflow.test_step bs tw) = Tensorflow.optimizer tw).
Proof.
  split; [|split].
  - destruct (PytorchFacts.test_frame w) as [(H1 & H2 & H3) H4]. cbv zeta. auto.
  - apply TensorflowFacts.test_step_facts.
  - apply TensorflowFacts.test_steps_facts.
Qed.

(** C9.  With an epoch count of 0, [train] ends at once: it has set the
    training flag and nothing else, so the weights are unchanged; the
    epoch loop of the TensorFlow notebook changes nothing at all. *)
Theorem zero_epochs_identity
  {T : TorchTypes} {num : TorchNumerics} {tf : TfNumerics}
  (w : Pytorch.World) (tw : Tensorflow.World) :
  Pytorch.train 0 w = (Pytorch.set_training w true, Py.Done)
  /\ Pytorch.cnn_params (fst (Pytorch.train 0 w)) = Pytorch.cnn_params w
  /\ Pytorch.optimizer (fst (Pytorch.train 0 w)) = Pytorch.optimizer w
  /\ Pytorch.calls (fst (Pytorch.train 0 w)) = Pytorch.calls w
  /\ Tensorflow.epoch_loop 0 tw = tw.
Proof. repeat split. Qed.

(** C8.  The predictions [test] takes from a batch of scores,
    [torch.max(test_output, 1)[1]], are, row by row, the index of the
    highest score, and the lowest such index when several scores tie; this
    index is unique. *)
Theorem prediction_is_first_max (test_output : list (list Q))
  (Hrows : Forall (fun row => row <> []) test_output) :
  exists pred_y,
    TorchOps.max_indices test_output = Some pred_y
    /\ Forall2 Prediction.is_first_max test_output pred_y
    /\ (forall pred, Forall2 Prediction.is_first_max test_output pred -> pred = pred_y).
Proof.
  induction Hrows as [|row rest Hrow _ (pred & E & Hall & Huniq)].
  - exists []. repeat split; [constructor|]. intros pred H. now inversion H.
  - destruct (TorchOpsFacts.max_index_first_max row Hrow) as (i & Ei & Hi).
    exists (i :: pred). cbn [TorchOps.max_indices]. rewrite Ei, E.
    repeat split; [constructor; assumption|].
    intros pred' H. inversion H as [|? j ? pred'' Hj Hrest]; subst.
    f_equal; [eapply TorchOpsFacts.first_max_unique; eassumption | now apply Huniq].
Qed.

Lemma prediction_is_first_max_witness :
  exists pred_y,
    TorchOps.max_indices [[1; 3; 3; 2]; [0; 0]; [5]]%Q = Some pred_y
    /\ Forall2 Prediction.is_first_max [[1; 3; 3; 2]; [0; 0]; [5]]%Q pred_y
    /\ (forall pred, Forall2 Prediction.is_first_max [[1; 3; 3; 2]; [0; 0]; [5]]%Q pred
                     -> pred = pred_y).
Proof.
  apply (prediction_is_first_max [[1; 3; 3; 2]; [0; 0]; [5]]%Q).
  repeat constructor; discriminate.
Defined.

(** C6.  With an empty test partition no accuracy is computed and the run
    ends by an uncaught exception: the cell that builds [loaders] raises
    (the constructor of the shuffled test loader refuses the empty
    dataset); and [test], over a test loader whose dataset is empty, ends
    by an exception without a call of the model and without printing
    anything.  Over a shuffled loader, as the one of the notebook, the
    exception is the [ZeroDivisionError] of the random sampler, which
    divides by the size of the dataset before it draws; over a loader
    that is not shuffled no batch is yielded, and the exception is the
    [UnboundLocalError] of the variable [accuracy], which the [print]
    reads and no iteration has assigned. *)
Theorem empty_test_partition_raises
  {T : TorchTypes} {num : TorchNumerics}
  (train_data : list (Img * nat)) (w : Pytorch.World)
  (Hempty : Pytorch.test_data w = []) :
  Pytorch.loaders train_data (Pytorch.test_data w) = None
  /\ exists w' e,
       Pytorch.test w = (w', Py.Raised e)
       /\ Pytorch.calls w' = Pytorch.calls w
       /\ Pytorch.stdout w' = Pytorch.stdout w
       /\ (DataLoader.shuffle (Pytorch.loader_test (Pytorch.the_loaders w)) = true ->
           e = Py.ZeroDivisionError)
       /\ (DataLoader.shuffle (Pytorch.loader_test (Pytorch.the_loaders w)) = false ->
           e = Py.UnboundLocalError "accuracy").
Proof.
  split.
  - rewrite Hempty. unfold Pytorch.loaders.
    destruct (DataLoader.init train_data 100 true); reflexivity.
  - destruct (TestFacts.test_empty w Hempty) as (w' & e & Ht & Hc & Hs & Hu).
    exists w', e. split; [exact Ht|]. split; [exact Hc|].
    split; [unfold Pytorch.stdout; now rewrite Hc|].
    split; [exact Hs | exact Hu].
Qed.

Lemma empty_test_partition_raises_witness :
  let w := Small.world [(1, 1)]%nat [] in
  Pytorch.loaders (T := Small.types) [(1, 1)]%nat (Pytorch.test_data w) = None
  /\ exists w',
       Pytorch.test (num := Small.numerics) w = (w', Py.Raised Py.ZeroDivisionError)
       /\ Pytorch.calls w' = Pytorch.calls w
       /\ Pytorch.stdout w' = Pytorch.stdout w.
Proof.
  intros w.
  destruct (empty_test_partition_raises (num := Small.numerics) [(1, 1)]%nat w eq_refl)
    as (HL & w' & e & Ht & Hc & Hs & He & _).
  split; [exact HL|]. exists w'.
  rewrite <- (He eq_refl). split; [exact Ht|]. split; [exact Hc | exact Hs].
Defined.

(** C2.  One traversal of a [DataLoader] built over a dataset of [N]
    samples with a positive batch size [B] (the sampler's order being a
    permutation of the indices) ends normally and yields exactly ceil(N/B)
    batches, which is [len(loader)]; their samples, taken together, are the
    dataset up to order, every batch before the last has [B] samples, and
    the last has [N mod B] samples when [B] does not divide [N] and [B]
    otherwise.  The same holds for the batches of a TensorFlow dataset
    whose shuffle yields a permutation of its elements. *)
Theorem batch_provider_epoch
  {Img : Type} (ds : list (Img * nat)) (B : nat) (shuffle : bool)
  (dl : DataLoader.t Img) (perm : list nat)
  {tf : TfNumerics} (tds : Tensorflow.Dataset) (k : nat)
  (HB : (0 < B)%nat)
  (Hinit : DataLoader.init ds B shuffle = Some dl)
  (Hperm : Permutation perm (seq 0 (List.length ds)))
  (HtB : (0 < Tensorflow.batch tds)%nat)
  (Hshuffled : Permutation (shuffled k (Tensorflow.elements tds)) (Tensorflow.elements tds)) :
  (exists bs,
      DataLoader.iter dl perm = (bs, Py.Done)
      /\ List.length bs = Batching.ceil_div (List.length ds) B
      /\ List.length bs = DataLoader.len dl
      /\ Permutation (flat_map DataLoader.samples bs) ds
      /\ (forall i, (S i < List.length bs)%nat ->
                    List.length (fst (nth i bs ([], []))) = B)
      /\ (bs <> [] ->
          List.length (fst (last bs ([], [])))
          = (if (List.length ds mod B =? 0)%nat then B else List.length ds mod B)%nat))
  /\ (let bs := Tensorflow.batches tds k in
      let N := List.length (Tensorflow.elements tds) in
      let B := Tensorflow.batch tds in
      List.length bs = Batching.ceil_div N B
      /\ Permutation (flat_map DataLoader.samples bs) (Tensorflow.elements tds)
      /\ (forall i, (S i < List.length bs)%nat ->
                    List.length (fst (nth i bs ([], []))) = B)
      /\ (bs <> [] ->
          List.length (fst (last bs ([], [])))
          = (if (N mod B =? 0)%nat then B else N mod B)%nat)).
Proof.
  split.
  - assert (Hdl : dl = DataLoader.Build ds B shuffle).
    { unfold DataLoader.init in Hinit.
      destruct (B =? 0)%nat; [discriminate|].
      destruct (shuffle && _); [discriminate|]. now injection Hinit. }
    subst dl.
    assert (Horder : Permutation (DataLoader.sampler (DataLoader.Build ds B shuffle) perm)
                                 (seq 0 (List.length ds))).
    { unfold DataLoader.sampler. cbn. destruct shuffle; [exact Hperm | reflexivity]. }
    eexists. split; [| split; [| split; [| split; [| split]]]].
    + unfold DataLoader.iter. cbn [DataLoader.dataset DataLoader.batch_size].
      apply DataLoaderFacts.traversal_batches; assumption.
    + apply DataLoaderFacts.traversal_count; assumption.
    + rewrite DataLoaderFacts.traversal_count by assumption. reflexivity.
    + apply DataLoaderFacts.traversal_covers; assumption.
    + intros i. apply DataLoaderFacts.traversal_full; assumption.
    + apply DataLoaderFacts.traversal_last; assumption.
  - assert (Horder : Permutation
                       match Tensorflow.shuffle_buffer tds with
                       | Some _ => shuffled k (Tensorflow.elements tds)
                       | None => Tensorflow.elements tds
                       end (Tensorflow.elements tds)).
    { destruct (Tensorflow.shuffle_buffer tds); [exact Hshuffled | reflexivity]. }
    unfold Tensorflow.batches. cbv zeta.
    split; [| split; [| split]].
    + apply DatasetFacts.batches_count; assumption.
    + apply DatasetFacts.batches_cover; assumption.
    + intros i. apply DatasetFacts.batches_full; assumption.
    + apply DatasetFacts.batches_last; assumption.
Qed.

Lemma batch_provider_epoch_witness :
  (exists bs,
      DataLoader.iter (DataLoader.Build Small.three 2 true) [2; 0; 1]%nat = (bs, Py.Done)
      /\ List.length bs = Batching.ceil_div 3 2
      /\ List.length bs = DataLoader.len (DataLoader.Build Small.three 2 true)
      /\ Permutation (flat_map DataLoader.samples bs) Small.three
      /\ (forall i, (S i < List.length bs)%nat ->
                    List.length (fst (nth i bs ([], []))) = 2%nat)
      /\ (bs <> [] -> List.length (fst (last bs ([], []))) = 1%nat))
  /\ (let bs := Tensorflow.batches Small.tf_three 0 in
      List.length bs = Batching.ceil_div 3 2
      /\ Permutation (flat_map DataLoader.samples bs) Small.three
      /\ (forall i, (S i < List.length bs)%nat ->
                    List.length (fst (nth i bs ([], []))) = 2%nat)
      /\ (bs <> [] -> List.length (fst (last bs ([], []))) = 1%nat)).
Proof.
  apply (batch_provider_epoch Small.three 2 true (DataLoader.Build Small.three 2 true)
           [2; 0; 1]%nat (tf := Small.tf_numerics) Small.tf_three 0).
  - cbn. lia.
  - reflexivity.
  - exact (Permutation_cons_append [0; 1]%nat 2%nat).
  - cbn. lia.
  - cbn. apply Permutation_sym, Permutation_rev.
Defined.

(** C1, at a test partition of 101 images of which the first 100 are
    labelled 0 and the last is labelled 1, the sampler keeping the order,
    and with a model that always answers class 0: [test] leaves [correct]
    and [total] at 0 and reports the accuracy of the last batch, which
    holds the one image labelled 1, that is 0.000, and not 100/101. *)
Theorem test_reports_last_batch :
  let w := Small.world [(0, 0)]%nat Small.test_101 in
  Pytorch.loaders (T := Small.types) [(0, 0)]%nat Small.test_101
  = Some (Pytorch.the_loaders w)
  /\ (forall p training xs,
      TorchOps.max_indices (fst (cnn (TorchNumerics := Small.numerics) p training xs))
      = Some (map (fun _ => 0%nat) xs))
  /\ List.length Small.test_101 = 101%nat
  /\ List.length (filter (fun s => Nat.eqb (snd s) 0) Small.test_101) = 100%nat
  /\ (exists w' l a,
         Pytorch.test_loop (num := Small.numerics)
           (Pytorch.set_grad_enabled (Pytorch.set_training w false) false)
         = ((w', l), Py.Done)
         /\ Pytorch.correct l = 0 /\ Pytorch.total l = 0
         /\ Pytorch.accuracy l = Some a
         /\ (a == 0)%Q /\ ~ (a == 100 # 101)%Q)
  /\ Pytorch.stdout (fst (Pytorch.test (num := Small.numerics) w))
     = ["Test Accuracy of the model on the 10000 test images: 0.000"%string].
Proof.
  split; [|split; [|split; [|split; [|split]]]].
  - reflexivity.
  - intros p training xs. cbn [cnn Small.numerics fst].
    induction xs as [|x xs IH]; [reflexivity|].
    cbn [map TorchOps.max_indices]. rewrite IH. reflexivity.
  - reflexivity.
  - reflexivity.
  - eexists _, _, _. split; [vm_compute; reflexivity|].
    repeat split; discriminate.
  - vm_compute. reflexivity.
Qed.

(** C3, as stated, fails on [train] of the PyTorch notebook: on one epoch
    over one batch its steps, restricted to the five kinds of the claim,
    are scores, loss, gradients and optimizer update; there is no update of
    a running loss. *)
Lemma train_has_no_running_loss :
  let w := Small.world [(5, 3)]%nat [(7, 0)]%nat in
  let dl := Pytorch.loader_train (Pytorch.the_loaders w) in
  Pytorch.loaders (T := Small.types) [(5, 3)]%nat [(7, 0)]%nat = Some (Pytorch.the_loaders w)
  /\ exists w',
    Pytorch.train (num := Small.numerics) 1 w = (w', Py.Done)
    /\ filter TrainingLoop.is_one_of_five (TrainingLoop.torch_log w')
       = [ TrainingLoop.Scores true [5%nat]; TrainingLoop.LossOf [3%nat];
           TrainingLoop.ComputeGradients; TrainingLoop.OptimizerUpdate ]
    /\ filter TrainingLoop.is_one_of_five (TrainingLoop.torch_log w')
       <> TrainingLoop.epochs TrainingLoop.five_steps 1
            (fun e => Pytorch.batches_of_draw (num := Small.numerics) dl e).
Proof.
  split; [reflexivity|].
  eexists. split; [vm_compute; reflexivity|].
  split; [reflexivity|]. vm_compute. discriminate.
Qed.

(** C3, amended.  For every epoch count [E], in particular every positive
    one, both loops run [E] full epochs and process every training batch
    of every epoch in order, once.  [train] of the PyTorch notebook (with
    gradients enabled and a sampler that draws permutations) ends normally
    and does on each batch: scores in training mode, loss against the
    labels, clearing of the gradients, gradients, one optimizer update;
    it keeps no running loss.  The epoch loop of the TensorFlow notebook
    does on each training batch: scores with [training=True], loss,
    gradients, one optimizer update, update of the running loss, update of
    the running accuracy; after the training batches of an epoch it
    evaluates every test batch.  Of the five steps of the specification,
    the TensorFlow loop makes all five in order, the PyTorch loop the
    first four. *)
Theorem training_loop_steps
  {T : TorchTypes} {num : TorchNumerics} {tf : TfNumerics}
  (E : Z) (train_data test_data : list (Img * nat))
  (w : Pytorch.World) (tw : Tensorflow.World)
  (Hloaders : Pytorch.loaders train_data test_data = Some (Pytorch.the_loaders w))
  (Hgrad : Pytorch.grad_enabled w = true)
  (Hperm : forall k, Permutation (randperm k (List.length train_data))
                                 (seq 0 (List.length train_data))) :
  (exists w',
      Pytorch.train E w = (w', Py.Done)
      /\ TrainingLoop.torch_log w'
         = (TrainingLoop.torch_log w
              ++ TrainingLoop.epochs TrainingLoop.torch_steps (Z.to_nat E)
                   (fun e => Pytorch.batches_of_draw
                               (Pytorch.loader_train (Pytorch.the_loaders w))
                               (Pytorch.rng w + e)))%list)
  /\ TrainingLoop.tf_log (Tensorflow.epoch_loop E tw)
     = (TrainingLoop.tf_log tw
          ++ flat_map (fun e =>
               flat_map TrainingLoop.tf_steps
                 (Tensorflow.batches (Tensorflow.train_ds (Tensorflow.xy_train tw))
                                     (Tensorflow.traversals tw + e))
               ++ flat_map TrainingLoop.tf_eval_steps
                    (Tensorflow.batches (Tensorflow.test_ds (Tensorflow.xy_test tw)) 0))
             (seq 0 (Z.to_nat E)))%list
  /\ (forall b : list Image * list nat,
         filter TrainingLoop.is_one_of_five (TrainingLoop.tf_steps b)
         = TrainingLoop.five_steps b)
  /\ (forall b : list Img * list nat,
         filter TrainingLoop.is_one_of_five (TrainingLoop.torch_steps b)
         = [ TrainingLoop.Scores true (fst b); TrainingLoop.LossOf (snd b);
             TrainingLoop.ComputeGradients; TrainingLoop.OptimizerUpdate ]).
Proof.
  split; [|split; [|split; reflexivity]].
  - destruct (TrainFacts.loaders_inv _ _ _ Hloaders) as (HL & Hne & _).
    assert (Hdl : Pytorch.loader_train (Pytorch.the_loaders w)
                  = DataLoader.Build train_data 100 true) by (now rewrite HL).
    destruct (TrainFacts.train_calls E w train_data Hne Hdl Hgrad Hperm)
      as (w' & vss & Ht & _ & _ & Hlog & _).
    exists w'. split; assumption.
  - apply (TensorflowFacts.epochs_facts (Z.to_nat E) 0 tw).
Qed.

Lemma training_loop_steps_witness :
  let w := Small.world [(5, 3); (6, 4)]%nat [(7, 0)]%nat in
  let tw := Small.tf_world [(5, 3); (6, 4)]%nat [(7, 0)]%nat in
  (exists w',
      Pytorch.train (num := Small.numerics) 2 w = (w', Py.Done)
      /\ TrainingLoop.torch_log w'
         = (TrainingLoop.torch_log w
              ++ TrainingLoop.epochs TrainingLoop.torch_steps (Z.to_nat 2)
                   (fun e => Pytorch.batches_of_draw (num := Small.numerics)
                               (Pytorch.loader_train (Pytorch.the_loaders w))
                               (Pytorch.rng w + e)))%list)
  /\ TrainingLoop.tf_log (Tensorflow.epoch_loop 2 tw)
     = (TrainingLoop.tf_log tw
          ++ flat_map (fun e =>
               flat_map TrainingLoop.tf_steps
                 (Tensorflow.batches (Tensorflow.train_ds (Tensorflow.xy_train tw))
                                     (Tensorflow.traversals tw + e))
               ++ flat_map TrainingLoop.tf_eval_steps
                    (Tensorflow.batches (Tensorflow.test_ds (Tensorflow.xy_test tw)) 0))
             (seq 0 (Z.to_nat 2)))%list.
Proof.
  intros w tw.
  destruct (training_loop_steps (num := Small.numerics) (tf := Small.tf_numerics) 2
              [(5, 3); (6, 4)]%nat [(7, 0)]%nat w tw) as (H1 & H2 & _).
  - reflexivity.
  - reflexivity.
  - intros k. apply Permutation_refl.
  - split; assumption.
Defined.

(** C7, as stated, fails on [test]: on a test partition of one image the
    line it prints names 10000 images, whatever the accuracy. *)
Lemma report_line_names_10000 :
  let w := Small.world [(5, 3)]%nat [(7, 0)]%nat in
  Pytorch.loaders (T := Small.types) [(5, 3)]%nat [(7, 0)]%nat = Some (Pytorch.the_loaders w)
  /\ List.length (Pytorch.test_data w) = 1%nat
  /\ exists w',
       Pytorch.test (num := Small.numerics) w = (w', Py.Done)
       /\ Pytorch.stdout w'
          = ["Test Accuracy of the model on the 10000 test images: 1.000"%string]
       /\ forall acc,
            ~ In (Report.report_line_of_size (num := Small.numerics) 1 acc)
                 (Pytorch.stdout w').
Proof.
  split; [reflexivity|]. split; [reflexivity|].
  eexists. split; [vm_compute; reflexivity|]. split; [reflexivity|].
  intros acc [H|[]]. unfold Report.report_line_of_size in H.
  change (Py.str 1) with "1"%string in H. cbn [append] in H. discriminate H.
Qed.

(** C7, amended.  [train] (with gradients enabled and a sampler that draws
    permutations) prints, in every epoch [e] of [E] and for every batch
    whose number [s] is a multiple of 100, the line
    [Epoch [e/E], Step [s/S], Loss: ] followed by the loss of that batch
    with 4 decimals, [S] being the number of batches of an epoch, and it
    prints nothing else.  [test] prints one line when it ends normally,
    [Test Accuracy of the model on the 10000 test images: ] followed by an
    accuracy with 3 decimals, and nothing when it raises; the count in the
    line is the literal 10000, not the size of the test partition. *)
Theorem report_lines
  {T : TorchTypes} {num : TorchNumerics}
  (E : Z) (train_data test_data : list (Img * nat)) (w wt : Pytorch.World)
  (Hloaders : Pytorch.loaders train_data test_data = Some (Pytorch.the_loaders w))
  (Hgrad : Pytorch.grad_enabled w = true)
  (Hperm : forall k, Permutation (randperm k (List.length train_data))
                                 (seq 0 (List.length train_data))) :
  let S := DataLoader.len (Pytorch.loader_train (Pytorch.the_loaders w)) in
  (exists w' vss,
      Pytorch.train E w = (w', Py.Done)
      /\ List.length vss = Z.to_nat E
      /\ Forall (fun vs => List.length vs = S) vss
      /\ Report.losses (Pytorch.calls w')
         = (Report.losses (Pytorch.calls w) ++ List.concat vss)%list
      /\ Pytorch.stdout w'
         = (Pytorch.stdout w ++ Report.train_lines_from E (Z.of_nat S) 0 vss)%list
      /\ (forall l, In l (Report.train_lines_from E (Z.of_nat S) 0 vss) ->
                    exists (e s : Z) (v : Q),
                      1 <= e <= E /\ 1 <= s <= Z.of_nat S /\ s mod 100 = 0
                      /\ In v (List.concat vss)
                      /\ l = Pytorch.progress_line e E s (Z.of_nat S) v))
  /\ (forall e i v,
         Pytorch.progress_line e E i (Z.of_nat S) v
         = ("Epoch [" ++ Py.str e ++ "/" ++ Py.str E ++ "], Step [" ++ Py.str i ++ "/"
              ++ Py.str (Z.of_nat S) ++ "], Loss: " ++ format_f 4 v)%string)
  /\ match Pytorch.test wt with
     | (wt', Py.Done) =>
         exists acc,
           Pytorch.stdout wt'
           = (Pytorch.stdout wt
                ++ [("Test Accuracy of the model on the 10000 test images: "
                       ++ format_f 3 acc)%string])%list
     | (wt', Py.Raised _) => Pytorch.stdout wt' = Pytorch.stdout wt
     end
  /\ (forall acc, Pytorch.report_line acc = Report.report_line_of_size 10000 acc).
Proof.
  intros S.
  destruct (TrainFacts.loaders_inv _ _ _ Hloaders) as (HL & Hne & _).
  assert (Hdl : Pytorch.loader_train (Pytorch.the_loaders w)
                = DataLoader.Build train_data 100 true) by (now rewrite HL).
  assert (HS : S = Batching.ceil_div (List.length train_data) 100)
    by (unfold S; rewrite Hdl; reflexivity).
  rewrite HS. clear HS S.
  split; [|split; [|split]].
  - destruct (TrainFacts.train_calls E w train_data Hne Hdl Hgrad Hperm)
      as (w' & vss & Ht & Hl & Hall & _ & Hloss & Hout).
    exists w', vss. repeat split; try assumption.
    intros l Hin.
    destruct (ReportFacts.train_lines_from_form E _ _ vss Hall 0%nat l Hin)
      as (e & s & v & He & Hs & Hm & Hv & Hline).
    exists e, s, v. repeat split; try assumption; lia.
  - reflexivity.
  - exact (TestFacts.test_stdout wt).
  - reflexivity.
Qed.

Lemma report_lines_witness :
  let w := Small.world [(5, 3); (6, 4)]%nat [(7, 0)]%nat in
  exists w' vss,
    Pytorch.train (num := Small.numerics) 2 w = (w', Py.Done)
    /\ List.length vss = 2%nat
    /\ Pytorch.stdout w'
       = (Pytorch.stdout w ++ Report.train_lines_from (num := Small.numerics) 2 1 0 vss)%list.
Proof.
  intros w.
  destruct (report_lines (num := Small.numerics) 2 [(5, 3); (6, 4)]%nat [(7, 0)]%nat w w)
    as [(w' & vss & H1 & H2 & _ & _ & H3 & _) _].
  - reflexivity.
  - reflexivity.
  - intros k. apply Permutation_refl.
  - exists w', vss. repeat split; assumption.
Defined.

(** ** Runs of the small instance *)

Example progress_line_100 :
  Pytorch.stdout
    (fst (Pytorch.train (num := Small.numerics) 1
            (Small.world (map (fun i => (i, i)) (seq 0 (100 * 100 + 1))) [(7, 0)]%nat)))
  = ["Epoch [1/1], Step [100/101], Loss: 25.0000"%string].
Proof. vm_compute. reflexivity. Qed.

Example first_maximum_wins :
  TorchOps.max_indices [[1; 3; 3; 2]; [0; 0]; [5]]%Q = Some [1; 0; 0]%nat.
Proof. reflexivity. Qed.

Example empty_test_set :
  Pytorch.test (num := Small.numerics) (Small.world [(5, 3)]%nat [])
  = (Pytorch.set_training (Small.world [(5, 3)]%nat []) false,
     Py.Raised Py.ZeroDivisionError).
Proof. reflexivity. Qed.

Example one_full_batch_is_exact :
  Pytorch.stdout
    (fst (Pytorch.test (num := Small.numerics)
            (Small.world [(5, 3)]%nat [(1, 0); (2, 1); (3, 0); (4, 0)]%nat)))
  = ["Test Accuracy of the model on the 10000 test images: 0.750"%string].
Proof. vm_compute. reflexivity. Qed.

Example str_10000 : Py.str 10000 = "10000"%string.
Proof. reflexivity. Qed.

(** * Further properties of the notebooks *)

(** ** [test] *)

(** X1.  When [test] ends normally, the test traversal has yielded at
    least one batch, the model has been called once on the images of every
    batch, in order and in inference mode, and the one line printed
    carries the accuracy of the last batch alone: the number of its
    predictions that equal their label over its number of labels. *)
Theorem test_prints_last_batch
  {T : TorchTypes} {num : TorchNumerics} (w w' : Pytorch.World)
  (Hdone : Pytorch.test w = (w', Py.Done)) :
  exists init b a,
    Evaluation.test_batches w = (init ++ [b])%list
    /\ Evaluation.batch_accuracy (Pytorch.cnn_params w) false b = Some a
    /\ Pytorch.calls w'
       = (Pytorch.calls w
            ++ map (fun b => Pytorch.Forward false (fst b)) (Evaluation.test_batches w)
            ++ [Pytorch.Print (Pytorch.report_line a)])%list
    /\ Pytorch.stdout w' = (Pytorch.stdout w ++ [Pytorch.report_line a])%list.
Proof.
  rewrite TestRunFacts.test_unfold in Hdone. cbv zeta in Hdone.
  set (w0 := Pytorch.set_grad_enabled (Pytorch.set_training w false) false) in *.
  set (dl := Pytorch.loader_test (Pytorch.the_loaders w)) in *.
  destruct (TestRunFacts.traverse_world w0 dl) as (Hp1 & Ht1 & Hc1 & _).
  unfold Evaluation.test_batches. fold dl.
  destruct (snd (Pytorch.traverse w dl)) as [bs fin]. cbn [fst snd] in *.
  destruct (Batching.for_each _ _ _) as [[w2 l2] [|e]] eqn:E; [|discriminate].
  destruct fin; [|discriminate].
  destruct (Pytorch.accuracy l2) as [a|] eqn:Ea; [|discriminate].
  injection Hdone as <-.
  apply EvaluationFacts.test_loop_done in E.
  destruct E as (Hp & Ht & Hc & _ & _ & Hnil & Hlast).
  rewrite Ht1 in Ht, Hc, Hlast. rewrite Hp1 in Hlast. rewrite Hc1 in Hc.
  cbn [Pytorch.set_grad_enabled Pytorch.set_training Pytorch.cnn_training
       Pytorch.cnn_params Pytorch.calls w0] in Ht, Hc, Hlast.
  destruct bs as [|b0 rest].
  - rewrite (Hnil eq_refl) in Ea. discriminate.
  - destruct (exists_last (l := b0 :: rest)) as (init & b & Elast); [discriminate|].
    destruct (Hlast init b Elast) as (a' & Hacc & Ha').
    assert (a' = a) by congruence. subst a'.
    exists init, b, a. split; [exact Elast|]. split; [exact Hacc|].
    assert (Hcalls : Pytorch.calls
                       (Pytorch.set_grad_enabled
                          (Pytorch.emit w2 (Pytorch.Print (Pytorch.report_line a)))
                          (Pytorch.grad_enabled w))
                     = (Pytorch.calls w
                          ++ map (fun b => Pytorch.Forward false (fst b)) (b0 :: rest)
                          ++ [Pytorch.Print (Pytorch.report_line a)])%list).
    { cbn [Pytorch.set_grad_enabled Pytorch.emit Pytorch.calls].
      rewrite Hc, <- app_assoc. reflexivity. }
    split; [exact Hcalls|].
    unfold Pytorch.stdout. rewrite Hcalls, !flat_map_app. cbn [flat_map].
    rewrite app_nil_r. f_equal.
    replace (flat_map _ (map _ (b0 :: rest))) with (@nil string); [reflexivity|].
    generalize (b0 :: rest). intros l. induction l; cbn; auto.
Qed.

Lemma test_prints_last_batch_witness :
  exists init b a,
    Evaluation.test_batches (num := Small.numerics)
      (Small.world [(0, 0)]%nat Small.test_101) = (init ++ [b])%list
    /\ Evaluation.batch_accuracy (num := Small.numerics) 0 false b = Some a
    /\ b = ([100%nat], [1%nat]).
Proof.
  destruct (test_prints_last_batch (num := Small.numerics)
              (Small.world [(0, 0)]%nat Small.test_101)
              (fst (Pytorch.test (num := Small.numerics)
                      (Small.world [(0, 0)]%nat Small.test_101))))
    as (init & b & a & H1 & H2 & _).
  - vm_compute. reflexivity.
  - exists init, b, a. split; [exact H1|]. split; [exact H2|].
    assert (E : Evaluation.test_batches (num := Small.numerics)
                  (Small.world [(0, 0)]%nat Small.test_101)
                = (removelast (Evaluation.test_batches (num := Small.numerics)
                                 (Small.world [(0, 0)]%nat Small.test_101))
                     ++ [([100%nat], [1%nat])])%list)
      by (vm_compute; reflexivity).
    rewrite E in H1. apply app_inj_tail in H1. symmetry. apply H1.
Defined.

(** X2.  The exceptions of [test].  The accuracy of a batch never divides
    by zero, since the batches of a loader are not empty: [test] ends by
    a [ZeroDivisionError] exactly when the test loader shuffles and its
    dataset is empty; the error is then that of the random sampler, and
    the model has not been called.  Otherwise, when [test] raises, the
    exception is an [IndexError] (a sample index out of range, or scores
    without a class), the [UnboundLocalError] of [accuracy] after a
    traversal without a batch, or the [RuntimeError] of predictions and
    labels whose sizes do not match. *)
Theorem test_exceptions
  {T : TorchTypes} {num : TorchNumerics} (w w' : Pytorch.World) (e : Py.exn)
  (Hraised : Pytorch.test w = (w', Py.Raised e)) :
  let dl := Pytorch.loader_test (Pytorch.the_loaders w) in
  (e = Py.ZeroDivisionError
   <-> DataLoader.shuffle dl = true /\ DataLoader.dataset dl = [])
  /\ (e = Py.ZeroDivisionError -> Pytorch.calls w' = Pytorch.calls w)
  /\ (e = Py.ZeroDivisionError
      \/ e = Py.IndexError
      \/ e = Py.UnboundLocalError "accuracy"
      \/ exists msg, e = Py.RuntimeError msg).
Proof.
  intros dl.
  destruct (TestRunFacts.traverse_iter w dl) as [(Hguard & perm & Hgen) | (Hs & Hd & Hgen)].
  - assert (H : e = Py.IndexError \/ e = Py.UnboundLocalError "accuracy"
                \/ exists msg, e = Py.RuntimeError msg).
    { rewrite TestRunFacts.test_unfold in Hraised. cbv zeta in Hraised.
      fold dl in Hraised.
      destruct (EvaluationFacts.iter_labelled dl perm) as [Hall Hfin].
      rewrite <- Hgen in Hall, Hfin.
      destruct (snd (Pytorch.traverse w dl)) as [bs fin]. cbn [fst snd] in *.
      destruct (Batching.for_each _ _ _) as [[w2 l2] [|e0]] eqn:E.
      - destruct Hfin as [-> | ->].
        + destruct (Pytorch.accuracy l2); [discriminate|].
          injection Hraised as _ <-. auto.
        + injection Hraised as _ <-. auto.
      - injection Hraised as _ <-.
        destruct (EvaluationFacts.test_loop_raised bs Hall _ _ _ E) as [Hi | Hr]; auto. }
    assert (Hnz : e <> Py.ZeroDivisionError)
      by (destruct H as [-> | [-> | (msg & ->)]]; discriminate).
    split; [|split].
    + split; [intros Hz; contradiction|].
      intros [Hs Hd]. destruct Hguard as [Hf | Hne]; [congruence | contradiction].
    + intros Hz. contradiction.
    + right. exact H.
  - destruct (TestFacts.test_empty w Hd) as (w0 & e0 & Ht & Hc & Hz & _).
    rewrite Hraised in Ht. injection Ht as <- <-.
    specialize (Hz Hs).
    split; [|split].
    + split; [intros _; split; assumption | intros _; exact Hz].
    + intros _. exact Hc.
    + left. exact Hz.
Qed.

Lemma test_exceptions_witness :
  let w := Small.world [(5, 3)]%nat [] in
  exists w',
    Pytorch.test (num := Small.numerics) w = (w', Py.Raised Py.ZeroDivisionError)
    /\ Pytorch.calls w' = Pytorch.calls w
    /\ Pytorch.test_data w = [].
Proof.
  intros w. exists (Pytorch.set_training w false).
  destruct (test_exceptions (num := Small.numerics) w (Pytorch.set_training w false)
              Py.ZeroDivisionError eq_refl) as (Hiff & H & _).
  split; [reflexivity|]. split; [exact (H eq_refl)|].
  exact (proj2 (proj1 Hiff eq_refl)).
Defined.

(** X3.  Over the loaders of the notebook, with a sampler that draws a
    permutation and a model that returns one row of scores per image,
    [test] ends normally and goes through the test partition exactly once:
    it calls the model in inference mode once per batch of the traversal,
    these batches hold every test sample once, there are ceil(N/100) of
    them, and one line is printed. *)
Theorem test_traverses_partition
  {T : TorchTypes} {num : TorchNumerics}
  (train_data test_data : list (Img * nat)) (w : Pytorch.World)
  (Hloaders : Pytorch.loaders train_data test_data = Some (Pytorch.the_loaders w))
  (Hperm : Permutation (randperm (Pytorch.rng w) (List.length test_data))
                       (seq 0 (List.length test_data)))
  (Hrows : Evaluation.one_row_per_image num) :
  exists w' a,
    Pytorch.test w = (w', Py.Done)
    /\ TrainingLoop.torch_log w'
       = (TrainingLoop.torch_log w
            ++ map (fun b => TrainingLoop.Scores false (fst b))
                   (Evaluation.test_batches w))%list
    /\ Permutation (flat_map DataLoader.samples (Evaluation.test_batches w)) test_data
    /\ List.length (Evaluation.test_batches w)
       = Batching.ceil_div (List.length test_data) 100
    /\ Pytorch.stdout w' = (Pytorch.stdout w ++ [Pytorch.report_line a])%list.
Proof.
  pose proof (TestLoaderFacts.test_batches_eq _ _ _ Hloaders Hperm) as Hgen.
  pose proof (TestLoaderFacts.test_batches_shape _ _ _ Hloaders Hperm) as Hshape.
  rewrite Forall_forall in Hshape.
  destruct (TestDoneFacts.test_runs w) as (w' & init & b & a & Ht & _ & _ & Hc).
  - rewrite Hgen. reflexivity.
  - exact (TestLoaderFacts.test_batches_nonempty _ _ _ Hloaders Hperm).
  - intros b Hin. destruct (Hshape b Hin).
    apply TestDoneFacts.batch_accuracy_some; assumption.
  - exists w', a. split; [exact Ht|].
    split; [unfold TrainingLoop.torch_log; rewrite Hc; apply TestDoneFacts.log_forwards|].
    split; [|split].
    + unfold Evaluation.test_batches. rewrite Hgen. cbn [fst].
      apply DataLoaderFacts.traversal_covers; solve [lia | exact Hperm].
    + unfold Evaluation.test_batches. rewrite Hgen. cbn [fst].
      apply DataLoaderFacts.traversal_count; solve [lia | exact Hperm].
    + unfold Pytorch.stdout. rewrite Hc. apply TestDoneFacts.stdout_forwards.
Qed.

Lemma test_traverses_partition_witness :
  let w := Small.world [(0, 0)]%nat Small.test_101 in
  exists w' a,
    Pytorch.test (num := Small.numerics) w = (w', Py.Done)
    /\ List.length (Evaluation.test_batches (num := Small.numerics) w) = 2%nat
    /\ Pytorch.stdout w'
       = (Pytorch.stdout w ++ [Pytorch.report_line (num := Small.numerics) a])%list.
Proof.
  intros w.
  destruct (test_traverses_partition (num := Small.numerics)
              [(0, 0)]%nat Small.test_101 w) as (w' & a & H1 & _ & _ & H4 & H5).
  - reflexivity.
  - apply Permutation_refl.
  - intros p training xs. exists (map (fun _ => 0%nat) xs).
    split; [|apply length_map]. cbn [cnn Small.numerics fst].
    induction xs as [|x xs IH]; [reflexivity|].
    cbn [map TorchOps.max_indices]. rewrite IH. reflexivity.
  - exists w', a. split; [exact H1|]. split; [exact H4|exact H5].
Defined.

(** X4.  Over the loaders of the notebook, with a test partition of at
    most 100 images (one batch) and a model that answers class 0 on every
    image, [test] reports exactly M/N, where M of the N test labels are
    0. *)
Theorem test_exact_on_one_batch
  {T : TorchTypes} {num : TorchNumerics}
  (train_data test_data : list (Img * nat)) (w : Pytorch.World)
  (Hloaders : Pytorch.loaders train_data test_data = Some (Pytorch.the_loaders w))
  (Hperm : Permutation (randperm (Pytorch.rng w) (List.length test_data))
                       (seq 0 (List.length test_data)))
  (Hsmall : (List.length test_data <= 100)%nat)
  (Hclass0 : Evaluation.always_class0 num) :
  exists w',
    Pytorch.test w = (w', Py.Done)
    /\ Pytorch.stdout w'
       = (Pytorch.stdout w
            ++ [Pytorch.report_line
                  (inject_Z (Evaluation.count_label 0 test_data)
                   / inject_Z (Z.of_nat (List.length test_data)))%Q])%list.
Proof.
  pose proof (TestLoaderFacts.test_batches_eq _ _ _ Hloaders Hperm) as Hgen.
  pose proof (TestLoaderFacts.test_data_nonempty _ _ _ Hloaders) as Hne.
  set (order := randperm (Pytorch.rng w) (List.length test_data)) in *.
  assert (Hlen : List.length order = List.length test_data)
    by (rewrite (Permutation_length Hperm); apply length_seq).
  assert (Hchunks : Batching.chunks 100 [] order = [order]).
  { apply (TestLoaderFacts.chunks_fit 100 order []); cbn [List.length app]; try lia.
    intros E. rewrite E in Hlen. destruct test_data; [congruence | discriminate]. }
  rewrite Hchunks in Hgen. cbn [map] in Hgen.
  set (ss := DataLoader.fetched test_data order) in *.
  assert (Hss : Permutation ss test_data).
  { unfold ss. apply (Permutation_trans
                        (l' := DataLoader.fetched test_data (seq 0 (List.length test_data)))).
    - unfold DataLoader.fetched. apply Permutation_flat_map, Hperm.
    - now rewrite DataLoaderFacts.fetched_range. }
  assert (Hacc : forall p,
             Evaluation.batch_accuracy p false (DataLoader.collate ss)
             = Some (inject_Z (Evaluation.count_label 0 test_data)
                     / inject_Z (Z.of_nat (List.length test_data)))%Q).
  { intros p. unfold Evaluation.batch_accuracy, DataLoader.collate. cbn [fst snd].
    rewrite Hclass0, TestLoaderFacts.eq_sum_class0, length_map.
    rewrite (TestLoaderFacts.count_label_perm 0 _ _ Hss), (Permutation_length Hss).
    destruct test_data; [congruence | reflexivity]. }
  destruct (TestDoneFacts.test_runs w) as (w' & init & b & a & Ht & Hb & Ha & Hc).
  - rewrite Hgen. reflexivity.
  - unfold Evaluation.test_batches. rewrite Hgen. discriminate.
  - unfold Evaluation.test_batches. rewrite Hgen. cbn [fst].
    intros b [<- | []]. eauto.
  - exists w'. split; [exact Ht|].
    unfold Evaluation.test_batches in Hb. rewrite Hgen in Hb. cbn [fst] in Hb.
    assert (Hlast : b = DataLoader.collate ss).
    { destruct init as [|b1 [|b2 init]]; cbn in Hb.
      - now injection Hb.
      - discriminate.
      - discriminate. }
    subst b. rewrite Hacc in Ha. injection Ha as <-.
    unfold Pytorch.stdout. rewrite Hc. apply TestDoneFacts.stdout_forwards.
Qed.

Lemma test_exact_on_one_batch_witness :
  let w := Small.world [(5, 3)]%nat [(1, 0); (2, 1); (3, 0); (4, 0)]%nat in
  exists w',
    Pytorch.test (num := Small.numerics) w = (w', Py.Done)
    /\ Pytorch.stdout w'
       = ["Test Accuracy of the model on the 10000 test images: 0.750"%string].
Proof.
  intros w.
  destruct (test_exact_on_one_batch (num := Small.numerics)
              [(5, 3)]%nat [(1, 0); (2, 1); (3, 0); (4, 0)]%nat w) as (w' & H1 & H2).
  - reflexivity.
  - apply Permutation_refl.
  - cbn. lia.
  - intros p training xs. cbn [cnn Small.numerics fst].
    induction xs as [|x xs IH]; [reflexivity|].
    cbn [map TorchOps.max_indices]. rewrite IH. reflexivity.
  - exists w'. split; [exact H1|]. rewrite H2. vm_compute. reflexivity.
Defined.

(** X5.  However they end, [test] leaves the model in inference mode and
    [train] leaves it in training mode; [train] computes its scores in
    training mode also when it follows [test], because it sets the mode
    itself. *)
Theorem modes_after_train_and_test
  {T : TorchTypes} {num : TorchNumerics} (E : Z) (w : Pytorch.World) :
  Pytorch.cnn_training (fst (Pytorch.test w)) = false
  /\ Pytorch.cnn_training (fst (Pytorch.train E w)) = true
  /\ Pytorch.cnn_training (fst (Pytorch.train E (fst (Pytorch.test w)))) = true
  /\ Pytorch.cnn_training (fst (Pytorch.test (fst (Pytorch.train E w)))) = false.
Proof.
  repeat split.
  - apply TestDoneFacts.test_mode.
  - apply TestDoneFacts.train_mode.
  - apply TestDoneFacts.train_mode.
  - apply TestDoneFacts.test_mode.
Qed.

(** ** [train] *)

(** X6.  [train] (over the loaders of the notebook, with gradients enabled
    and a sampler that draws permutations) prints floor(S/100) lines in
    every epoch, [S] being the number of batches of an epoch: E *
    floor(S/100) lines in all, and none when an epoch has fewer than 100
    batches. *)
Theorem train_line_count
  {T : TorchTypes} {num : TorchNumerics}
  (E : Z) (train_data test_data : list (Img * nat)) (w : Pytorch.World)
  (Hloaders : Pytorch.loaders train_data test_data = Some (Pytorch.the_loaders w))
  (Hgrad : Pytorch.grad_enabled w = true)
  (Hperm : forall k, Permutation (randperm k (List.length train_data))
                                 (seq 0 (List.length train_data))) :
  let S := DataLoader.len (Pytorch.loader_train (Pytorch.the_loaders w)) in
  exists w',
    Pytorch.train E w = (w', Py.Done)
    /\ List.length (Pytorch.stdout w')
       = (List.length (Pytorch.stdout w) + Z.to_nat E * (S / 100))%nat
    /\ ((S < 100)%nat -> Pytorch.stdout w' = Pytorch.stdout w).
Proof.
  intros S.
  destruct (TrainFacts.loaders_inv _ _ _ Hloaders) as (HL & Hne & _).
  assert (Hdl : Pytorch.loader_train (Pytorch.the_loaders w)
                = DataLoader.Build train_data 100 true) by (now rewrite HL).
  assert (HS : S = Batching.ceil_div (List.length train_data) 100)
    by (unfold S; rewrite Hdl; reflexivity).
  destruct (TrainFacts.train_calls E w train_data Hne Hdl Hgrad Hperm)
    as (w' & vss & Ht & Hl & Hall & _ & _ & Hout).
  rewrite <- HS in Hall, Hout.
  pose proof (TrainRunFacts.train_lines_from_length E (Z.of_nat S) S vss Hall 0) as Hn.
  exists w'. split; [exact Ht|]. split.
  - rewrite Hout, length_app, Hn, Hl. reflexivity.
  - intros Hlt. rewrite Hout.
    destruct (Report.train_lines_from E (Z.of_nat S) 0 vss) as [|l ls];
      [apply app_nil_r|].
    rewrite Nat.div_small in Hn by exact Hlt. cbn in Hn. lia.
Qed.

Lemma train_line_count_witness :
  let w := Small.world [(5, 3); (6, 4)]%nat [(7, 0)]%nat in
  exists w',
    Pytorch.train (num := Small.numerics) 2 w = (w', Py.Done)
    /\ Pytorch.stdout w' = Pytorch.stdout w.
Proof.
  intros w.
  destruct (train_line_count (num := Small.numerics) 2
              [(5, 3); (6, 4)]%nat [(7, 0)]%nat w) as (w' & H1 & _ & H3).
  - reflexivity.
  - reflexivity.
  - intros k. apply Permutation_refl.
  - exists w'. split; [exact H1|]. apply H3. cbn. lia.
Defined.

(** X7.  The weights [train] leaves are those of plain mini-batch
    training: starting from the weights and the optimizer state it finds,
    one Adam update per batch, in the order of the traversals, each with
    the gradient of the loss of that batch alone at the current weights
    in training mode (the gradients are cleared before every backward
    pass, so nothing accumulates).  There are E * ceil(N/100) updates, and
    the sampler has drawn E permutations. *)
Theorem train_weights
  {T : TorchTypes} {num : TorchNumerics}
  (E : Z) (train_data test_data : list (Img * nat)) (w : Pytorch.World)
  (Hloaders : Pytorch.loaders train_data test_data = Some (Pytorch.the_loaders w))
  (Hgrad : Pytorch.grad_enabled w = true)
  (Hperm : forall k, Permutation (randperm k (List.length train_data))
                                 (seq 0 (List.length train_data))) :
  let dl := Pytorch.loader_train (Pytorch.the_loaders w) in
  let batches := flat_map (fun e => Pytorch.batches_of_draw dl (Pytorch.rng w + e))
                          (seq 0 (Z.to_nat E)) in
  exists w',
    Pytorch.train E w = (w', Py.Done)
    /\ (Pytorch.cnn_params w', Pytorch.optimizer w')
       = Trajectory.torch_updates (Pytorch.cnn_params w, Pytorch.optimizer w) batches
    /\ List.length batches
       = (Z.to_nat E * Batching.ceil_div (List.length train_data) 100)%nat
    /\ Pytorch.rng w' = (Pytorch.rng w + Z.to_nat E)%nat.
Proof.
  intros dl batches.
  destruct (TrainFacts.loaders_inv _ _ _ Hloaders) as (HL & Hne & _).
  assert (Hdl : dl = DataLoader.Build train_data 100 true) by (unfold dl; now rewrite HL).
  destruct (TrainFacts.train_calls E w train_data Hne Hdl Hgrad Hperm)
    as (w' & vss & Ht & _).
  exists w'. split; [exact Ht|].
  unfold Pytorch.train, Py.range in Ht.
  apply (TrainRunFacts.epochs_weights E _ train_data (Z.to_nat E) Hne Hperm 0
           (Pytorch.set_training w true) w' Hdl Hgrad eq_refl) in Ht.
  destruct Ht as [Hw Hr]. unfold batches. rewrite Hdl.
  split; [exact Hw|]. split; [|exact Hr].
  rewrite (TrainRunFacts.flat_map_length_const _
             (Batching.ceil_div (List.length train_data) 100)), length_seq;
    [reflexivity|].
  intros e. apply TrainRunFacts.batches_of_draw_length, Hperm.
Qed.

Lemma train_weights_witness :
  let w := Small.world [(5, 3); (6, 4)]%nat [(7, 0)]%nat in
  exists w',
    Pytorch.train (num := Small.numerics) 3 w = (w', Py.Done)
    /\ Pytorch.cnn_params w' = -3
    /\ Pytorch.optimizer w' = 3%nat
    /\ Pytorch.rng w' = 3%nat.
Proof.
  intros w.
  destruct (train_weights (num := Small.numerics) 3
              [(5, 3); (6, 4)]%nat [(7, 0)]%nat w) as (w' & H1 & H2 & _ & H4).
  - reflexivity.
  - reflexivity.
  - intros k. apply Permutation_refl.
  - exists w'. split; [exact H1|].
    assert (H2' : (Pytorch.cnn_params w', Pytorch.optimizer w') = (-3, 3%nat))
      by (rewrite H2; vm_compute; reflexivity).
    injection H2' as Hp Ho. rewrite Hp, Ho. repeat split. exact H4.
Defined.

(** ** The TensorFlow loop *)

(** X8.  The variables the epoch loop leaves are those of plain mini-batch
    training over the training batches of the epochs, one Adam update per
    batch with the gradient of that batch at the current variables: the
    evaluation of the test batches inside every epoch, the metrics and
    the prints do not enter, and the test partition is left as it was. *)
Theorem tf_loop_weights {tf : TfNumerics} (E : Z) (w : Tensorflow.World) :
  let w' := Tensorflow.epoch_loop E w in
  (Tensorflow.variables w', Tensorflow.optimizer w')
  = Trajectory.tf_updates (Tensorflow.variables w, Tensorflow.optimizer w)
      (flat_map (fun e => Tensorflow.batches (Tensorflow.train_ds (Tensorflow.xy_train w))
                                             (Tensorflow.traversals w + e))
                (seq 0 (Z.to_nat E)))
  /\ Tensorflow.xy_test w' = Tensorflow.xy_test w.
Proof.
  cbv zeta. unfold Tensorflow.epoch_loop, Py.range.
  destruct (TfRunFacts.epochs_run (Z.to_nat E) 0 w) as (Hv & Hy & _).
  split; [exact Hv | exact Hy].
Qed.

(** X9.  At the end of an epoch the test accuracy metric is the aggregate
    over the whole test partition under the variables of the end of the
    epoch: its total is the number of correct predictions summed over all
    test batches, its count the number N of test samples, and its result
    their quotient; with an empty test partition the result is 0, without
    an error.  The line of the epoch is printed from a world with this
    metric. *)
Theorem tf_test_accuracy_is_aggregate {tf : TfNumerics}
  (w : Tensorflow.World) (epoch : Z) :
  let w' := Tensorflow.epoch_body w epoch in
  let test_batches := Tensorflow.batches (Tensorflow.test_ds (Tensorflow.xy_test w)) 0 in
  let correct := Trajectory.tf_matches (Tensorflow.variables w') test_batches in
  let N := Z.of_nat (List.length (Tensorflow.xy_test w)) in
  (Tensorflow.m_total (Tensorflow.test_accuracy w') == inject_Z correct)%Q
  /\ (Tensorflow.m_count (Tensorflow.test_accuracy w') == inject_Z N)%Q
  /\ (Tensorflow.xy_test w <> [] ->
      (Tensorflow.result (Tensorflow.test_accuracy w') == inject_Z correct / inject_Z N)%Q)
  /\ (Tensorflow.xy_test w = [] -> Tensorflow.result (Tensorflow.test_accuracy w') = 0%Q)
  /\ exists wl,
       Trajectory.tf_stdout w'
       = (Trajectory.tf_stdout w ++ [Tensorflow.epoch_line epoch wl])%list
       /\ Tensorflow.test_accuracy wl = Tensorflow.test_accuracy w'.
Proof.
  cbv zeta.
  destruct (TfRunFacts.epoch_body_run w epoch) as (_ & Ht & Hc & Hline).
  cbv zeta in Ht, Hc, Hline.
  split; [exact Ht|]. split; [exact Hc|]. split; [|split; [|exact Hline]].
  - intros Hne. unfold Tensorflow.result.
    destruct (Qeq_bool _ 0) eqn:Eb.
    + apply Qeq_bool_iff in Eb. rewrite Hc in Eb.
      destruct (Tensorflow.xy_test w); [congruence | discriminate Eb].
    + rewrite Ht, Hc. reflexivity.
  - intros He. unfold Tensorflow.result.
    destruct (Qeq_bool _ 0) eqn:Eb; [reflexivity|].
    apply Qeq_bool_neq in Eb. exfalso. apply Eb. rewrite Hc, He. reflexivity.
Qed.

Lemma tf_test_accuracy_is_aggregate_witness :
  let w := Small.tf_world [(5, 3); (6, 0)]%nat [(7, 0); (8, 1)]%nat in
  (Tensorflow.result (Tensorflow.test_accuracy (Tensorflow.epoch_body w 0)) == 1 # 2)%Q.
Proof.
  intros w.
  destruct (tf_test_accuracy_is_aggregate (tf := Small.tf_numerics) w 0)
    as (_ & _ & H & _).
  etransitivity; [apply H; discriminate | vm_compute; reflexivity].
Defined.

(** X10.  The epoch loop prints exactly one line per epoch and nothing
    else, the line of epoch [e] (counted from 0) being an epoch line
    numbered [e + 1]. *)
Theorem tf_one_line_per_epoch {tf : TfNumerics} (E : Z) (w : Tensorflow.World) :
  exists ws,
    List.length ws = Z.to_nat E
    /\ Trajectory.tf_stdout (Tensorflow.epoch_loop E w)
       = (Trajectory.tf_stdout w
            ++ map (fun ew => Tensorflow.epoch_line (Z.of_nat (fst ew)) (snd ew))
                   (Batching.enumerate ws))%list
    /\ List.length (Trajectory.tf_stdout (Tensorflow.epoch_loop E w))
       = (List.length (Trajectory.tf_stdout w) + Z.to_nat E)%nat.
Proof.
  destruct (TfRunFacts.epochs_run (Z.to_nat E) 0 w) as (_ & _ & ws & Hl & Hs).
  exists ws. unfold Batching.enumerate. rewrite Hl.
  split; [reflexivity|].
  unfold Tensorflow.epoch_loop, Py.range. split; [exact Hs|].
  cbv zeta in Hs. rewrite Hs, length_app, length_map, length_combine, length_seq, Hl. lia.
Qed.

(** X11.  The metrics of the TensorFlow notebook are those of the current
    epoch alone, whatever they held before it: at the end of an epoch the
    two loss metrics have counted the batches, ceil(N/32) of them, and the
    training accuracy has counted the samples.  The test loss is the sum
    of the losses of the test batches under the variables of the end of
    the epoch, divided by the number of batches: a short last batch
    weighs as much as a full one. *)
Theorem tf_metrics_of_epoch {tf : TfNumerics} (w : Tensorflow.World) (epoch : Z)
  (Hshuffle : Permutation (shuffled (Tensorflow.traversals w) (Tensorflow.xy_train w))
                          (Tensorflow.xy_train w)) :
  let w' := Tensorflow.epoch_body w epoch in
  let test_batches := Tensorflow.batches (Tensorflow.test_ds (Tensorflow.xy_test w)) 0 in
  let losses := Trajectory.tf_losses (Tensorflow.variables w') test_batches in
  let train_steps := Batching.ceil_div (List.length (Tensorflow.xy_train w)) 32 in
  let test_steps := Batching.ceil_div (List.length (Tensorflow.xy_test w)) 32 in
  (Tensorflow.m_count (Tensorflow.train_loss w') == inject_Z (Z.of_nat train_steps))%Q
  /\ (Tensorflow.m_count (Tensorflow.train_accuracy w')
      == inject_Z (Z.of_nat (List.length (Tensorflow.xy_train w))))%Q
  /\ (Tensorflow.m_count (Tensorflow.test_loss w') == inject_Z (Z.of_nat test_steps))%Q
  /\ (Tensorflow.m_total (Tensorflow.test_loss w') == losses)%Q
  /\ (Tensorflow.xy_test w <> [] ->
      (Tensorflow.result (Tensorflow.test_loss w')
       == losses / inject_Z (Z.of_nat test_steps))%Q).
Proof.
  cbv zeta.
  destruct (TfMetricFacts.epoch_body_metrics w epoch Hshuffle) as (Hl & Ha & Hc & Ht).
  cbv zeta in Hl, Ha, Hc, Ht.
  split; [exact Hl|]. split; [exact Ha|]. split; [exact Hc|]. split; [exact Ht|].
  intros Hne. unfold Tensorflow.result.
  destruct (Qeq_bool _ 0) eqn:Eb.
  - apply Qeq_bool_iff in Eb. rewrite Hc in Eb. exfalso.
    pose proof (BatchingFacts.ceil_div_bounds (List.length (Tensorflow.xy_test w)) 32
                  ltac:(lia)) as Hb.
    assert (Hpos : (0 < List.length (Tensorflow.xy_test w))%nat)
      by (destruct (Tensorflow.xy_test w); [congruence | cbn; lia]).
    unfold Qeq, inject_Z in Eb. cbn [Qnum Qden] in Eb. lia.
  - rewrite Ht, Hc. reflexivity.
Qed.

Lemma tf_metrics_of_epoch_witness :
  let w := Small.tf_world [(5, 3); (6, 0)]%nat [(7, 0); (8, 1)]%nat in
  (Tensorflow.result (Tensorflow.test_loss (Tensorflow.epoch_body w 0)) == 1 # 2)%Q.
Proof.
  intros w.
  destruct (tf_metrics_of_epoch (tf := Small.tf_numerics) w 0) as (_ & _ & _ & _ & H).
  - symmetry. apply Permutation_rev.
  - etransitivity; [apply H; discriminate | vm_compute; reflexivity].
Defined.

(** ** The shapes the models accept *)

(** X12.  [CNN.forward] accepts a batch of shape (K, C, H, W) exactly when
    it has one channel, at least one image, and a height and a width of
    at least 4 whose quarters (rounded down) multiply to 49; it then
    returns the shapes (K, 10) and (K, 1568).  So the images need not be
    28 x 28: every height and width from 28 to 31 is accepted; an empty
    batch is refused by [view]. *)
Theorem forward_accepts (K C H W : Z) :
  (forall r,
      CNN.forward CNN.init [K; C; H; W] = Some r
      <-> C = 1 /\ 1 <= K /\ 4 <= H /\ 4 <= W /\ H / 4 * (W / 4) = 49
          /\ r = ([K; 10], [K; 1568]))
  /\ (C = 1 -> 1 <= K -> 28 <= H <= 31 -> 28 <= W <= 31 ->
      CNN.forward CNN.init [K; C; H; W] = Some ([K; 10], [K; 1568]))
  /\ CNN.forward CNN.init [0; C; H; W] = None.
Proof.
  split; [|split].
  - intros r. rewrite ShapeRunFacts.forward_closed.
    destruct (Z.eqb_spec C 1), (Z.leb_spec 4 H), (Z.leb_spec 4 W), (Z.leb_spec 1 K),
             (Z.eqb_spec (H / 4 * (W / 4)) 49); cbn [andb];
      (split; [intros E; try discriminate E; injection E as <-; repeat split; assumption
              | intros (? & ? & ? & ? & ? & ->); try reflexivity; lia]).
  - intros HC HK HH HW. rewrite ShapeRunFacts.forward_closed.
    assert (EH : H / 4 = 7) by (Z.to_euclidean_division_equations; lia).
    assert (EW : W / 4 = 7) by (Z.to_euclidean_division_equations; lia).
    rewrite EH, EW, HC.
    destruct (Z.leb_spec 4 H), (Z.leb_spec 4 W), (Z.leb_spec 1 K);
      cbn [andb Z.eqb]; try reflexivity; lia.
  - rewrite ShapeRunFacts.forward_closed.
    change (1 <=? 0) with false. now rewrite !andb_false_r.
Qed.

Lemma forward_accepts_witness :
  CNN.forward CNN.init [2; 1; 30; 29] = Some ([2; 10], [2; 1568]).
Proof.
  destruct (forward_accepts 2 1 30 29) as (_ & H & _).
  apply H; lia.
Defined.

(** X13.  The cells that prepare the MNIST images make them fit the
    model: a pixel between 0 and 255 becomes a number between 0 and 1;
    [MyModel.call] refuses the batch of shape (K, H, W) as it is loaded,
    and accepts it once the channel axis is added, giving the shape
    (K, 10), exactly when the images are at least 3 x 3. *)
Theorem preprocessing_fits_model (K H W pixel : Z) (Hpixel : 0 <= pixel <= 255) :
  (0 <= Preprocess.normalize pixel <= 1)%Q
  /\ MyModel.call MyModel.init [K; H; W] = None
  /\ (forall y,
         MyModel.call MyModel.init (Preprocess.add_channel [K; H; W]) = Some y
         <-> 3 <= H /\ 3 <= W /\ y = [K; 10]).
Proof.
  split; [|split].
  - unfold Preprocess.normalize, Qle, Qdiv, Qmult, Qinv, inject_Z. cbn. lia.
  - reflexivity.
  - intros y. unfold Preprocess.add_channel. cbn [app].
    rewrite ShapeRunFacts.call_closed.
    destruct (Z.leb_spec 3 H), (Z.leb_spec 3 W); cbn [andb];
      (split; [intros E; try discriminate E; injection E as <-; repeat split; assumption
              | intros (? & ? & ->); try reflexivity; lia]).
Qed.

Lemma preprocessing_fits_model_witness :
  (Preprocess.normalize 51 == 1 # 5)%Q
  /\ MyModel.call MyModel.init (Preprocess.add_channel [32; 28; 28]) = Some [32; 10].
Proof.
  destruct (preprocessing_fits_model 32 28 28 51) as (_ & _ & H); [lia|].
  split; [reflexivity|]. apply H. repeat split; lia.
Defined.

(** ** The loaders *)

(** X14.  The cell that builds [loaders] raises exactly when one of the
    two partitions is empty (both loaders shuffle).  When it does not,
    both loaders have at least one batch: [len] gives ceil(N/100) for
    each. *)
Theorem loaders_raise_iff_empty {T : TorchTypes}
  (train_data test_data : list (Img * nat)) :
  (Pytorch.loaders train_data test_data = None <-> train_data = [] \/ test_data = [])
  /\ forall L,
       Pytorch.loaders train_data test_data = Some L ->
       DataLoader.len (Pytorch.loader_train L)
       = Batching.ceil_div (List.length train_data) 100
       /\ DataLoader.len (Pytorch.loader_test L)
          = Batching.ceil_div (List.length test_data) 100
       /\ (1 <= DataLoader.len (Pytorch.loader_train L))%nat
       /\ (1 <= DataLoader.len (Pytorch.loader_test L))%nat.
Proof.
  split.
  - unfold Pytorch.loaders, DataLoader.init. cbn [Nat.eqb andb].
    destruct train_data, test_data; cbn;
      (split; [intros H; try discriminate H; auto
              | intros [H|H]; try discriminate H; reflexivity]).
  - intros L HL.
    destruct (TrainFacts.loaders_inv _ _ _ HL) as (-> & Htr & Hte).
    cbn [Pytorch.loader_train Pytorch.loader_test].
    change (DataLoader.len (DataLoader.Build train_data 100 true))
      with (Batching.ceil_div (List.length train_data) 100).
    change (DataLoader.len (DataLoader.Build test_data 100 true))
      with (Batching.ceil_div (List.length test_data) 100).
    pose proof (BatchingFacts.ceil_div_bounds (List.length train_data) 100 ltac:(lia)).
    pose proof (BatchingFacts.ceil_div_bounds (List.length test_data) 100 ltac:(lia)).
    assert ((0 < List.length train_data)%nat)
      by (destruct train_data; [congruence | cbn; lia]).
    assert ((0 < List.length test_data)%nat)
      by (destruct test_data; [congruence | cbn; lia]).
    repeat split; lia.
Qed.

Lemma loaders_raise_iff_empty_witness :
  exists L,
    Pytorch.loaders (T := Small.types) Small.test_101 [(7, 0)]%nat = Some L
    /\ DataLoader.len (Pytorch.loader_train L) = 2%nat
    /\ DataLoader.len (Pytorch.loader_test L) = 1%nat.
Proof.
  eexists. split; [reflexivity|].
  destruct (loaders_raise_iff_empty (T := Small.types) Small.test_101 [(7, 0)]%nat)
    as [_ H].
  destruct (H _ eq_refl) as (H1 & H2 & _).
  split; [exact H1 | exact H2].
Defined.

(** ** [train], then [test] *)

(** X15.  [test] after [train]: over the loaders of the notebook, with a
    sampler that draws permutations and a model that returns one row of
    scores per image, both end normally; [test] evaluates the weights
    [train] has left, on the batches of the draw that follows the E draws
    of the training, and prints the accuracy of the last of these batches
    under these weights; it leaves the weights and the state of the
    optimizer as [train] left them, and the model in inference mode. *)
Theorem train_then_test
  {T : TorchTypes} {num : TorchNumerics}
  (E : Z) (train_data test_data : list (Img * nat)) (w : Pytorch.World)
  (Hloaders : Pytorch.loaders train_data test_data = Some (Pytorch.the_loaders w))
  (Hgrad : Pytorch.grad_enabled w = true)
  (Htrain : forall k, Permutation (randperm k (List.length train_data))
                                  (seq 0 (List.length train_data)))
  (Htest : forall k, Permutation (randperm k (List.length test_data))
                                 (seq 0 (List.length test_data)))
  (Hrows : Evaluation.one_row_per_image num) :
  let L := Pytorch.the_loaders w in
  let trained :=
    Trajectory.torch_updates (Pytorch.cnn_params w, Pytorch.optimizer w)
      (flat_map (fun e => Pytorch.batches_of_draw (Pytorch.loader_train L)
                                                  (Pytorch.rng w + e))
                (seq 0 (Z.to_nat E))) in
  let test_batches :=
    Pytorch.batches_of_draw (Pytorch.loader_test L) (Pytorch.rng w + Z.to_nat E) in
  exists w1 w2 init b a,
    Pytorch.train E w = (w1, Py.Done)
    /\ Pytorch.test w1 = (w2, Py.Done)
    /\ test_batches = (init ++ [b])%list
    /\ Evaluation.batch_accuracy (fst trained) false b = Some a
    /\ Pytorch.stdout w2 = (Pytorch.stdout w1 ++ [Pytorch.report_line a])%list
    /\ (Pytorch.cnn_params w2, Pytorch.optimizer w2) = trained
    /\ Pytorch.cnn_training w2 = false
    /\ Pytorch.rng w2 = S (Pytorch.rng w + Z.to_nat E).
Proof.
  intros L trained test_batches.
  destruct (TrainFacts.loaders_inv _ _ _ Hloaders) as (HL & Hne & Hne').
  assert (Hdl : Pytorch.loader_train L = DataLoader.Build train_data 100 true)
    by (unfold L; now rewrite HL).
  destruct (TrainTestFacts.train_world E w train_data Hne Hdl Hgrad Htrain)
    as (w1 & Ht & Hl1 & Hg1 & Hr1 & Hw1).
  assert (Hloaders1 : Pytorch.loaders train_data test_data = Some (Pytorch.the_loaders w1))
    by (now rewrite Hl1).
  pose proof (TestLoaderFacts.test_batches_eq _ _ _ Hloaders1 (Htest _)) as Hgen.
  pose proof (TestLoaderFacts.test_batches_shape _ _ _ Hloaders1 (Htest _)) as Hshape.
  rewrite Forall_forall in Hshape.
  destruct (TestDoneFacts.test_runs w1) as (w2 & init & b & a & Htest2 & Hsplit & Ha & Hc).
  - rewrite Hgen. reflexivity.
  - exact (TestLoaderFacts.test_batches_nonempty _ _ _ Hloaders1 (Htest _)).
  - intros b Hin. destruct (Hshape b Hin).
    apply TestDoneFacts.batch_accuracy_some; assumption.
  - assert (Hb : Evaluation.test_batches w1 = test_batches).
    { unfold Evaluation.test_batches, test_batches, Pytorch.batches_of_draw, L.
      rewrite Hl1, HL. cbn [Pytorch.loader_test].
      rewrite (PytorchFacts.traverse_shuffled w1 test_data 100 Hne').
      cbn [snd DataLoader.dataset]. now rewrite Hr1. }
    assert (Hp : Pytorch.cnn_params w1 = fst trained)
      by (unfold trained; rewrite Hdl, <- Hw1; reflexivity).
    pose proof (PytorchFacts.test_frame w1) as [(Hf1 & Hf2 & _) _].
    pose proof (TestDoneFacts.test_mode w1) as Hm.
    rewrite Htest2 in Hf1, Hf2, Hm. cbn [fst] in Hf1, Hf2, Hm.
    exists w1, w2, init, b, a.
    split; [exact Ht|]. split; [exact Htest2|].
    split; [now rewrite <- Hb|]. split; [now rewrite <- Hp|].
    split; [unfold Pytorch.stdout; rewrite Hc; apply TestDoneFacts.stdout_forwards|].
    split; [rewrite Hf1, Hf2; unfold trained; rewrite Hdl; exact Hw1|].
    split; [exact Hm|].
    pose proof (TrainTestFacts.test_rng w1) as Hrng.
    rewrite Htest2, Hl1, HL in Hrng. cbn [fst Pytorch.loader_test] in Hrng.
    rewrite (PytorchFacts.traverse_shuffled w1 test_data 100 Hne') in Hrng.
    cbn [fst Pytorch.set_rng Pytorch.rng] in Hrng. now rewrite Hrng, Hr1.
Qed.

Lemma train_then_test_witness :
  let w := Small.world [(5, 3); (6, 4)]%nat [(7, 0); (8, 0); (9, 1); (10, 0)]%nat in
  exists w1 w2,
    Pytorch.train (num := Small.numerics) 2 w = (w1, Py.Done)
    /\ Pytorch.test (num := Small.numerics) w1 = (w2, Py.Done)
    /\ Pytorch.stdout w2
       = (Pytorch.stdout w1 ++ [Pytorch.report_line (num := Small.numerics) (3 # 4)])%list
    /\ Pytorch.cnn_params w2 = -2.
Proof.
  intros w.
  destruct (train_then_test (num := Small.numerics) 2
              [(5, 3); (6, 4)]%nat [(7, 0); (8, 0); (9, 1); (10, 0)]%nat w)
    as (w1 & w2 & init & b & a & H1 & H2 & H3 & H4 & H5 & H6 & _).
  - reflexivity.
  - reflexivity.
  - intros k. apply Permutation_refl.
  - intros k. apply Permutation_refl.
  - intros p training xs. exists (map (fun _ => 0%nat) xs).
    split; [|apply length_map]. cbn [cnn Small.numerics fst].
    induction xs as [|x xs IH]; [reflexivity|].
    cbn [map TorchOps.max_indices]. rewrite IH. reflexivity.
  - exists w1, w2. split; [exact H1|]. split; [exact H2|].
    vm_compute in H3.
    destruct init as [|b0 init];
      [|exfalso; injection H3 as _ H3; destruct init; discriminate H3].
    injection H3 as <-. vm_compute in H4. injection H4 as <-.
    split; [exact H5|]. exact (f_equal fst H6).
Defined.

(** ** The metrics of the TensorFlow notebook, continued *)

(** X16.  What the four metrics hold when the epoch loop starts does not
    enter: every epoch begins by resetting them, so from one epoch on the
    loop leaves the same world, prints included, whatever the metrics
    were. *)
Theorem tf_epochs_forget_metrics {tf : TfNumerics}
  (E : Z) (HE : 1 <= E) (w : Tensorflow.World) (m1 m2 m3 m4 : Tensorflow.Metric) :
  Tensorflow.epoch_loop E
    (Tensorflow.set_metric
       (Tensorflow.set_metric
          (Tensorflow.set_metric
             (Tensorflow.set_metric w Tensorflow.TrainLoss m1)
             Tensorflow.TrainAccuracy m2)
          Tensorflow.TestLoss m3)
       Tensorflow.TestAccuracy m4)
  = Tensorflow.epoch_loop E w.
Proof.
  unfold Tensorflow.epoch_loop, Py.range.
  destruct (Z.to_nat E) as [|n] eqn:En; [lia|].
  cbn [seq map fold_left]. now rewrite TfMetricFacts.epoch_body_forgets.
Qed.

Lemma tf_epochs_forget_metrics_witness :
  let w := Small.tf_world [(5, 3); (6, 0)]%nat [(7, 0); (8, 1)]%nat in
  Tensorflow.epoch_loop 2
    (Tensorflow.set_metric w Tensorflow.TestAccuracy (Tensorflow.MkMetric 9 1))
  = Tensorflow.epoch_loop 2 w.
Proof.
  intros w.
  apply (tf_epochs_forget_metrics (tf := Small.tf_numerics) 2 ltac:(lia) w
           (Tensorflow.MkMetric 0 0) (Tensorflow.MkMetric 0 0) (Tensorflow.MkMetric 0 0)
           (Tensorflow.MkMetric 9 1)).
Defined.

(** X17.  The training metrics of an epoch are measured while the
    variables change: the total of the training accuracy sums, batch by
    batch, the correct predictions of the variables of before the update
    of that batch (in training mode), and the total of the training loss
    the losses of these same predictions, along the updates that lead to
    the variables of the end of the epoch. *)
Theorem tf_train_metrics_on_the_fly {tf : TfNumerics}
  (w : Tensorflow.World) (epoch : Z) :
  let w' := Tensorflow.epoch_body w epoch in
  let start := (Tensorflow.variables w, Tensorflow.optimizer w) in
  let train_batches :=
    Tensorflow.batches (Tensorflow.train_ds (Tensorflow.xy_train w))
                       (Tensorflow.traversals w) in
  (Tensorflow.m_total (Tensorflow.train_accuracy w')
   == inject_Z (Trajectory.tf_train_matches start train_batches))%Q
  /\ (Tensorflow.m_total (Tensorflow.train_loss w')
      == Trajectory.tf_train_losses start train_batches)%Q
  /\ (Tensorflow.variables w', Tensorflow.optimizer w')
     = Trajectory.tf_updates start train_batches.
Proof.
  cbv zeta.
  destruct (TfMetricFacts.epoch_body_train_totals w epoch) as (Ha & Hl).
  destruct (TfRunFacts.epoch_body_run w epoch) as (Hv & _).
  split; [exact Ha|]. split; [exact Hl | exact Hv].
Qed.
